(** * Smart mirror: the gesture and state engine of [script.js]

    A shallow embedding of [src/environment/script.js] and the properties of
    its pinch classifier, hit tests, snap alignment, swipe navigation and
    capture countdown.

    Conventions of the embedding.
    - JavaScript numbers that hold coordinates are IEEE 754 doubles, the
      primitive [float] of Rocq: [+], [-], [*], [/] and the comparisons are
      the operations of the source, with their rounding, their infinities
      and their NaN.  [Date.now()] readings are integers ([Z]).
    - [Math.abs], [Math.max] and [Math.round] are defined on [float] as
      ECMAScript specifies them.  [Math.hypot] is left to the engine by
      ECMAScript (an implementation-approximated value): it is a field of
      [Dom], and every property holds whatever function the engine
      provides.
    - The module-level [let] variables of the script are the fields of
      [State]; every function takes the state and returns the new one.
    - What the script reads from the browser (bounding rectangles, computed
      styles, the viewport, the video frame) is the [Dom] argument.  What it
      only writes for rendering (status line, cursor, CSS classes and
      transitions, the preview image) is left out, except the countdown
      numeral.
    - A property access on [undefined] throws a [TypeError]: functions that
      index a landmark list return a [Result], whose [Throw] carries the
      state as the exception leaves it. *)

From stdpp Require Import gmap strings list.
From Stdlib Require Import ZArith Floats Lia.

Set Warnings "-inexact-float".

Local Open Scope string_scope.
Local Open Scope Z_scope.
Local Open Scope list_scope.

(** ** Constants *)

Definition BUTTON_COOLDOWN_MS : Z := 800.
Definition SNAP_SIZE : float := 16.
Definition ALIGN_THRESHOLD : float := 140.
Definition BUTTON_HIT_EXPAND : float := 24.
Definition SWIPE_THRESHOLD : float := 0.2.
Definition SWIPE_TIME_MAX : Z := 900.
Definition SWIPE_COOLDOWN_MS : Z := 900.
Definition GESTURE_COOLDOWN_MS : Z := 1200.

(** ** Numbers *)

Definition Math_abs (x : float) : float := abs x.

(** [Math.max] of two numbers: NaN if either is NaN, and [+0] is larger
    than [-0]. *)
Definition Math_max (a b : float) : float :=
  if is_nan a || is_nan b then nan
  else if (a <? b)%float then b
  else if (b <? a)%float then a
  else if get_sign a then b else a.

(** The double of an integer below [2 ^ 53] in magnitude. *)
Definition Z2float (n : Z) : float :=
  if n <? 0 then (- of_uint63 (Uint63.of_Z (- n)))%float
  else of_uint63 (Uint63.of_Z n).

(** [Math.round]: the nearest integer, a half rounding up; [-0] for a
    negative number that rounds to zero.  A double whose exponent is not
    negative is an integer already; NaN, the infinities and the zeros are
    returned as they are. *)
Definition Math_round (x : float) : float :=
  match Prim2SF x with
  | S754_finite s m e =>
      if 0 <=? e then x
      else
        let n := Z.shiftr (cond_Zopp s (Z.pos m) + 2 ^ (- e - 1)) (- e) in
        if n =? 0 then (if s then (-0)%float else 0%float) else Z2float n
  | _ => x
  end.

(** ** Data *)

(** A point [{x, y}]: a landmark in camera coordinates or a pixel position. *)
Record Point := mkPoint { px : float; py : float }.

(** What [getBoundingClientRect] returns: the six properties the script
    reads. *)
Record DOMRect := mkDOMRect {
  left_ : float; top_ : float; right_ : float; bottom_ : float;
  width_ : float; height_ : float }.

(** A [.widget] element: its [id] and its bounding rectangle. *)
Record Element := mkElement { id : string; rect : DOMRect }.

(** The computed style properties [hitTestButtons] looks at. *)
Record Style := mkStyle {
  display : string; visibility : string; opacity : string;
  pointerEvents : string }.

(** A [.control-btn] element. *)
Record Button := mkButton {
  action : string; (* dataset.action *)
  styles : Style;
  brect : DOMRect }.

Record Dom := mkDom {
  mirrorRect : DOMRect;          (* mirror.getBoundingClientRect() *)
  innerWidth : float;
  innerHeight : float;
  widgetElements : list Element;
  controlButtons : list Button;
  videoFrame : string;           (* captureCanvas.toDataURL of the frame *)
  Math_hypot : float -> float -> float }.

(** An entry of [widgetState]; [el] is the position of the element in
    [widgetElements]. *)
Record WidgetState := mkWidgetState {
  el : nat; baseCenter : Point; offset : Point }.

Inductive PinchMode := PinchNone | PinchDrag | PinchButton | PinchIdle.
Inductive Mode := Mirror | TryOn.

(** A live [setInterval] timer of [triggerShutter]: its handle, the
    [counter] of its closure and the delay between two runs of the
    callback, in milliseconds. *)
Record Interval := mkInterval { handle : positive; counter : Z; delay : Z }.

Record State := mkState {
  widgetState : gmap string WidgetState;
  draggingId : option string;
  pinchActive : bool;
  pinchMode : PinchMode;
  editMode : bool;
  lastButtonPress : Z;
  mode : Mode;
  lastSwipeX : option float;
  lastSwipeTime : Z;
  swipeStartX : option float;
  swipeStartTime : Z;
  lastGestureTime : Z;
  isCountingDown : bool;
  countdownTimer : option positive;
  photoReady : bool;
  captureDataUrl : option string;
  (* the browser's timers *)
  intervals : list Interval;
  nextHandle : positive;
  (* countdownEl *)
  countdownText : Z;
  countdownHidden : bool;
  (* trace: the actions run by a pinch, with their time, newest first;
     the downloads started by savePhoto *)
  fired : list (Z * string);
  saved : list string }.

Definition set_widgetState (v : gmap string WidgetState) (s : State) : State :=
  mkState v (draggingId s) (pinchActive s) (pinchMode s) (editMode s)
    (lastButtonPress s) (mode s) (lastSwipeX s) (lastSwipeTime s)
    (swipeStartX s) (swipeStartTime s) (lastGestureTime s) (isCountingDown s)
    (countdownTimer s) (photoReady s) (captureDataUrl s) (intervals s)
    (nextHandle s) (countdownText s) (countdownHidden s) (fired s) (saved s).
Definition set_draggingId (v : option string) (s : State) : State :=
  mkState (widgetState s) v (pinchActive s) (pinchMode s) (editMode s)
    (lastButtonPress s) (mode s) (lastSwipeX s) (lastSwipeTime s)
    (swipeStartX s) (swipeStartTime s) (lastGestureTime s) (isCountingDown s)
    (countdownTimer s) (photoReady s) (captureDataUrl s) (intervals s)
    (nextHandle s) (countdownText s) (countdownHidden s) (fired s) (saved s).
Definition set_pinchActive (v : bool) (s : State) : State :=
  mkState (widgetState s) (draggingId s) v (pinchMode s) (editMode s)
    (lastButtonPress s) (mode s) (lastSwipeX s) (lastSwipeTime s)
    (swipeStartX s) (swipeStartTime s) (lastGestureTime s) (isCountingDown s)
    (countdownTimer s) (photoReady s) (captureDataUrl s) (intervals s)
    (nextHandle s) (countdownText s) (countdownHidden s) (fired s) (saved s).
Definition set_pinchMode (v : PinchMode) (s : State) : State :=
  mkState (widgetState s) (draggingId s) (pinchActive s) v (editMode s)
    (lastButtonPress s) (mode s) (lastSwipeX s) (lastSwipeTime s)
    (swipeStartX s) (swipeStartTime s) (lastGestureTime s) (isCountingDown s)
    (countdownTimer s) (photoReady s) (captureDataUrl s) (intervals s)
    (nextHandle s) (countdownText s) (countdownHidden s) (fired s) (saved s).
Definition set_editMode (v : bool) (s : State) : State :=
  mkState (widgetState s) (draggingId s) (pinchActive s) (pinchMode s) v
    (lastButtonPress s) (mode s) (lastSwipeX s) (lastSwipeTime s)
    (swipeStartX s) (swipeStartTime s) (lastGestureTime s) (isCountingDown s)
    (countdownTimer s) (photoReady s) (captureDataUrl s) (intervals s)
    (nextHandle s) (countdownText s) (countdownHidden s) (fired s) (saved s).
Definition set_lastButtonPress (v : Z) (s : State) : State :=
  mkState (widgetState s) (draggingId s) (pinchActive s) (pinchMode s)
    (editMode s) v (mode s) (lastSwipeX s) (lastSwipeTime s) (swipeStartX s)
    (swipeStartTime s) (lastGestureTime s) (isCountingDown s)
    (countdownTimer s) (photoReady s) (captureDataUrl s) (intervals s)
    (nextHandle s) (countdownText s) (countdownHidden s) (fired s) (saved s).
Definition set_mode (v : Mode) (s : State) : State :=
  mkState (widgetState s) (draggingId s) (pinchActive s) (pinchMode s)
    (editMode s) (lastButtonPress s) v (lastSwipeX s) (lastSwipeTime s)
    (swipeStartX s) (swipeStartTime s) (lastGestureTime s) (isCountingDown s)
    (countdownTimer s) (photoReady s) (captureDataUrl s) (intervals s)
    (nextHandle s) (countdownText s) (countdownHidden s) (fired s) (saved s).
Definition set_lastSwipeX (v : option float) (s : State) : State :=
  mkState (widgetState s) (draggingId s) (pinchActive s) (pinchMode s)
    (editMode s) (lastButtonPress s) (mode s) v (lastSwipeTime s)
    (swipeStartX s) (swipeStartTime s) (lastGestureTime s) (isCountingDown s)
    (countdownTimer s) (photoReady s) (captureDataUrl s) (intervals s)
    (nextHandle s) (countdownText s) (countdownHidden s) (fired s) (saved s).
Definition set_lastSwipeTime (v : Z) (s : State) : State :=
  mkState (widgetState s) (draggingId s) (pinchActive s) (pinchMode s)
    (editMode s) (lastButtonPress s) (mode s) (lastSwipeX s) v (swipeStartX s)
    (swipeStartTime s) (lastGestureTime s) (isCountingDown s)
    (countdownTimer s) (photoReady s) (captureDataUrl s) (intervals s)
    (nextHandle s) (countdownText s) (countdownHidden s) (fired s) (saved s).
Definition set_swipeStartX (v : option float) (s : State) : State :=
  mkState (widgetState s) (draggingId s) (pinchActive s) (pinchMode s)
    (editMode s) (lastButtonPress s) (mode s) (lastSwipeX s) (lastSwipeTime s)
    v (swipeStartTime s) (lastGestureTime s) (isCountingDown s)
    (countdownTimer s) (photoReady s) (captureDataUrl s) (intervals s)
    (nextHandle s) (countdownText s) (countdownHidden s) (fired s) (saved s).
Definition set_swipeStartTime (v : Z) (s : State) : State :=
  mkState (widgetState s) (draggingId s) (pinchActive s) (pinchMode s)
    (editMode s) (lastButtonPress s) (mode s) (lastSwipeX s) (lastSwipeTime s)
    (swipeStartX s) v (lastGestureTime s) (isCountingDown s)
    (countdownTimer s) (photoReady s) (captureDataUrl s) (intervals s)
    (nextHandle s) (countdownText s) (countdownHidden s) (fired s) (saved s).
Definition set_lastGestureTime (v : Z) (s : State) : State :=
  mkState (widgetState s) (draggingId s) (pinchActive s) (pinchMode s)
    (editMode s) (lastButtonPress s) (mode s) (lastSwipeX s) (lastSwipeTime s)
    (swipeStartX s) (swipeStartTime s) v (isCountingDown s) (countdownTimer s)
    (photoReady s) (captureDataUrl s) (intervals s) (nextHandle s)
    (countdownText s) (countdownHidden s) (fired s) (saved s).
Definition set_isCountingDown (v : bool) (s : State) : State :=
  mkState (widgetState s) (draggingId s) (pinchActive s) (pinchMode s)
    (editMode s) (lastButtonPress s) (mode s) (lastSwipeX s) (lastSwipeTime s)
    (swipeStartX s) (swipeStartTime s) (lastGestureTime s) v
    (countdownTimer s) (photoReady s) (captureDataUrl s) (intervals s)
    (nextHandle s) (countdownText s) (countdownHidden s) (fired s) (saved s).
Definition set_countdownTimer (v : option positive) (s : State) : State :=
  mkState (widgetState s) (draggingId s) (pinchActive s) (pinchMode s)
    (editMode s) (lastButtonPress s) (mode s) (lastSwipeX s) (lastSwipeTime s)
    (swipeStartX s) (swipeStartTime s) (lastGestureTime s) (isCountingDown s)
    v (photoReady s) (captureDataUrl s) (intervals s) (nextHandle s)
    (countdownText s) (countdownHidden s) (fired s) (saved s).
Definition set_photoReady (v : bool) (s : State) : State :=
  mkState (widgetState s) (draggingId s) (pinchActive s) (pinchMode s)
    (editMode s) (lastButtonPress s) (mode s) (lastSwipeX s) (lastSwipeTime s)
    (swipeStartX s) (swipeStartTime s) (lastGestureTime s) (isCountingDown s)
    (countdownTimer s) v (captureDataUrl s) (intervals s) (nextHandle s)
    (countdownText s) (countdownHidden s) (fired s) (saved s).
Definition set_captureDataUrl (v : option string) (s : State) : State :=
  mkState (widgetState s) (draggingId s) (pinchActive s) (pinchMode s)
    (editMode s) (lastButtonPress s) (mode s) (lastSwipeX s) (lastSwipeTime s)
    (swipeStartX s) (swipeStartTime s) (lastGestureTime s) (isCountingDown s)
    (countdownTimer s) (photoReady s) v (intervals s) (nextHandle s)
    (countdownText s) (countdownHidden s) (fired s) (saved s).
Definition set_intervals (v : list Interval) (s : State) : State :=
  mkState (widgetState s) (draggingId s) (pinchActive s) (pinchMode s)
    (editMode s) (lastButtonPress s) (mode s) (lastSwipeX s) (lastSwipeTime s)
    (swipeStartX s) (swipeStartTime s) (lastGestureTime s) (isCountingDown s)
    (countdownTimer s) (photoReady s) (captureDataUrl s) v (nextHandle s)
    (countdownText s) (countdownHidden s) (fired s) (saved s).
Definition set_nextHandle (v : positive) (s : State) : State :=
  mkState (widgetState s) (draggingId s) (pinchActive s) (pinchMode s)
    (editMode s) (lastButtonPress s) (mode s) (lastSwipeX s) (lastSwipeTime s)
    (swipeStartX s) (swipeStartTime s) (lastGestureTime s) (isCountingDown s)
    (countdownTimer s) (photoReady s) (captureDataUrl s) (intervals s) v
    (countdownText s) (countdownHidden s) (fired s) (saved s).
Definition set_countdownText (v : Z) (s : State) : State :=
  mkState (widgetState s) (draggingId s) (pinchActive s) (pinchMode s)
    (editMode s) (lastButtonPress s) (mode s) (lastSwipeX s) (lastSwipeTime s)
    (swipeStartX s) (swipeStartTime s) (lastGestureTime s) (isCountingDown s)
    (countdownTimer s) (photoReady s) (captureDataUrl s) (intervals s)
    (nextHandle s) v (countdownHidden s) (fired s) (saved s).
Definition set_countdownHidden (v : bool) (s : State) : State :=
  mkState (widgetState s) (draggingId s) (pinchActive s) (pinchMode s)
    (editMode s) (lastButtonPress s) (mode s) (lastSwipeX s) (lastSwipeTime s)
    (swipeStartX s) (swipeStartTime s) (lastGestureTime s) (isCountingDown s)
    (countdownTimer s) (photoReady s) (captureDataUrl s) (intervals s)
    (nextHandle s) (countdownText s) v (fired s) (saved s).
Definition set_fired (v : list (Z * string)) (s : State) : State :=
  mkState (widgetState s) (draggingId s) (pinchActive s) (pinchMode s)
    (editMode s) (lastButtonPress s) (mode s) (lastSwipeX s) (lastSwipeTime s)
    (swipeStartX s) (swipeStartTime s) (lastGestureTime s) (isCountingDown s)
    (countdownTimer s) (photoReady s) (captureDataUrl s) (intervals s)
    (nextHandle s) (countdownText s) (countdownHidden s) v (saved s).
Definition set_saved (v : list string) (s : State) : State :=
  mkState (widgetState s) (draggingId s) (pinchActive s) (pinchMode s)
    (editMode s) (lastButtonPress s) (mode s) (lastSwipeX s) (lastSwipeTime s)
    (swipeStartX s) (swipeStartTime s) (lastGestureTime s) (isCountingDown s)
    (countdownTimer s) (photoReady s) (captureDataUrl s) (intervals s)
    (nextHandle s) (countdownText s) (countdownHidden s) (fired s) v.

(** The module-level initialisers of the script. *)
Definition initial : State :=
  mkState ∅ None false PinchNone false 0 Mirror None 0 None 0 0 false None
    false None [] 1%positive 0 true [] [].

Inductive Result (A : Type) :=
| Ok (a : A) (s : State)
| Throw (s : State).
Arguments Ok {A} a s.
Arguments Throw {A} s.

Definition stateOf {A} (r : Result A) : State :=
  match r with Ok _ s => s | Throw s => s end.

(** Truthiness of a string-or-null. *)
Definition truthy (v : option string) : bool :=
  match v with
  | Some str => negb (String.eqb str "")
  | None => false
  end.

(** ** Widget layout *)

Definition origin : Point := mkPoint 0 0.

(** The body of the [forEach] of [initWidgetState], for the element at
    position [i]. *)
Definition initWidget (s : State) (iel : nat * Element) : State :=
  let '(i, e) := iel in
  let existing := widgetState s !! id e in
  let r := rect e in
  let currentOffset :=
    match existing with Some st => offset st | None => origin end in
  let base :=
    mkPoint (left_ r + width_ r / 2 - px currentOffset)%float
            (top_ r + height_ r / 2 - py currentOffset)%float in
  set_widgetState
    (<[id e := mkWidgetState i base currentOffset]> (widgetState s)) s.

Definition initWidgetState (dom : Dom) (s : State) : State :=
  fold_left initWidget (imap pair (widgetElements dom)) s.

(** [getWidgetCenter]: [None] stands for the [TypeError] that the access
    [state.baseCenter] throws for an id without entry. *)
Definition getWidgetCenter (s : State) (wid : string) : option Point :=
  match widgetState s !! wid with
  | Some st =>
      Some (mkPoint (px (baseCenter st) + px (offset st))%float
                    (py (baseCenter st) + py (offset st))%float)
  | None => None
  end.

Definition setWidgetPosition (wid : string) (x y : float) (s : State)
  : State :=
  match widgetState s !! wid with
  | None => s
  | Some st =>
      if negb (editMode s) then s
      else
        let off := mkPoint (x - px (baseCenter st))%float
                           (y - py (baseCenter st))%float in
        set_widgetState
          (<[wid := mkWidgetState (el st) (baseCenter st) off]> (widgetState s))
          s
  end.

(** [distance]: [Math.hypot] of the coordinate differences. *)
Definition distance (dom : Dom) (a b : Point) : float :=
  let dx := (px a - px b)%float in
  let dy := (py a - py b)%float in
  Math_hypot dom dx dy.

(** What [getRect] returns. *)
Record Rect := mkRect {
  left : float; right : float; top : float; bottom : float;
  centerX : float; centerY : float; width : float; height : float }.

Definition getRect (e : Element) : Rect :=
  let r := rect e in
  mkRect (left_ r) (right_ r) (top_ r) (bottom_ r)
         (left_ r + width_ r / 2)%float (top_ r + height_ r / 2)%float
         (width_ r) (height_ r).

(** [p.x >= l && p.x <= r && p.y >= t && p.y <= b]. *)
Definition inside (p : Point) (l r t b : float) : bool :=
  (l <=? px p)%float && (px p <=? r)%float
  && (t <=? py p)%float && (py p <=? b)%float.

Definition containsPoint (p : Point) (e : Element) : bool :=
  let r := rect e in inside p (left_ r) (right_ r) (top_ r) (bottom_ r).

(** [widgetUnderPoint]: the [forEach] overwrites [targetId] at every
    element that contains the point. *)
Definition widgetUnderPoint (dom : Dom) (point : Point) : option string :=
  fold_left
    (fun targetId e => if containsPoint point e then Some (id e) else targetId)
    (widgetElements dom) None.

Definition notInteractable (st : Style) : bool :=
  String.eqb (display st) "none" || String.eqb (visibility st) "hidden"
  || String.eqb (opacity st) "0" || String.eqb (pointerEvents st) "none".

(** The predicate given to [controlButtons.find]. *)
Definition buttonHit (point : Point) (btn : Button) : bool :=
  if notInteractable (styles btn) then false
  else
    let r := brect btn in
    inside point (left_ r - BUTTON_HIT_EXPAND)%float
                 (right_ r + BUTTON_HIT_EXPAND)%float
                 (top_ r - BUTTON_HIT_EXPAND)%float
                 (bottom_ r + BUTTON_HIT_EXPAND)%float.

Definition hitTestButtons (dom : Dom) (point : Point) : option Button :=
  List.find (buttonHit point) (controlButtons dom).
(** ** Snap alignment *)

Record Candidate := mkCandidate { dist : float; delta : float }.

Definition candidatesX (selfRect r : Rect) : list Candidate :=
  [ mkCandidate (Math_abs (left selfRect - left r))
                (left r - left selfRect)%float;
    mkCandidate (Math_abs (centerX selfRect - centerX r))
                (centerX r - centerX selfRect)%float;
    mkCandidate (Math_abs (right selfRect - right r))
                (right r - right selfRect)%float ].

Definition candidatesY (selfRect r : Rect) : list Candidate :=
  [ mkCandidate (Math_abs (top selfRect - top r))
                (top r - top selfRect)%float;
    mkCandidate (Math_abs (centerY selfRect - centerY r))
                (centerY r - centerY selfRect)%float;
    mkCandidate (Math_abs (bottom selfRect - bottom r))
                (bottom r - bottom selfRect)%float ].

(** The body of [candidatesX.forEach] and [candidatesY.forEach]: the pair is
    the best distance so far and the delta that goes with it. *)
Definition consider (acc : float * float) (c : Candidate) : float * float :=
  if (dist c <? fst acc)%float && (dist c <=? ALIGN_THRESHOLD)%float
  then (dist c, delta c) else acc.

(** The body of [others.forEach]: [(bestX, deltaX)] and [(bestY, deltaY)]. *)
Definition alignStep (selfRect : Rect)
  (acc : (float * float) * (float * float)) (r : Rect)
  : (float * float) * (float * float) :=
  (fold_left consider (candidatesX selfRect r) (fst acc),
   fold_left consider (candidatesY selfRect r) (snd acc)).

Definition align (selfRect : Rect) (others : list Rect)
  : (float * float) * (float * float) :=
  fold_left (alignStep selfRect) others
    ((ALIGN_THRESHOLD + 1, 0)%float, (ALIGN_THRESHOLD + 1, 0)%float).

Definition snap (v : float) : float :=
  (Math_round (v / SNAP_SIZE) * SNAP_SIZE)%float.

Definition otherRects (dom : Dom) (wid : string) : list Rect :=
  map getRect (filter (fun e => id e ≠ wid) (widgetElements dom)).

Definition snapWidget (dom : Dom) (wid : string) (s : State) : State :=
  match widgetState s !! wid with
  | None => s
  | Some st =>
      match widgetElements dom !! el st with
      | None => s (* [el] is a position of [widgetElements] *)
      | Some self =>
          let selfRect := getRect self in
          let found := align selfRect (otherRects dom wid) in
          let deltaX := snd (fst found) in
          let deltaY := snd (snd found) in
          let off := mkPoint (snap (px (offset st) + deltaX))
                             (snap (py (offset st) + deltaY)) in
          set_widgetState
            (<[wid := mkWidgetState (el st) (baseCenter st) off]>
               (widgetState s)) s
      end
  end.

(** ** Capture flow *)

Definition hidePhotoPreview (s : State) : State :=
  set_countdownHidden true (set_captureDataUrl None (set_photoReady false s)).

Definition clearInterval (h : option positive) (s : State) : State :=
  match h with
  | Some h => set_intervals (filter (fun t => handle t ≠ h) (intervals s)) s
  | None => s
  end.

Definition setInterval (c ms : Z) (s : State) : positive * State :=
  let h := nextHandle s in
  (h, set_nextHandle (Pos.succ h)
        (set_intervals (mkInterval h c ms :: intervals s) s)).

Definition capturePhoto (dom : Dom) (s : State) : State :=
  set_photoReady true (set_captureDataUrl (Some (videoFrame dom)) s).

(** The callback given to [setInterval], run for the live timer [h]. *)
Definition countdownTick (dom : Dom) (h : positive) (s : State) : State :=
  match List.find (fun t => Pos.eqb (handle t) h) (intervals s) with
  | None => s
  | Some t =>
      let c := counter t - 1 in
      let s :=
        set_intervals
          (map (fun t' =>
                  if Pos.eqb (handle t') h then mkInterval h c (delay t')
                  else t')
               (intervals s)) s in
      if (c <=? 0)%Z then
        let s := clearInterval (countdownTimer s) s in
        let s := set_countdownHidden true s in
        let s := set_isCountingDown false s in
        capturePhoto dom s
      else set_countdownText c s
  end.

Definition triggerShutter (s : State) : State :=
  match mode s with
  | Mirror => s
  | TryOn =>
      if isCountingDown s then s
      else
        let s := hidePhotoPreview s in
        let s := set_countdownHidden false s in
        let c := 3 in
        let s := set_countdownText c s in
        let s := set_isCountingDown true s in
        let hs := setInterval c 1000 s in
        set_countdownTimer (Some (fst hs)) (snd hs)
  end.

Definition savePhoto (s : State) : State :=
  match captureDataUrl s with
  | Some url =>
      if negb (photoReady s) || negb (truthy (Some url)) then s
      else set_saved (url :: saved s) s
  | None => s
  end.

Definition retakePhoto (s : State) : State :=
  triggerShutter (hidePhotoPreview s).

(** ** Commands and modes *)

Definition setEditMode (on : bool) (s : State) : State :=
  let s := set_editMode on s in
  if negb (editMode s) then set_draggingId None s else s.

Definition resetPanels (dom : Dom) (s : State) : State :=
  let s :=
    set_widgetState
      ((fun st => mkWidgetState (el st) (baseCenter st) origin)
         <$> widgetState s) s in
  initWidgetState dom s.

Definition runAction (dom : Dom) (act : string) (s : State) : State :=
  let s := if String.eqb act "reset" then resetPanels dom s else s in
  let s :=
    if String.eqb act "toggle-edit" then setEditMode (negb (editMode s)) s
    else s in
  if String.eqb act "shutter" then triggerShutter s else s.

Definition Mode_eqb (a b : Mode) : bool :=
  match a, b with
  | Mirror, Mirror | TryOn, TryOn => true
  | _, _ => false
  end.

Definition resetSwipe (s : State) : State :=
  set_swipeStartTime 0 (set_swipeStartX None (set_lastSwipeX None s)).

Definition setMode (next : Mode) (s : State) : State :=
  if Mode_eqb (mode s) next then s
  else
    let s := set_mode next s in
    match mode s with
    | TryOn =>
        let s := setEditMode false s in
        let s := hidePhotoPreview s in
        let s :=
          match countdownTimer s with
          | Some h =>
              let s := clearInterval (Some h) s in
              let s := set_countdownTimer None s in
              let s := set_countdownHidden true s in
              set_isCountingDown false s
          | None => s
          end in
        resetSwipe s
    | Mirror =>
        let s :=
          match countdownTimer s with
          | Some h => set_countdownTimer None (clearInterval (Some h) s)
          | None => s
          end in
        let s := set_countdownHidden true s in
        let s := set_isCountingDown false s in
        let s := hidePhotoPreview s in
        resetSwipe s
    end.

(** ** Swipe navigation *)

(** Sequencing of computations that may throw. *)
Definition andThen {A B} (r : Result A) (k : A -> State -> Result B)
  : Result B :=
  match r with
  | Ok a s => k a s
  | Throw s => Throw s
  end.

Notation "'let?' ( x , s ) ':=' r 'in' k" :=
  (andThen r (fun x s => k))
  (at level 10, x name, s name, r at level 100, k at level 200).

(** [list.forEach(f)] for a callback that may throw. *)
Fixpoint forEach {A} (f : A -> State -> Result unit) (l : list A) (s : State)
  : Result unit :=
  match l with
  | [] => Ok tt s
  | a :: l' => let? (_u, s') := f a s in forEach f l' s'
  end.

(** Lines 260-272: the mode switch of a qualifying swipe. *)
Definition swipeSwitch (now : Z) (dx : float) (dt sinceLast : Z) (s : State)
  : State :=
  if negb (pinchActive s) && (SWIPE_COOLDOWN_MS <? sinceLast)%Z
     && (dt <=? SWIPE_TIME_MAX)%Z
  then
    if (SWIPE_THRESHOLD <? dx)%float && Mode_eqb (mode s) Mirror then
      let s := setMode TryOn s in
      let s := set_lastSwipeTime now s in
      set_swipeStartTime 0 (set_swipeStartX None s)
    else if (dx <? - SWIPE_THRESHOLD)%float && Mode_eqb (mode s) TryOn then
      let s := setMode Mirror s in
      let s := set_lastSwipeTime now s in
      set_swipeStartTime 0 (set_swipeStartX None s)
    else s
  else s.

(** Lines 274-277: a stale or resting swipe starts again from here. *)
Definition reanchor (now : Z) (mirroredX : float) (dt : Z) (moving : bool)
  (s : State) : State :=
  if (SWIPE_TIME_MAX <? dt)%Z || (negb moving && (280 <? dt)%Z)
  then set_swipeStartTime now (set_swipeStartX (Some mirroredX) s)
  else s.

(** The callback of [hands.forEach] in [detectSwipes]. *)
Definition swipeHand (now : Z) (landmarks : list Point) (s : State)
  : Result unit :=
  match landmarks !! 8%nat with
  | None => Throw s
  | Some tip =>
      let mirroredX := (1 - px tip)%float in
      match swipeStartX s with
      | None =>
          Ok tt (set_lastSwipeX (Some mirroredX)
                   (set_swipeStartTime now
                      (set_swipeStartX (Some mirroredX) s)))
      | Some startX =>
          let dx := (mirroredX - startX)%float in
          let dt := now - swipeStartTime s in
          let sinceLast := now - lastSwipeTime s in
          let moving :=
            (0.02 <? Math_abs (mirroredX - default 0 (lastSwipeX s)))%float in
          let s := swipeSwitch now dx dt sinceLast s in
          let s := reanchor now mirroredX dt moving s in
          Ok tt (set_lastSwipeX (Some mirroredX) s)
      end
  end.

Definition detectSwipes (now : Z) (hands : list (list Point)) (s : State)
  : Result unit :=
  forEach (swipeHand now) hands s.

(** ** Thumb gestures *)

(** [a && b] for operands whose evaluation may throw ([None]). *)
Definition andAlso (a b : option bool) : option bool :=
  match a with
  | Some true => b
  | _ => a
  end.

(** [folded(tip, pip)]: [tip.y > pip.y + 0.02]. *)
Definition folded (tip pip : option Point) : option bool :=
  match tip, pip with
  | Some t, Some p => Some (py p + 0.02 <? py t)%float
  | _, _ => None
  end.

Definition fingersFolded (landmarks : list Point) : option bool :=
  andAlso (folded (landmarks !! 8%nat) (landmarks !! 6%nat))
    (andAlso (folded (landmarks !! 12%nat) (landmarks !! 10%nat))
       (andAlso (folded (landmarks !! 16%nat) (landmarks !! 14%nat))
          (folded (landmarks !! 20%nat) (landmarks !! 18%nat)))).

(** [a.y < b.y - m] and [a.y > b.y + m]. *)
Definition above (a b : option Point) (m : float) : option bool :=
  match a, b with
  | Some a, Some b => Some (py a <? py b - m)%float
  | _, _ => None
  end.

Definition below (a b : option Point) (m : float) : option bool :=
  match a, b with
  | Some a, Some b => Some (py b + m <? py a)%float
  | _, _ => None
  end.

Definition thumbsUp (landmarks : list Point) : option bool :=
  andAlso (above (landmarks !! 4%nat) (landmarks !! 2%nat) 0.04)
          (above (landmarks !! 4%nat) (landmarks !! 0%nat) 0.02).

Definition thumbsDown (landmarks : list Point) : option bool :=
  andAlso (below (landmarks !! 4%nat) (landmarks !! 2%nat) 0.04)
          (below (landmarks !! 4%nat) (landmarks !! 0%nat) 0.02).

(** The [for ... of] loop of [detectThumbGestures]. *)
Fixpoint thumbLoop (now : Z) (hands : list (list Point)) (s : State)
  : Result unit :=
  match hands with
  | [] => Ok tt s
  | landmarks :: rest =>
      match fingersFolded landmarks with
      | None => Throw s
      | Some false => thumbLoop now rest s
      | Some true =>
          match thumbsUp landmarks with
          | None => Throw s
          | Some true => Ok tt (savePhoto (set_lastGestureTime now s))
          | Some false =>
              match thumbsDown landmarks with
              | None => Throw s
              | Some true => Ok tt (retakePhoto (set_lastGestureTime now s))
              | Some false => thumbLoop now rest s
              end
          end
      end
  end.

Definition detectThumbGestures (now : Z) (hands : list (list Point))
  (s : State) : Result unit :=
  if (now - lastGestureTime s <? GESTURE_COOLDOWN_MS)%Z then Ok tt s
  else thumbLoop now hands s.

(** ** Pinch classification *)

Definition pinchStrength (dom : Dom) (thumb index : Point) : float :=
  distance dom thumb index.
Definition handSpan (dom : Dom) (palm base : Point) : float :=
  distance dom palm base.
Definition threshold (dom : Dom) (palm base : Point) : float :=
  Math_max (handSpan dom palm base * 0.7) 0.05.

(** [pinchStrength < threshold]. *)
Definition isPinching (dom : Dom) (thumb index palm base : Point) : bool :=
  (pinchStrength dom thumb index <? threshold dom palm base)%float.

(** Lines 467-475: binding the drag to the widget under the pointer. *)
Definition bindWidget (dom : Dom) (point : Point) (s : State) : State :=
  if editMode s && Mode_eqb (mode s) Mirror then
    let target := widgetUnderPoint dom point in
    if truthy target then set_pinchMode PinchDrag (set_draggingId target s)
    else set_pinchMode PinchIdle s
  else s.

(** Lines 478-480: the dragged widget follows the pointer. *)
Definition dragTo (point : Point) (s : State) : State :=
  match pinchMode s, draggingId s with
  | PinchDrag, Some wid =>
      if truthy (Some wid) && editMode s && Mode_eqb (mode s) Mirror
      then setWidgetPosition wid (px point) (py point) s
      else s
  | _, _ => s
  end.

(** The button a pinch start presses: hit and cooled down. *)
Definition pressed (dom : Dom) (now : Z) (point : Point) (s : State)
  : option Button :=
  match hitTestButtons dom point with
  | Some btn =>
      if (BUTTON_COOLDOWN_MS <? now - lastButtonPress s)%Z then Some btn
      else None
  | None => None
  end.

(** The pointer of a hand: the index tip mapped into the mirror rectangle
    and into the viewport, mirrored unless in Try-On mode. *)
Definition mirroredX (m : Mode) (index : Point) : float :=
  match m with
  | TryOn => px index
  | Mirror => (1 - px index)%float
  end.

Definition pinchPointMirror (dom : Dom) (m : Mode) (index : Point) : Point :=
  let mr := mirrorRect dom in
  mkPoint (left_ mr + mirroredX m index * width_ mr)%float
          (top_ mr + py index * height_ mr)%float.

Definition pinchPointUI (dom : Dom) (m : Mode) (index : Point) : Point :=
  mkPoint (mirroredX m index * innerWidth dom)%float
          (py index * innerHeight dom)%float.

Definition processPinch (dom : Dom) (now : Z) (landmarks : list Point)
  (s : State) : Result bool :=
  match landmarks !! 4%nat, landmarks !! 8%nat,
        landmarks !! 0%nat, landmarks !! 9%nat with
  | Some thumb, Some index, Some palm, Some base =>
      let pointMirror := pinchPointMirror dom (mode s) index in
      let pointUI := pinchPointUI dom (mode s) index in
      if negb (isPinching dom thumb index palm base) then Ok false s
      else if pinchActive s then Ok true (dragTo pointMirror s)
      else
        let s := set_pinchMode PinchIdle (set_pinchActive true s) in
        match pressed dom now pointUI s with
        | Some btn =>
            let s := runAction dom (action btn) s in
            let s := set_fired ((now, action btn) :: fired s) s in
            let s := set_lastButtonPress now s in
            Ok true (set_pinchMode PinchButton s)
        | None => Ok true (dragTo pointMirror (bindWidget dom pointMirror s))
        end
  | _, _, _, _ => Throw s
  end.

(** ** Frame dispatch *)

(** The first [hands.forEach] of [onResults], with its [anyPinch]. *)
Fixpoint pinchLoop (dom : Dom) (now : Z) (hands : list (list Point))
  (anyPinch : bool) (s : State) : Result bool :=
  match hands with
  | [] => Ok anyPinch s
  | landmarks :: rest =>
      let? (p, s') := processPinch dom now landmarks s in
      pinchLoop dom now rest (if p then true else anyPinch) s'
  end.

(** Lines 521-528: the release of the pinch session. *)
Definition release (dom : Dom) (anyPinch : bool) (s : State) : State :=
  if negb anyPinch && pinchActive s then
    let s :=
      match draggingId s with
      | Some wid =>
          if truthy (Some wid) && editMode s then snapWidget dom wid s else s
      | None => s
      end in
    set_pinchMode PinchNone (set_draggingId None (set_pinchActive false s))
  else s.

Definition onResults (dom : Dom) (now : Z)
  (multiHandLandmarks : option (list (list Point))) (s : State)
  : Result unit :=
  let hands := default [] multiHandLandmarks in
  match hands with
  | [] =>
      let s := set_pinchActive false s in
      let s := set_pinchMode PinchNone s in
      let s := set_draggingId None s in
      Ok tt (resetSwipe s)
  | _ :: _ =>
      let? (anyPinch, s) := pinchLoop dom now hands false s in
      let s := release dom anyPinch s in
      let? (_u, s) := detectSwipes now hands s in
      if Mode_eqb (mode s) TryOn && photoReady s && negb (isCountingDown s)
      then detectThumbGestures now hands s
      else Ok tt s
  end.

(** ** Events *)

(** What the browser delivers to the script: a tracker result, a click on a
    control button, the countdown interval firing, a window resize. *)
Inductive Event :=
| Results (dom : Dom) (now : Z)
    (multiHandLandmarks : option (list (list Point)))
| Click (dom : Dom) (act : string)
| Interval_ (dom : Dom) (h : positive)
| Resize (dom : Dom).

(** An exception ends the callback; the state stays as it left it. *)
Definition step (s : State) (e : Event) : State :=
  match e with
  | Results dom now hands => stateOf (onResults dom now hands s)
  | Click dom act => runAction dom act s
  | Interval_ dom h => countdownTick dom h s
  | Resize dom => initWidgetState dom s
  end.

Definition run (s : State) (evs : list Event) : State := fold_left step evs s.

(** ** Sample inputs *)

(** A bounding rectangle from its corner and its size. *)
Definition rectOf (l t w h : float) : DOMRect :=
  mkDOMRect l t (l + w) (t + h) w h.

(** A [Math.hypot] for the sample inputs: the square root of the sum of the
    squares, each operation rounded. *)
Definition hypot (x y : float) : float := sqrt (x * x + y * y).

Definition rect0 : DOMRect := rectOf 0 0 1000 1000.

Definition dom0 : Dom :=
  mkDom rect0 1000 1000 [] [] "data:image/png;base64,AA" hypot.

(** A hand of 21 landmarks, all at [p] but the four that [processPinch]
    reads. *)
Definition handOf (palm thumb index base p : Point) : list Point :=
  [palm; p; p; p; thumb; p; p; p; index; base; p; p; p; p; p; p; p; p; p; p; p].

(** Wrist and index base 0.1 apart; thumb and index tip 0.06 and 0.08
    apart. *)
Definition hand006 : list Point :=
  handOf (mkPoint 0.5 0.9) (mkPoint 0.5 0.5) (mkPoint 0.56 0.5)
         (mkPoint 0.6 0.9) (mkPoint 0.5 0.7).
Definition hand008 : list Point :=
  handOf (mkPoint 0.5 0.9) (mkPoint 0.5 0.5) (mkPoint 0.58 0.5)
         (mkPoint 0.6 0.9) (mkPoint 0.5 0.7).


(** Wrist and index base 0.5 apart, thumb and index tip 0.35 apart: the
    strength is the threshold, [0.5 * 0.7] being the double [0.35]. *)
Definition hand035 : list Point :=
  handOf (mkPoint 0.25 0) (mkPoint 0 0) (mkPoint 0.35 0)
         (mkPoint 0.75 0) (mkPoint 0.5 0.7).

(** Two widgets of 100 by 100 pixels: [a], with base centre (100, 100),
    dragged to the centre (250, 100), and [b] with its left edge at 252. *)
Definition elA : Element := mkElement "a" (rectOf 200 50 100 100).
Definition elB : Element := mkElement "b" (rectOf 252 300 100 100).
Definition domAB : Dom :=
  mkDom rect0 1000 1000 [elA; elB] [] "data:image/png;base64,AA" hypot.
Definition stA : WidgetState :=
  mkWidgetState 0 (mkPoint 100 100) (mkPoint 150 0).
Definition stB : WidgetState :=
  mkWidgetState 1 (mkPoint 302 350) (mkPoint 0 0).
Definition stateAB : State :=
  set_editMode true
    (set_widgetState (<["a" := stA]> (<["b" := stB]> ∅)) initial).

(** A widget [a] whose rectangle is centred at (100.3, 100) after a drag by
    (250, 0): the base centre is -149.7, and base centre plus offset is
    100.30000000000001, one unit in the last place above the centre. *)
Definition elDrift : Element := mkElement "a" (rectOf 50.3 50 100 100).
Definition domDrift : Dom :=
  mkDom rect0 1000 1000 [elDrift; elB] [] "data:image/png;base64,AA" hypot.
Definition stateDrift : State :=
  set_widgetState
    (<["a" := mkWidgetState 0 (mkPoint (-149.7) 100) (mkPoint 250 0)]>
       (<["b" := stB]> ∅)) initial.

(** The first eight landmarks of a hand: 8 and 9 are missing. *)
Definition shortHand : list Point := take 8 hand006.

(** Try-On mode, as a swipe enters it from the initial state. *)
Definition tryonState : State := setMode TryOn initial.

(** ** Predicates of the properties *)

(** A hand observation with all 21 landmarks, and one that lacks a landmark
    that [processPinch] reads. *)
Definition complete (landmarks : list Point) : Prop :=
  (21 <= length landmarks)%nat.

Definition lacksPinchLandmark (landmarks : list Point) : Prop :=
  landmarks !! 0%nat = None \/ landmarks !! 4%nat = None
  \/ landmarks !! 8%nat = None \/ landmarks !! 9%nat = None.

(** The functions of the layout engine change [widgetState] only. *)
Definition widgetsOnly (f : State -> State) : Prop :=
  forall s, exists m, f s = set_widgetState m s.

(** The fields of the pinch session and of the trace. *)
Record Session := mkSession {
  sDraggingId : option string;
  sPinchActive : bool;
  sLastButtonPress : Z;
  sFired : list (Z * string);
  sMode : Mode;
  sEditMode : bool }.

Definition session (s : State) : Session :=
  mkSession (draggingId s) (pinchActive s) (lastButtonPress s) (fired s)
            (mode s) (editMode s).

(** The dragged widget id is kept or cleared, never replaced. *)
Definition keeps (s s' : State) : Prop :=
  draggingId s' = draggingId s \/ draggingId s' = None.

(** The pinch session is active before each event of the list. *)
Fixpoint sessionHeld (s : State) (evs : list Event) : Prop :=
  match evs with
  | [] => True
  | e :: evs' => pinchActive s = true /\ sessionHeld (step s e) evs'
  end.

(** The trace of pinch-fired actions, newest first: each entry is more than
    the cooldown after the one before it, and the newest is the time kept
    in [lastButtonPress]. *)
Fixpoint spaced (log : list (Z * string)) : Prop :=
  match log with
  | [] => True
  | (t1, _) :: rest =>
      match rest with
      | [] => True
      | (t2, _) :: _ => BUTTON_COOLDOWN_MS < t1 - t2
      end /\ spaced rest
  end.

Definition pressLogged (s : State) : Prop :=
  spaced (fired s)
  /\ match fired s with
     | [] => True
     | (t, _) :: _ => lastButtonPress s = t
     end.

(** The hand [landmarks] completes a qualifying swipe towards the mode
    [next]: no pinch session, the swipe cooldown over, the travel [dx] made
    within the time window, and beyond the threshold in the direction that
    leaves the current mode. *)
Definition swipeFires (now : Z) (landmarks : list Point) (s : State)
  (next : Mode) : Prop :=
  exists tip startX,
    landmarks !! 8%nat = Some tip /\ swipeStartX s = Some startX
    /\ pinchActive s = false
    /\ SWIPE_COOLDOWN_MS < now - lastSwipeTime s
    /\ now - swipeStartTime s <= SWIPE_TIME_MAX
    /\ ((mode s = Mirror
         /\ (SWIPE_THRESHOLD <? 1 - px tip - startX)%float = true
         /\ next = TryOn)
        \/ (mode s = TryOn
            /\ (1 - px tip - startX <? - SWIPE_THRESHOLD)%float = true
            /\ next = Mirror)).

(** ** Alignment and the grid *)

(** The misalignments of [selfRect] with the rectangles [others] on one
    axis, whose edges are [edges]: for every other rectangle and every
    edge, the distance between the edge of [selfRect] and that of the other
    rectangle, and the shift that would align the two. *)
Definition misalignments (edges : list (Rect -> float)) (selfRect : Rect)
  (others : list Rect) : list Candidate :=
  flat_map
    (fun r =>
       map (fun edge =>
              mkCandidate (Math_abs (edge selfRect - edge r))
                          (edge r - edge selfRect)%float)
           edges)
    others.

(** [d] is a shift the alignment search may apply for the candidates
    [cands]: either no candidate is within the tolerance and there is no
    shift, or [d] is the delta of a candidate within the tolerance whose
    distance no candidate is below. *)
Definition chosen (cands : list Candidate) (d : float) : Prop :=
  (d = 0%float
   /\ forall c, In c cands -> (dist c <=? ALIGN_THRESHOLD)%float = false)
  \/ (exists c,
        In c cands /\ d = delta c
        /\ (dist c <=? ALIGN_THRESHOLD)%float = true
        /\ forall c', In c' cands -> (dist c' <? dist c)%float = false).

(** The value of a finite double in units of [2 ^ -1074], the smallest
    positive double: every finite double is an integer number of them. *)
Definition units (x : float) : Z :=
  match Prim2SF x with
  | S754_finite s m e => cond_Zopp s (Z.pos m) * 2 ^ (e + 1074)
  | _ => 0
  end.

(** [q] is a finite number and a multiple of the grid unit. *)
Definition onGrid (q : float) : Prop :=
  is_finite q = true /\ exists k : Z, units q = k * units SNAP_SIZE.

(** [q] is a multiple of the grid unit, half a unit from [v] at most: no
    multiple is nearer to [v]. *)
Definition nearestOnGrid (v q : float) : Prop :=
  onGrid q /\ 2 * Z.abs (units q - units v) <= units SNAP_SIZE.

(** ** The order of the doubles *)

(** The rank of a number in the order that [<] and [<=] compare: the sign
    class, then the exponent, then the mantissa.  NaN has no rank of its
    own: every comparison with it is false. *)
Definition rank (x : spec_float) : Z * Z * Z :=
  match x with
  | S754_infinity true => (-2, 0, 0)
  | S754_finite true m e => (-1, - e, - Z.pos m)
  | S754_zero _ | S754_nan => (0, 0, 0)
  | S754_finite false m e => (1, e, Z.pos m)
  | S754_infinity false => (2, 0, 0)
  end.

Definition rank_lt (a b : Z * Z * Z) : Prop :=
  a.1.1 < b.1.1
  \/ (a.1.1 = b.1.1 /\ (a.1.2 < b.1.2 \/ (a.1.2 = b.1.2 /\ a.2 < b.2))).

(** ** Proof automation *)

Ltac split_cases :=
  repeat match goal with
    | |- context [match ?x with _ => _ end] => destruct x eqn:?
    end.

Ltac frame := intros; cbn; split_cases; cbn; auto.

(** ** The capture flow as a state machine *)

(** The fields of the mode, the cooldowns and the capture flow. *)
Record Capture := mkCapture {
  cMode : Mode;
  cLastSwipeTime : Z;
  cLastGestureTime : Z;
  cIsCountingDown : bool;
  cCountdownTimer : option positive;
  cPhotoReady : bool;
  cCaptureDataUrl : option string;
  cIntervals : list Interval;
  cNextHandle : positive;
  cCountdownText : Z;
  cCountdownHidden : bool;
  cSaved : list string }.

Definition capture (s : State) : Capture :=
  mkCapture (mode s) (lastSwipeTime s) (lastGestureTime s) (isCountingDown s)
            (countdownTimer s) (photoReady s) (captureDataUrl s)
            (intervals s) (nextHandle s) (countdownText s)
            (countdownHidden s) (saved s).

(** No countdown runs: no timer is live and the numeral is hidden; a photo,
    if one is ready, was taken in Try-On mode and has its data URL. *)
Definition capIdle (s : State) : Prop :=
  isCountingDown s = false /\ intervals s = [] /\ countdownHidden s = true
  /\ (photoReady s = true ->
      mode s = TryOn /\ exists url, captureDataUrl s = Some url)
  /\ (photoReady s = false -> captureDataUrl s = None).

(** A countdown runs: in Try-On mode, without a photo, with exactly one live
    timer, the one [countdownTimer] names, whose counter is the numeral
    shown. *)
Definition capCounting (s : State) : Prop :=
  isCountingDown s = true /\ mode s = TryOn /\ photoReady s = false
  /\ captureDataUrl s = None
  /\ exists h c,
       countdownTimer s = Some h /\ intervals s = [mkInterval h c 1000]
       /\ 1 <= c <= 3 /\ countdownText s = c /\ countdownHidden s = false.

Definition captureInv (s : State) : Prop := capIdle s \/ capCounting s.

(** ** What a hand shows to the thumb detection *)

(** The four fingers folded and the thumb tip above both the thumb base
    and the wrist, by the margins of the source. *)
Definition showsThumbsUp (landmarks : list Point) : Prop :=
  fingersFolded landmarks = Some true /\ thumbsUp landmarks = Some true.

(** The four fingers folded and the thumb tip below both the thumb base and
    the wrist, by the margins of the source; the loop tests a hand for a
    thumbs-up first. *)
Definition showsThumbsDown (landmarks : list Point) : Prop :=
  fingersFolded landmarks = Some true /\ thumbsUp landmarks = Some false
  /\ thumbsDown landmarks = Some true.

(** A hand the loop passes over: a finger is not folded, or the thumb is
    neither up nor down. *)
Definition showsNothing (landmarks : list Point) : Prop :=
  fingersFolded landmarks = Some false
  \/ (fingersFolded landmarks = Some true /\ thumbsUp landmarks = Some false
      /\ thumbsDown landmarks = Some false).

(** A hand with the thumb pointing down and the fingers folded: wrist at
    (0.5, 0.5), thumb tip at (0.45, 0.7); and the same hand upside down. *)
Definition thumbHand (wrist mcp tip pip ftip base : Point) : list Point :=
  [wrist; mcp; mcp; mcp; tip; pip; pip; pip; ftip; base; pip; pip; ftip;
   pip; pip; pip; ftip; pip; pip; pip; ftip].

Definition thumbDownHand : list Point :=
  thumbHand (mkPoint 0.5 0.5) (mkPoint 0.45 0.55) (mkPoint 0.45 0.7)
            (mkPoint 0.5 0.4) (mkPoint 0.5 0.45) (mkPoint 0.5 0.4).

Definition thumbUpHand : list Point :=
  thumbHand (mkPoint 0.5 0.5) (mkPoint 0.45 0.45) (mkPoint 0.45 0.3)
            (mkPoint 0.5 0.4) (mkPoint 0.5 0.45) (mkPoint 0.5 0.4).

(** An open hand: no finger folded. *)
Definition openHand : list Point :=
  thumbHand (mkPoint 0.5 0.5) (mkPoint 0.45 0.45) (mkPoint 0.45 0.3)
            (mkPoint 0.5 0.4) (mkPoint 0.5 0.2) (mkPoint 0.5 0.4).

(** Try-On mode with a photo ready, as the third tick of a countdown leaves
    it, at a time when the gesture cooldown is over. *)
Definition photoState : State :=
  run tryonState
    [Click dom0 "shutter"; Interval_ dom0 1; Interval_ dom0 1;
     Interval_ dom0 1].

(** Nothing was saved, no gesture was honoured and no photo appeared
    between [s] and [s']. *)
Definition quiet (s s' : State) : Prop :=
  saved s' = saved s /\ lastGestureTime s' = lastGestureTime s
  /\ (photoReady s = false -> photoReady s' = false).

(** ** Layout *)

(** [existing?.offset || { x: 0, y: 0 }]: the offset a widget id has, the
    origin when it has no entry. *)
Definition offsetOf (s : State) (wid : string) : Point :=
  match widgetState s !! wid with
  | Some st => offset st
  | None => origin
  end.

(** ** More sample inputs *)

(** [a] being dragged: the session is active and bound to [a]. *)
Definition draggingAB : State :=
  set_pinchMode PinchDrag
    (set_pinchActive true (set_draggingId (Some "a") stateAB)).

(** A third widget [c], narrower than [a] and [b], whose centre is 10
    pixels right of the centre of [a] and whose top is 10 pixels below;
    [a] being dragged among [b] and [c]. *)
Definition elC : Element := mkElement "c" (rectOf 230 60 60 100).
Definition domABC : Dom :=
  mkDom rect0 1000 1000 [elA; elB; elC] [] "data:image/png;base64,AA" hypot.
Definition stC : WidgetState :=
  mkWidgetState 2 (mkPoint 260 110) (mkPoint 0 0).
Definition draggingABC : State :=
  set_widgetState (<["c" := stC]> (widgetState draggingAB)) draggingAB.

(** An open hand whose index tip is at [x]: it does not pinch. *)
Definition handAt (x : float) : list Point :=
  thumbHand (mkPoint 0.5 0.5) (mkPoint 0.45 0.45) (mkPoint 0.45 0.3)
            (mkPoint 0.5 0.4) (mkPoint x 0.2) (mkPoint 0.5 0.4).

(** A visible reset button at the top left of the viewport. *)
Definition visible : Style := mkStyle "block" "visible" "1" "auto".
Definition resetBtn : Button :=
  mkButton "reset" visible (rectOf 0 0 100 40).
Definition domBtn : Dom :=
  mkDom rect0 1000 1000 [elA; elB] [resetBtn] "data:image/png;base64,AA"
    hypot.

(** A pinching hand whose index tip, mirrored, is over the reset button. *)
Definition pinchAtButton : list Point :=
  handOf (mkPoint 0.5 0.9) (mkPoint 0.94 0.02) (mkPoint 0.95 0.02)
         (mkPoint 0.6 0.9) (mkPoint 0.5 0.7).

(** A pinching hand whose index tip, mirrored, is over widget [a]. *)
Definition pinchAtA : list Point :=
  handOf (mkPoint 0.5 0.9) (mkPoint 0.74 0.1) (mkPoint 0.75 0.1)
         (mkPoint 0.6 0.9) (mkPoint 0.5 0.7).

(** A pinching hand whose index tip, mirrored, is at (280, 120), inside
    widget [a] and away from its centre. *)
Definition pinchInA : list Point :=
  handOf (mkPoint 0.5 0.9) (mkPoint 0.71 0.12) (mkPoint 0.72 0.12)
         (mkPoint 0.6 0.9) (mkPoint 0.5 0.7).



(** The widgets of [stateAB] with edit mode off. *)
Definition viewAB : State := set_editMode false stateAB.

(** Try-On mode entered from [stateAB], with edit mode switched on again
    by the toggle. *)
Definition tryonAB : State :=
  runAction domBtn "toggle-edit" (setMode TryOn stateAB).

(** A pinching hand whose index tip, not mirrored, is over the reset
    button. *)
Definition pinchAtButtonTryOn : list Point :=
  handOf (mkPoint 0.5 0.9) (mkPoint 0.06 0.02) (mkPoint 0.05 0.02)
         (mkPoint 0.6 0.9) (mkPoint 0.5 0.7).

(** Try-On mode with a countdown running. *)
Definition countingState : State := triggerShutter tryonState.

(** ** The nearest widget *)

(** The [forEach] of [findNearestWidget], with its [nearestId] and its
    [nearestDist]; [None] when [getWidgetCenter] throws for an id without
    entry. *)
Fixpoint nearestLoop (dom : Dom) (s : State) (point : Point)
  (els : list Element) (nearestId : option string) (nearestDist : float)
  : option (option string) :=
  match els with
  | [] => Some nearestId
  | e :: rest =>
      match getWidgetCenter s (id e) with
      | None => None
      | Some center =>
          let d := distance dom center point in
          if (d <? nearestDist)%float
          then nearestLoop dom s point rest (Some (id e)) d
          else nearestLoop dom s point rest nearestId nearestDist
      end
  end.

Definition findNearestWidget (dom : Dom) (s : State) (point : Point)
  : Result (option string) :=
  match nearestLoop dom s point (widgetElements dom) None infinity with
  | Some nearestId => Ok nearestId s
  | None => Throw s
  end.

(** ** The pinch session as a state machine *)

(** The session is inactive exactly in mode [PinchNone], and a widget is
    bound only while the session is active in drag mode, with edit mode on,
    in Mirror mode; the bound id is not empty. *)
Definition sessionInv (s : State) : Prop :=
  (pinchActive s = false <-> pinchMode s = PinchNone)
  /\ forall wid,
       draggingId s = Some wid ->
       pinchActive s = true /\ pinchMode s = PinchDrag
       /\ editMode s = true /\ mode s = Mirror /\ wid <> "".

(** The fields [sessionInv] reads. *)
Definition binding (s : State)
  : option string * bool * PinchMode * bool * Mode :=
  (draggingId s, pinchActive s, pinchMode s, editMode s, mode s).
(** * Properties *)

(** ** Comparisons of doubles *)

Lemma rank_eq (a b : Z * Z * Z) :
  a = b <-> a.1.1 = b.1.1 /\ a.1.2 = b.1.2 /\ a.2 = b.2.
Proof.
  destruct a as [[a1 a2] a3], b as [[b1 b2] b3]; cbn. split.
  - intros [= -> -> ->]. auto.
  - intros (-> & -> & ->). reflexivity.
Qed.

Lemma SFcompare_rank (x y : spec_float) :
  x <> S754_nan -> y <> S754_nan ->
  (SFcompare x y = Some Lt <-> rank_lt (rank x) (rank y))
  /\ (SFcompare x y = Some Eq <-> rank x = rank y)
  /\ (SFcompare x y = Some Gt <-> rank_lt (rank y) (rank x)).
Proof.
  intros Hx Hy. rewrite rank_eq. unfold rank_lt.
  destruct x as [sx|sx| |sx mx ex], y as [sy|sy| |sy my ey];
    try contradiction; try destruct sx; try destruct sy;
    cbn [SFcompare rank fst snd];
    try (split; [|split]; (split; intros H;
         first [discriminate | reflexivity | lia | exfalso; lia])).
  all: change (Pos.compare_cont Eq mx my) with (Pos.compare mx my);
    destruct (Z.compare_spec ex ey); destruct (Pos.compare_spec mx my);
    cbn [CompOpp];
    (split; [|split]); (split; intros H';
    first [discriminate | reflexivity | lia | exfalso; lia]).
Qed.

Lemma SFltb_rank (x y : spec_float) :
  SFltb x y = true
  <-> x <> S754_nan /\ y <> S754_nan /\ rank_lt (rank x) (rank y).
Proof.
  unfold SFltb. split.
  - intros H.
    assert (Hx : x <> S754_nan) by (intros ->; discriminate).
    assert (Hy : y <> S754_nan) by (intros ->; now destruct x).
    destruct (SFcompare_rank x y Hx Hy) as (Hlt & _).
    split; [exact Hx|]. split; [exact Hy|]. apply Hlt.
    destruct (SFcompare x y) as [[]|]; congruence.
  - intros (Hx & Hy & H). destruct (SFcompare_rank x y Hx Hy) as (Hlt & _).
    now rewrite (proj2 Hlt H).
Qed.

Lemma SFleb_rank (x y : spec_float) :
  SFleb x y = true
  <-> x <> S754_nan /\ y <> S754_nan
      /\ (rank_lt (rank x) (rank y) \/ rank x = rank y).
Proof.
  unfold SFleb. split.
  - intros H.
    assert (Hx : x <> S754_nan) by (intros ->; discriminate).
    assert (Hy : y <> S754_nan) by (intros ->; now destruct x).
    destruct (SFcompare_rank x y Hx Hy) as (Hlt & Heq & _).
    split; [exact Hx|]. split; [exact Hy|].
    destruct (SFcompare x y) as [[]|]; try discriminate.
    + right. now apply Heq.
    + left. now apply Hlt.
  - intros (Hx & Hy & H).
    destruct (SFcompare_rank x y Hx Hy) as (Hlt & Heq & _).
    destruct H as [H | H]; [now rewrite (proj2 Hlt H) | now rewrite (proj2 Heq H)].
Qed.

Lemma rank_lt_trans (a b c : Z * Z * Z) :
  rank_lt a b -> rank_lt b c -> rank_lt a c.
Proof. unfold rank_lt. lia. Qed.

Lemma rank_lt_irrefl (a : Z * Z * Z) : ~ rank_lt a a.
Proof. unfold rank_lt. lia. Qed.

(** [<] on doubles is transitive, and [a <= b < c] gives [a < c]. *)
Lemma ltb_trans (a b c : float) :
  (a <? b)%float = true -> (b <? c)%float = true -> (a <? c)%float = true.
Proof.
  rewrite !ltb_spec, !SFltb_rank. intros (Ha & Hb & H1) (_ & Hc & H2).
  eauto using rank_lt_trans.
Qed.

Lemma leb_ltb_trans (a b c : float) :
  (a <=? b)%float = true -> (b <? c)%float = true -> (a <? c)%float = true.
Proof.
  rewrite leb_spec, !ltb_spec, SFleb_rank, !SFltb_rank.
  intros (Ha & Hb & [H1 | H1]) (_ & Hc & H2).
  - eauto using rank_lt_trans.
  - rewrite H1. auto.
Qed.

Lemma ltb_leb_trans (a b c : float) :
  (a <? b)%float = true -> (b <=? c)%float = true -> (a <? c)%float = true.
Proof.
  rewrite leb_spec, !ltb_spec, SFleb_rank, !SFltb_rank.
  intros (Ha & Hb & H1) (_ & Hc & [H2 | H2]).
  - eauto using rank_lt_trans.
  - rewrite <- H2. auto.
Qed.

(** [a < b] excludes [b <= a] and [b < a]. *)
Lemma ltb_not_leb (a b : float) :
  (a <? b)%float = true -> (b <=? a)%float = false.
Proof.
  intros H. destruct (b <=? a)%float eqn:E; [|reflexivity].
  pose proof (leb_ltb_trans _ _ _ E H) as H'.
  rewrite ltb_spec, SFltb_rank in H'. destruct H' as (_ & _ & H').
  now apply rank_lt_irrefl in H'.
Qed.

Lemma ltb_asym (a b : float) :
  (a <? b)%float = true -> (b <? a)%float = false.
Proof.
  intros H. destruct (b <? a)%float eqn:E; [|reflexivity].
  pose proof (ltb_trans _ _ _ E H) as H'.
  rewrite ltb_spec, SFltb_rank in H'. destruct H' as (_ & _ & H').
  now apply rank_lt_irrefl in H'.
Qed.

Lemma ltb_irrefl (x : float) : (x <? x)%float = false.
Proof.
  destruct (x <? x)%float eqn:E; [|reflexivity].
  now rewrite (ltb_asym _ _ E) in E.
Qed.


(** Three hands, run: thumb and index tip 0.06 and 0.08 apart for a hand
    span of 0.1, and a strength that is the threshold. *)
Example pinch_scenarios_run :
  processPinch dom0 0 hand006 initial
  = Ok true (set_pinchMode PinchIdle (set_pinchActive true initial))
  /\ processPinch dom0 0 hand008 initial = Ok false initial
  /\ processPinch dom0 0 hand035 initial = Ok false initial.
Proof. split; [|split]; vm_compute; reflexivity. Qed.

(** ** Hit tests *)

Lemma find_first {A} (P : A -> bool) (l : list A) (a : A) :
  List.find P l = Some a
  <-> exists l1 l2, l = l1 ++ a :: l2 /\ P a = true
                    /\ Forall (fun b => P b = false) l1.
Proof.
  induction l as [|b l IH]; cbn [List.find].
  - split; [discriminate|]. intros (l1 & l2 & H & _). now destruct l1.
  - destruct (P b) eqn:Hb.
    + split.
      * intros [= ->]. exists [], l. auto.
      * intros (l1 & l2 & H & Ha & Hl1). destruct l1 as [|c l1].
        -- now injection H as -> _.
        -- injection H as -> _. inversion Hl1; congruence.
    + rewrite IH. split.
      * intros (l1 & l2 & -> & Ha & Hl1). exists (b :: l1), l2. auto.
      * intros (l1 & l2 & H & Ha & Hl1). destruct l1 as [|c l1].
        -- injection H as -> _. congruence.
        -- injection H as -> ->. inversion Hl1. eauto.
Qed.

Lemma find_none {A} (P : A -> bool) (l : list A) :
  List.find P l = None <-> Forall (fun b => P b = false) l.
Proof.
  induction l as [|b l IH]; cbn [List.find].
  - split; auto.
  - destruct (P b) eqn:Hb.
    + split; [discriminate|]. inversion 1; congruence.
    + rewrite IH. split; [auto | now inversion 1].
Qed.

Section LastMatch.
Context {A B : Type} (P : A -> bool) (g : A -> B).

Let f (acc : option B) (a : A) : option B :=
  if P a then Some (g a) else acc.

Lemma fold_no_match (l : list A) (acc : option B) :
  Forall (fun a => P a = false) l -> fold_left f l acc = acc.
Proof.
  intros H. revert acc.
  induction H as [|a l Ha _ IH]; intros acc; cbn [fold_left]; [reflexivity|].
  unfold f at 2. now rewrite Ha.
Qed.

Lemma fold_last_match (l : list A) (b : B) :
  fold_left f l None = Some b
  <-> exists l1 a l2, l = l1 ++ a :: l2 /\ g a = b /\ P a = true
                      /\ Forall (fun a' => P a' = false) l2.
Proof.
  split.
  - induction l as [|a l IH] using rev_ind; [discriminate|].
    rewrite fold_left_app. cbn [fold_left]. unfold f at 1.
    destruct (P a) eqn:Ha.
    + intros [= <-]. exists l, a, []. auto.
    + intros H. destruct (IH H) as (l1 & a' & l2 & -> & Hg & Ha' & Hl2).
      exists l1, a', (l2 ++ [a]). rewrite <- app_assoc. repeat split; auto.
      apply Forall_app. auto.
  - intros (l1 & a & l2 & -> & <- & Ha & Hl2).
    rewrite fold_left_app. cbn [fold_left]. unfold f at 2. rewrite Ha.
    now apply fold_no_match.
Qed.

Lemma fold_none_match (l : list A) :
  fold_left f l None = None <-> Forall (fun a => P a = false) l.
Proof.
  split; [|apply fold_no_match].
  induction l as [|a l IH] using rev_ind; [auto|].
  rewrite fold_left_app. cbn [fold_left]. unfold f at 1.
  destruct (P a) eqn:Ha; [discriminate|].
  intros H. apply Forall_app. auto.
Qed.
End LastMatch.

(** C10. Hit-testing is a function of the point and of the enumeration
    order, with opposite tie-breaks: among the buttons whose expanded
    rectangle holds the point (and that are interactable) [hitTestButtons]
    returns the first one of [controlButtons]; among the widgets whose
    rectangle holds the point [widgetUnderPoint] returns the id of the last
    one of [widgetElements], and a pinch start binds the drag to that id. *)
Theorem hit_test_tie_breaks (dom : Dom) (point : Point) :
  (forall btn, hitTestButtons dom point = Some btn
     <-> exists l1 l2, controlButtons dom = l1 ++ btn :: l2
           /\ buttonHit point btn = true
           /\ Forall (fun b => buttonHit point b = false) l1)
  /\ (hitTestButtons dom point = None
      <-> Forall (fun b => buttonHit point b = false) (controlButtons dom))
  /\ (forall wid, widgetUnderPoint dom point = Some wid
        <-> exists l1 e l2, widgetElements dom = l1 ++ e :: l2
              /\ id e = wid /\ containsPoint point e = true
              /\ Forall (fun e' => containsPoint point e' = false) l2)
  /\ (widgetUnderPoint dom point = None
      <-> Forall (fun e => containsPoint point e = false) (widgetElements dom))
  /\ (forall s l1 e l2, widgetElements dom = l1 ++ e :: l2 ->
        containsPoint point e = true ->
        Forall (fun e' => containsPoint point e' = false) l2 ->
        id e <> "" -> editMode s = true -> mode s = Mirror ->
        draggingId (bindWidget dom point s) = Some (id e)
        /\ pinchMode (bindWidget dom point s) = PinchDrag).
Proof.
  split; [|split; [|split; [|split]]].
  - intros btn. apply find_first.
  - apply find_none.
  - intros wid. apply (fold_last_match (containsPoint point) id).
  - apply (fold_none_match (containsPoint point) id).
  - intros s l1 e l2 Hl He Hl2 Hid Hedit Hmode.
    assert (Hw : widgetUnderPoint dom point = Some (id e)).
    { apply (fold_last_match (containsPoint point) id). eauto 10. }
    unfold bindWidget. rewrite Hedit, Hmode, Hw. cbn.
    destruct (String.eqb_spec (id e) ""); [contradiction|]. now cbn.
Qed.

(** ** Rounding of doubles *)

Lemma digits2_log2 (p : positive) :
  Z.pos (digits2_pos p) = Z.log2 (Z.pos p) + 1.
Proof.
  assert (E : digits2_pos p = Pos.size p).
  { induction p as [p IH|p IH|]; cbn; now rewrite ?IH. }
  rewrite E. destruct p; cbn [Pos.size Z.log2]; lia.
Qed.

Lemma Zdigits2_shift (K : positive) (n : Z) :
  0 <= n ->
  Zdigits2 (Z.pos K * 2 ^ n) = Z.pos (digits2_pos K) + n.
Proof.
  intros Hn. assert (H : 0 < Z.pos K * 2 ^ n) by (apply Z.mul_pos_pos; lia).
  destruct (Z.pos K * 2 ^ n) as [|P|P] eqn:E; try lia.
  cbn [Zdigits2]. rewrite !digits2_log2, <- E, Z.log2_mul_pow2 by lia. lia.
Qed.

Lemma digits2_bounds (p : positive) :
  2 ^ (Z.pos (digits2_pos p) - 1) <= Z.pos p < 2 ^ Z.pos (digits2_pos p).
Proof.
  rewrite digits2_log2. replace (Z.log2 (Z.pos p) + 1 - 1) with (Z.log2 (Z.pos p)) by lia.
  apply Z.log2_spec. lia.
Qed.

Lemma iter_pos_nat {A : Type} (f : A -> A) (p : positive) (x : A) :
  iter_pos f p x = Nat.iter (Pos.to_nat p) f x.
Proof.
  revert x. induction p as [p IH|p IH|]; intros x; cbn [iter_pos].
  - rewrite !IH, Pos2Nat.inj_xI.
    replace (S (2 * Pos.to_nat p))%nat
      with (Pos.to_nat p + S (Pos.to_nat p))%nat by lia.
    now rewrite Nat.iter_add, Nat.iter_succ_r.
  - rewrite !IH, Pos2Nat.inj_xO.
    replace (2 * Pos.to_nat p)%nat with (Pos.to_nat p + Pos.to_nat p)%nat
      by lia.
    now rewrite Nat.iter_add.
  - reflexivity.
Qed.

(** Shifting out zero bits loses nothing. *)
Lemma shr_exact (k : Z) (p : positive) :
  iter_pos shr_1 p {| shr_m := k * 2 ^ Z.pos p; shr_r := false; shr_s := false |}
  = {| shr_m := k; shr_r := false; shr_s := false |}.
Proof.
  rewrite iter_pos_nat, <- (positive_nat_Z p).
  generalize (Pos.to_nat p). intros n. revert k.
  induction n as [|n IH]; intros k.
  - cbn [Nat.iter Z.of_nat]. now rewrite Z.pow_0_r, Z.mul_1_r.
  - rewrite Nat.iter_succ.
    replace (k * 2 ^ Z.of_nat (S n)) with (2 * k * 2 ^ Z.of_nat n).
    + rewrite IH. now destruct k.
    + rewrite Nat2Z.inj_succ, Z.pow_succ_r by lia. lia.
Qed.

(** The rounding of a mantissa whose low bits are zero is exact. *)
Lemma binary_round_aux_exact (s : bool) (K : positive) (E n : Z) :
  0 <= n ->
  Z.max (Z.pos (digits2_pos K) + n + E - 53) (-1074) = E + n ->
  binary_round_aux prec emax s (Z.pos K * 2 ^ n) E loc_Exact
  = if E + n <=? 971 then S754_finite s K (E + n) else S754_infinity s.
Proof.
  intros Hn Hc. unfold binary_round_aux, shr_fexp.
  rewrite Zdigits2_shift by exact Hn.
  assert (E1 : fexp prec emax (Z.pos (digits2_pos K) + n + E) - E = n).
  { unfold fexp, emin, prec, emax. lia. }
  rewrite E1. cbn [shr_record_of_loc].
  assert (E2 : shr {| shr_m := Z.pos K * 2 ^ n; shr_r := false; shr_s := false |} E n
               = ({| shr_m := Z.pos K; shr_r := false; shr_s := false |}, E + n)).
  { unfold shr. destruct n as [|p|p]; [|now rewrite shr_exact | lia].
    f_equal; [f_equal|]; lia. }
  rewrite E2. cbn [shr_m loc_of_shr_record round_nearest_even Zdigits2
                   shr_record_of_loc].
  assert (E3 : fexp prec emax (Z.pos (digits2_pos K) + (E + n)) - (E + n) = 0).
  { unfold fexp, emin, prec, emax. lia. }
  rewrite E3. cbn [shr shr_m]. reflexivity.
Qed.

(** What a valid finite double satisfies. *)
Lemma valid_finite (x : float) (s : bool) (m : positive) (e : Z) :
  Prim2SF x = S754_finite s m e ->
  Z.max (Z.pos (digits2_pos m) + e - 53) (-1074) = e /\ e <= 971.
Proof.
  intros H. pose proof (Prim2SF_valid x) as V. rewrite H in V.
  unfold valid_binary, bounded, canonical_mantissa, fexp, emin, prec, emax
    in V.
  apply andb_true_iff in V as [V1 V2]. lia.
Qed.
Lemma SF16 : Prim2SF 16 = S754_finite false 4503599627370496 (-48).
Proof. reflexivity. Qed.

Lemma normal_digits (x : float) (s : bool) (m : positive) (e : Z) :
  Prim2SF x = S754_finite s m e -> -1074 < e ->
  Z.pos (digits2_pos m) = 53.
Proof. intros H He. apply valid_finite in H. lia. Qed.

Lemma mul16_normal (x : float) (s : bool) (m : positive) (e : Z) :
  Prim2SF x = S754_finite s m e -> Z.pos (digits2_pos m) = 53 -> e <= 967 ->
  Prim2SF (x * 16) = S754_finite s m (e + 4).
Proof.
  intros H Hd He. pose proof (valid_finite _ _ _ _ H) as [Hc _].
  rewrite mul_spec, H, SF16. unfold SF64mul, SFmul.
  rewrite xorb_false_r.
  replace (Z.pos (m * 4503599627370496)) with (Z.pos m * 2 ^ 52)
    by (now rewrite Pos2Z.inj_mul).
  rewrite binary_round_aux_exact by lia.
  replace (e + -48 + 52) with (e + 4) by lia.
  destruct (Z.leb_spec (e + 4) 971); [reflexivity | lia].
Qed.

Lemma div_eucl_eq (a b : Z) : Z.div_eucl a b = (a / b, a mod b).
Proof. unfold Z.div, Z.modulo. now destruct (Z.div_eucl a b). Qed.

Lemma pow2_add (a b : Z) : 0 <= a -> 0 <= b -> 2 ^ a * 2 ^ b = 2 ^ (a + b).
Proof. intros Ha Hb. now rewrite Z.pow_add_r. Qed.

Lemma pow2_pos (a : Z) : 0 <= a -> 0 < 2 ^ a.
Proof. intros Ha. apply Z.pow_pos_nonneg; lia. Qed.

Lemma div16_core (m : positive) (e : Z) :
  -1074 <= e -> Z.pos (digits2_pos m) <= 53 ->
  let e' := Z.max (Z.pos (digits2_pos m) + e - 58) (-1074) in
  SFdiv_core_binary prec emax (Z.pos m) e 4503599627370496 (-48)
  = ((Z.pos m * 2 ^ (e + 48 - e')) / 2 ^ 52, e',
     new_location 4503599627370496 ((Z.pos m * 2 ^ (e + 48 - e')) mod 2 ^ 52)).
Proof.
  intros He Hd e'. unfold SFdiv_core_binary.
  change (Zdigits2 4503599627370496) with 53. cbn [Zdigits2].
  assert (E1 : Z.min (fexp prec emax
                        (Z.pos (digits2_pos m) + e - (53 + -48)))
                     (e - -48) = e').
  { unfold fexp, emin, prec, emax. lia. }
  rewrite E1.
  assert (Hs : 0 < e - -48 - e') by lia.
  replace (e + 48 - e') with (e - -48 - e') by lia.
  destruct (e - -48 - e') as [|p|p] eqn:Es; try lia.
  rewrite Z.shiftl_mul_pow2 by lia.
  change (Z.pos 4503599627370496) with (2 ^ 52).
  now rewrite div_eucl_eq.
Qed.

Lemma div16_normal (x : float) (s : bool) (m : positive) (e : Z) :
  Prim2SF x = S754_finite s m e -> -1070 <= e ->
  Prim2SF (x / 16) = S754_finite s m (e - 4).
Proof.
  intros H He. pose proof (valid_finite _ _ _ _ H) as [Hc Hm].
  assert (Hd : Z.pos (digits2_pos m) = 53) by lia.
  rewrite div_spec, H, SF16. unfold SF64div, SFdiv.
  rewrite div16_core by lia. rewrite Hd, xorb_false_r.
  set (e' := Z.max (53 + e - 58) (-1074)).
  set (n := e + 48 - e' - 52).
  assert (Hn : 0 <= n) by lia.
  assert (Em : Z.pos m * 2 ^ (e + 48 - e') = Z.pos m * 2 ^ n * 2 ^ 52).
  { rewrite <- Z.mul_assoc, pow2_add by lia. f_equal. f_equal. lia. }
  rewrite Em, Z.div_mul, Z.mod_mul by lia.
  change (new_location 4503599627370496 0) with loc_Exact.
  rewrite binary_round_aux_exact by lia.
  replace (e' + n) with (e - 4) by lia.
  destruct (Z.leb_spec (e - 4) 971); [reflexivity | lia].
Qed.

Lemma fexp_small (z : Z) :
  0 <= z <= 2 ^ 52 -> fexp prec emax (Zdigits2 z + -1074) - -1074 = 0.
Proof.
  intros Hz. unfold fexp, emin, prec, emax.
  destruct z as [|p|p]; cbn [Zdigits2]; [lia | | lia].
  assert (Z.log2 (Z.pos p) < 53).
  { apply Z.log2_lt_pow2; [lia|]. 
    apply Z.le_lt_trans with (1 := proj2 Hz). reflexivity. }
  rewrite digits2_log2. lia.
Qed.

(** A quotient below [2 ^ 52] at the smallest exponent rounds to a double
    at that exponent, or to zero. *)
Lemma round_small (s : bool) (q : Z) (l : location) :
  0 <= q < 2 ^ 52 ->
  binary_round_aux prec emax s q (-1074) l = S754_zero s
  \/ exists p, binary_round_aux prec emax s q (-1074) l
               = S754_finite s p (-1074).
Proof.
  intros Hq. unfold binary_round_aux, shr_fexp.
  rewrite fexp_small by lia. cbn [shr].
  set (q' := round_nearest_even _ _).
  assert (Hq' : q' = q \/ q' = q + 1).
  { subst q'. destruct l as [|[]]; cbn; auto. destruct (Z.even q); auto. }
  rewrite fexp_small by lia. cbn [shr shr_record_of_loc shr_m].
  destruct q' as [|p|p]; [now left | right | lia].
  now exists p.
Qed.

Lemma div16_tiny (x : float) (s : bool) (m : positive) (e : Z) :
  Prim2SF x = S754_finite s m e -> e < -1070 ->
  Prim2SF (x / 16) = S754_zero s
  \/ exists q, Prim2SF (x / 16) = S754_finite s q (-1074).
Proof.
  intros H He. pose proof (valid_finite _ _ _ _ H) as [Hc Hm].
  rewrite div_spec, H, SF16. unfold SF64div, SFdiv.
  rewrite div16_core by lia. rewrite xorb_false_r.
  replace (Z.max (Z.pos (digits2_pos m) + e - 58) (-1074)) with (-1074)
    by lia.
  apply round_small.
  pose proof (digits2_bounds m) as [_ Hb].
  assert (Z.pos m < 2 ^ 53).
  { apply Z.lt_le_trans with (1 := Hb). apply Z.pow_le_mono_r; lia. }
  assert (2 ^ (e + 48 - -1074) <= 2 ^ 51) by (apply Z.pow_le_mono_r; lia).
  pose proof (pow2_pos (e + 48 - -1074)).
  split; [apply Z.div_pos; lia|].
  apply Z.div_lt_upper_bound; [lia|].
  change (2 ^ 52 * 2 ^ 52) with (2 ^ 53 * 2 ^ 51). 
  generalize dependent (2 ^ (e + 48 - -1074)). intros P. 
  change (2^51) with 2251799813685248. change (2^53) with 9007199254740992.
  nia.
Qed.

(** The double of a positive integer below [2 ^ 53]. *)
Lemma of_uint63_exact (n : positive) :
  Z.pos (digits2_pos n) <= 53 ->
  exists K,
    Prim2SF (of_uint63 (Uint63.of_Z (Z.pos n)))
    = S754_finite false K (Z.pos (digits2_pos n) - 53)
    /\ Z.pos K = Z.pos n * 2 ^ (53 - Z.pos (digits2_pos n))
    /\ Z.pos (digits2_pos K) = 53.
Proof.
  intros Hd. rewrite of_uint63_spec, Uint63.of_Z_spec.
  pose proof (digits2_bounds n) as [_ Hb].
  assert (Hn : Z.pos n < 2 ^ 53).
  { apply Z.lt_le_trans with (1 := Hb). apply Z.pow_le_mono_r; lia. }
  rewrite Z.mod_small
    by (split; [lia|]; apply Z.lt_trans with (1 := Hn); reflexivity).
  cbn [binary_normalize]. unfold binary_round, shl_align.
  assert (E1 : fexp prec emax (Z.pos (digits2_pos n) + 0)
               = Z.pos (digits2_pos n) - 53).
  { unfold fexp, emin, prec, emax. lia. }
  rewrite E1.
  destruct (Z.pos (digits2_pos n) - 53 - 0) as [|d|d] eqn:Ed; [|lia|].
  - exists n. replace (Z.pos (digits2_pos n) - 53) with 0 by lia.
    replace (53 - Z.pos (digits2_pos n)) with 0 by lia.
    rewrite <- (Z.mul_1_r (Z.pos n)) at 1. change 1 with (2 ^ 0) at 1.
    rewrite binary_round_aux_exact by lia.
    split; [reflexivity|]. split; lia.
  - set (K := Pos.iter xO n d).
    assert (EK : Z.pos K = Z.pos n * 2 ^ Z.pos d).
    { subst K. change (Pos.iter xO n d) with (shift_pos d n).
      rewrite shift_pos_correct, Z.pow_pos_fold. lia. }
    assert (EdK : Z.pos (digits2_pos K) = 53).
    { rewrite digits2_log2, EK, Z.log2_mul_pow2 by lia.
      rewrite digits2_log2 in Ed. lia. }
    exists K.
    rewrite <- (Z.mul_1_r (Z.pos K)) at 1. change 1 with (2 ^ 0) at 1.
    rewrite binary_round_aux_exact by lia.
    replace (Z.pos (digits2_pos n) - 53 + 0)
      with (Z.pos (digits2_pos n) - 53) by lia.
    destruct (Z.leb_spec (Z.pos (digits2_pos n) - 53) 971); [|lia].
    split; [reflexivity|]. split; [|exact EdK].
    rewrite EK. replace (53 - Z.pos (digits2_pos n)) with (Z.pos d) by lia.
    reflexivity.
Qed.

(** The double of a non-zero integer of at most 53 bits: its value is the
    integer, and it is a normal number. *)
Lemma Z2float_exact (n : Z) :
  n <> 0 -> Z.abs n < 2 ^ 53 ->
  exists K e,
    Prim2SF (Z2float n) = S754_finite (n <? 0) K e
    /\ Z.pos (digits2_pos K) = 53 /\ -52 <= e <= 0
    /\ Z.pos K = Z.abs n * 2 ^ (- e).
Proof.
  intros Hn Hb.
  assert (H : forall p : positive, Z.pos p < 2 ^ 53 ->
            exists K e,
              Prim2SF (of_uint63 (Uint63.of_Z (Z.pos p)))
              = S754_finite false K e
              /\ Z.pos (digits2_pos K) = 53 /\ -52 <= e <= 0
              /\ Z.pos K = Z.pos p * 2 ^ (- e)).
  { intros p Hp.
    assert (Hd : Z.pos (digits2_pos p) <= 53).
    { rewrite digits2_log2.
      assert (Z.log2 (Z.pos p) < 53) by (apply Z.log2_lt_pow2; lia). lia. }
    destruct (of_uint63_exact p Hd) as (K & E & EK & EdK).
    exists K, (Z.pos (digits2_pos p) - 53).
    split; [exact E|]. split; [exact EdK|]. split; [lia|].
    rewrite EK. f_equal. f_equal. lia. }
  destruct n as [|p|p]; [contradiction| |].
  - change (Z2float (Z.pos p)) with (of_uint63 (Uint63.of_Z (Z.pos p))).
    apply H. exact Hb.
  - change (Z2float (Z.neg p))
      with (- of_uint63 (Uint63.of_Z (Z.pos p)))%float.
    destruct (H p Hb) as (K & e & E & R).
    exists K, e. rewrite opp_spec, E. split; [reflexivity | exact R].
Qed.

Lemma is_finite_SF (x : float) :
  is_finite x
  = match Prim2SF x with
    | S754_zero _ | S754_finite _ _ _ => true
    | _ => false
    end.
Proof.
  unfold is_finite, is_nan, is_infinity.
  rewrite !FloatAxioms.eqb_spec, abs_spec.
  change (Prim2SF infinity) with (S754_infinity false).
  destruct (Prim2SF x) as [s|s| |s m e]; try reflexivity.
  - now destruct s.
  - unfold SFeqb, SFabs, SFcompare.
    rewrite Z.compare_refl, Pos.compare_cont_refl. now destruct s.
Qed.



Lemma float_of_SF (x : float) (f : spec_float) :
  Prim2SF x = f -> x = SF2Prim f.
Proof. intros <-. symmetry. apply SF2Prim_Prim2SF. Qed.

Lemma mantissa_bound (x : float) (s : bool) (m : positive) (e : Z) :
  Prim2SF x = S754_finite s m e -> Z.pos m < 2 ^ 53 /\ -1074 <= e.
Proof.
  intros H. apply valid_finite in H as [Hc _].
  pose proof (digits2_bounds m) as [_ Hb]. split; [|lia].
  apply Z.lt_le_trans with (1 := Hb). apply Z.pow_le_mono_r; lia.
Qed.

(** [Math.round] of a double below a half in magnitude. *)
Lemma Math_round_small (y : float) (s : bool) (q : positive) :
  Prim2SF y = S754_finite s q (-1074) ->
  Math_round y = SF2Prim (S754_zero s).
Proof.
  intros H. pose proof (mantissa_bound _ _ _ _ H) as [Hq _].
  unfold Math_round. rewrite H.
  change (0 <=? -1074) with false. cbv iota zeta.
  change (- -1074 - 1) with 1073. change (- -1074) with 1074.
  rewrite Z.shiftr_div_pow2 by lia.
  assert (E : (cond_Zopp s (Z.pos q) + 2 ^ 1073) / 2 ^ 1074 = 0).
  { apply Z.div_small.
    assert (H1 : 2 ^ 53 <= 2 ^ 1073) by (apply Z.pow_le_mono_r; lia).
    change (2 ^ 1074) with (2 ^ Z.succ 1073).
    rewrite Z.pow_succ_r by lia.
    generalize dependent (2 ^ 1073). generalize dependent (2 ^ 53).
    intros. destruct s; cbn [cond_Zopp]; lia. }
  rewrite E. now destruct s.
Qed.

Lemma units_bound (x : float) (s : bool) (m : positive) (e : Z) :
  Prim2SF x = S754_finite s m e -> e < -1070 ->
  - 2 ^ 1077 < units x < 2 ^ 1077.
Proof.
  intros H He. pose proof (mantissa_bound _ _ _ _ H) as [Hm Hl].
  unfold units. rewrite H.
  assert (H1 : 2 ^ (e + 1074) <= 2 ^ 3) by (apply Z.pow_le_mono_r; lia).
  assert (H2 : 2 ^ 53 * 2 ^ 3 <= 2 ^ 1077).
  { rewrite pow2_add by lia. apply Z.pow_le_mono_r; lia. }
  pose proof (pow2_pos (e + 1074)).
  generalize dependent (2 ^ 1077). generalize dependent (2 ^ (e + 1074)).
  change (2 ^ 3) with 8. change (2 ^ 53) with 9007199254740992.
  intros. destruct s; cbn [cond_Zopp]; nia.
Qed.

Lemma half_grid : 2 ^ 1078 = 2 * 2 ^ 1077.
Proof. change 1078 with (Z.succ 1077). now rewrite Z.pow_succ_r. Qed.

Lemma round_to_zero (u : Z) :
  - 2 ^ 1077 < u < 2 ^ 1077 -> (u + 2 ^ 1077) / 2 ^ 1078 = 0.
Proof. intros H. apply Z.div_small. rewrite half_grid. lia. Qed.

(** Rounding a value in units of [2 ^ -1074] and rounding its mantissa
    at its exponent are the same. *)
Lemma round_cancel (a e : Z) :
  -1074 <= e -> e < 4 ->
  (a * 2 ^ (e + 1074) + 2 ^ 1077) / 2 ^ 1078
  = (a + 2 ^ (- (e - 4) - 1)) / 2 ^ (- (e - 4)).
Proof.
  intros H1 H2.
  replace (2 ^ 1077) with (2 ^ (- (e - 4) - 1) * 2 ^ (e + 1074))
    by (rewrite pow2_add by lia; f_equal; lia).
  replace (2 ^ 1078) with (2 ^ (- (e - 4)) * 2 ^ (e + 1074))
    by (rewrite pow2_add by lia; f_equal; lia).
  rewrite <- Z.mul_add_distr_r.
  apply Z.div_mul_cancel_r; apply Z.neq_sym, Z.lt_neq, pow2_pos; lia.
Qed.

(** The integer [Math.round] computes has at most 53 bits. *)
Lemma round_bound (a k : Z) :
  Z.abs a < 2 ^ 53 -> 1 <= k ->
  Z.abs ((a + 2 ^ (k - 1)) / 2 ^ k) < 2 ^ 53.
Proof.
  intros Ha Hk. pose proof (pow2_pos (k - 1)) as Hp.
  assert (E : 2 ^ k = 2 * 2 ^ (k - 1)).
  { replace k with (Z.succ (k - 1)) at 1 by lia.
    rewrite Z.pow_succ_r by lia. reflexivity. }
  rewrite E. generalize dependent (2 ^ (k - 1)). intros h _ Hh.
  change (2 ^ 53) with 9007199254740992 in *.
  assert (- 9007199254740992 < (a + h) / (2 * h) < 9007199254740992);
    [|lia].
  split.
  - apply Z.lt_le_trans with (- 4503599627370496); [lia|].
    apply Z.div_le_lower_bound; nia.
  - apply Z.div_lt_upper_bound; nia.
Qed.

Lemma snap_zero (s : bool) :
  snap (SF2Prim (S754_zero s)) = SF2Prim (S754_zero s).
Proof. now destruct s. Qed.

Lemma snap_units (v : float) :
  is_finite v = true ->
  is_finite (snap v) = true
  /\ units (snap v) = (units v + 2 ^ 1077) / 2 ^ 1078 * 2 ^ 1078.
Proof.
  rewrite is_finite_SF. destruct (Prim2SF v) as [s|s| |s m e] eqn:H;
    try discriminate; intros _.
  { apply float_of_SF in H. subst v. rewrite snap_zero.
    pose proof (pow2_pos 1077 ltac:(lia)).
    destruct s; (split; [reflexivity|]); change (units _) with 0;
      rewrite round_to_zero; lia. }
  pose proof (valid_finite _ _ _ _ H) as [Hc Hm].
  assert (Hu : units v = cond_Zopp s (Z.pos m) * 2 ^ (e + 1074))
    by (unfold units; now rewrite H).
  destruct (Z.lt_ge_cases e (-1070)) as [He | He].
  - (* below the grid: the quotient rounds to zero *)
    assert (Er : Math_round (v / 16) = SF2Prim (S754_zero s)).
    { destruct (div16_tiny _ _ _ _ H He) as [E | [q E]].
      - rewrite <- (float_of_SF _ _ E). unfold Math_round. now rewrite E.
      - exact (Math_round_small _ _ _ E). }
    unfold snap, SNAP_SIZE. rewrite Er.
    rewrite round_to_zero by (exact (units_bound _ _ _ _ H He)).
    now destruct s.
  - pose proof (div16_normal _ _ _ _ H He) as Ey.
    assert (Hd : Z.pos (digits2_pos m) = 53) by lia.
    destruct (Z.le_gt_cases 4 e) as [He4 | He4].
    + (* an integer already *)
      assert (Er : Math_round (v / 16) = (v / 16)%float).
      { unfold Math_round. rewrite Ey.
        destruct (Z.leb_spec 0 (e - 4)); [reflexivity | lia]. }
      assert (Ev : snap v = v).
      { unfold snap, SNAP_SIZE. rewrite Er. apply Prim2SF_inj.
        rewrite (mul16_normal _ _ _ _ Ey Hd) by lia. rewrite H.
        f_equal. lia. }
      rewrite Ev. split; [rewrite is_finite_SF; now rewrite H|].
      rewrite Hu.
      replace (2 ^ (e + 1074)) with (2 ^ (e - 4) * 2 ^ 1078)
        by (rewrite pow2_add by lia; f_equal; lia).
      rewrite Z.mul_assoc, Z.div_add_l
        by (apply Z.neq_sym, Z.lt_neq, pow2_pos; lia).
      rewrite (Z.div_small (2 ^ 1077)); [lia|].
      rewrite half_grid. pose proof (pow2_pos 1077). lia.
    + rewrite Hu, round_cancel by lia.
      unfold snap, SNAP_SIZE, Math_round. rewrite Ey.
      destruct (Z.leb_spec 0 (e - 4)); [lia|]. cbv zeta.
      rewrite Z.shiftr_div_pow2 by lia.
      set (n := (cond_Zopp s (Z.pos m) + 2 ^ (- (e - 4) - 1))
                / 2 ^ (- (e - 4))).
      destruct (Z.eqb_spec n 0) as [En | En].
      * rewrite En. now destruct s.
      * assert (Hn : Z.abs n < 2 ^ 53).
        { apply round_bound; [|lia].
          pose proof (mantissa_bound _ _ _ _ H) as [Hb _].
          destruct s; cbn [cond_Zopp]; lia. }
        destruct (Z2float_exact n En Hn) as (K & e2 & E2 & HdK & He2 & EK).
        pose proof (mul16_normal _ _ _ _ E2 HdK ltac:(lia)) as E3.
        split; [rewrite is_finite_SF; now rewrite E3|].
        unfold units. rewrite E3.
        replace (2 ^ 1078) with (2 ^ (- e2) * 2 ^ (e2 + 4 + 1074))
          by (rewrite pow2_add by lia; f_equal; lia).
        rewrite Z.mul_assoc. f_equal.
        destruct (Z.ltb_spec n 0); cbn [cond_Zopp]; rewrite EK; lia.
Qed.
(** A finite double other than zero is determined by its value. *)
Lemma units_inj (x y : float) :
  is_finite x = true -> is_finite y = true ->
  units x = units y -> units x <> 0 -> x = y.
Proof.
  rewrite !is_finite_SF. unfold units. intros Fx Fy E Hx.
  destruct (Prim2SF x) as [s|s| |s m e] eqn:Ex; try discriminate;
    try contradiction.
  destruct (Prim2SF y) as [s'|s'| |s' m' e'] eqn:Ey; try discriminate;
    try (now rewrite <- E in Hx).
  pose proof (valid_finite _ _ _ _ Ex) as [Hc _].
  pose proof (valid_finite _ _ _ _ Ey) as [Hc' _].
  pose proof (pow2_pos (e + 1074) ltac:(lia)) as Hp.
  pose proof (pow2_pos (e' + 1074) ltac:(lia)) as Hp'.
  assert (Es : s = s').
  { destruct s, s'; cbn [cond_Zopp] in E; try reflexivity; exfalso; nia. }
  subst s'.
  assert (Em : Z.pos m * 2 ^ (e + 1074) = Z.pos m' * 2 ^ (e' + 1074)).
  { destruct s; cbn [cond_Zopp] in E; lia. }
  assert (El : Z.log2 (Z.pos m) + e = Z.log2 (Z.pos m') + e').
  { pose proof (f_equal Z.log2 Em) as El.
    rewrite !Z.log2_mul_pow2 in El by lia. lia. }
  rewrite !digits2_log2 in Hc, Hc'.
  assert (Ee : e = e') by lia. subst e'.
  assert (m = m') by nia. subst m'.
  apply Prim2SF_inj. now rewrite Ex, Ey.
Qed.

Lemma zero_of_units (x : float) :
  is_finite x = true -> units x = 0 -> exists s, x = SF2Prim (S754_zero s).
Proof.
  rewrite is_finite_SF. unfold units. intros F E.
  destruct (Prim2SF x) as [s|s| |s m e] eqn:Ex; try discriminate.
  - exists s. now apply float_of_SF.
  - pose proof (valid_finite _ _ _ _ Ex) as [Hc _].
    pose proof (pow2_pos (e + 1074) ltac:(lia)).
    destruct s; cbn [cond_Zopp] in E; nia.
Qed.

(** A finite multiple of the grid unit is where [snap] leaves it. *)
Lemma snap_fixed (v : float) (k : Z) :
  is_finite v = true -> units v = k * 2 ^ 1078 -> snap v = v.
Proof.
  intros F E. destruct (snap_units v F) as [F' E'].
  assert (Ev : units (snap v) = units v).
  { rewrite E', E, Z.div_add_l
      by (apply Z.neq_sym, Z.lt_neq, pow2_pos; lia).
    rewrite (Z.div_small (2 ^ 1077)); [lia|].
    rewrite half_grid. pose proof (pow2_pos 1077). lia. }
  destruct (Z.eq_dec (units v) 0) as [Hz | Hz].
  - destruct (zero_of_units v F Hz) as [s ->]. apply snap_zero.
  - apply units_inj; auto. now rewrite Ev.
Qed.

Lemma snap_snap (v : float) : snap (snap v) = snap v.
Proof.
  destruct (is_finite v) eqn:F.
  - destruct (snap_units v F) as [F' E'].
    now apply snap_fixed with (k := (units v + 2 ^ 1077) / 2 ^ 1078).
  - rewrite is_finite_SF in F.
    destruct (Prim2SF v) as [s|s| |s m e] eqn:Ev; try discriminate;
      apply float_of_SF in Ev; subst v; [now destruct s | reflexivity].
Qed.

Lemma snap_near (v : float) :
  is_finite v = true ->
  2 * Z.abs (units (snap v) - units v) <= 2 ^ 1078.
Proof.
  intros F. destruct (snap_units v F) as [_ E]. rewrite E.
  pose proof (pow2_pos 1077 ltac:(lia)) as Hp.
  pose proof (Z.div_mod (units v + 2 ^ 1077) (2 ^ 1078)) as Hd.
  pose proof (Z.mod_pos_bound (units v + 2 ^ 1077) (2 ^ 1078)) as Hb.
  rewrite half_grid in *.
  generalize dependent (2 ^ 1077). intros h.
  generalize ((units v + h) / (2 * h)).
  generalize ((units v + h) mod (2 * h)). intros. nia.
Qed.

(** ** Misalignment distances *)

Lemma SFabs_round (s s' : bool) (m e : Z) (l : location) :
  SFabs (binary_round_aux prec emax s m e l)
  = SFabs (binary_round_aux prec emax s' m e l).
Proof.
  unfold binary_round_aux.
  destruct (shr_fexp prec emax m e l) as [mrs e1].
  destruct (shr_fexp prec emax _ e1 loc_Exact) as [mrs' e2].
  destruct (shr_m mrs'); try reflexivity. now destruct (e2 <=? _).
Qed.

Lemma SFabs_normalize (z e : Z) :
  SFabs (binary_normalize prec emax (- z) e false)
  = SFabs (binary_normalize prec emax z e false).
Proof.
  destruct z as [|p|p]; [reflexivity| |];
    change (- Z.pos p) with (Z.neg p); change (- Z.neg p) with (Z.pos p);
    cbn [binary_normalize]; unfold binary_round;
    destruct (shl_align _ _ _); apply SFabs_round.
Qed.

(** [Math.abs(a - b)] and [Math.abs(b - a)] are the same double. *)
Lemma abs_sub_comm (a b : float) : abs (a - b) = abs (b - a).
Proof.
  apply Prim2SF_inj. rewrite !abs_spec, !sub_spec. unfold SF64sub.
  destruct (Prim2SF a) as [sa|sa| |sa ma ea],
           (Prim2SF b) as [sb|sb| |sb mb eb];
    try reflexivity; try (now destruct sa, sb).
  unfold SFsub. rewrite (Z.min_comm eb ea).
  set (A := cond_Zopp sa _). set (B := cond_Zopp sb _).
  replace (B - A) with (- (A - B)) by lia. symmetry. apply SFabs_normalize.
Qed.

Lemma ltb_leb (a b : float) :
  (a <? b)%float = true -> (a <=? b)%float = true.
Proof.
  rewrite ltb_spec, leb_spec, SFltb_rank, SFleb_rank.
  intros (Ha & Hb & H). auto.
Qed.

(** ** Snap alignment *)

(** What the alignment search of one axis holds after the candidates
    [seen]: nothing, when none of them is within the tolerance, or the
    first of those at the smallest distance. *)
Lemma consider_step (seen : list Candidate) (acc : float * float)
  (c1 : Candidate) :
  (acc = ((ALIGN_THRESHOLD + 1)%float, 0%float)
   /\ forall c, In c seen -> (dist c <=? ALIGN_THRESHOLD)%float = false)
  \/ (exists c,
        In c seen /\ acc = (dist c, delta c)
        /\ (dist c <=? ALIGN_THRESHOLD)%float = true
        /\ forall c', In c' seen -> (dist c' <? dist c)%float = false) ->
  (consider acc c1 = ((ALIGN_THRESHOLD + 1)%float, 0%float)
   /\ forall c, In c (seen ++ [c1]) ->
        (dist c <=? ALIGN_THRESHOLD)%float = false)
  \/ (exists c,
        In c (seen ++ [c1]) /\ consider acc c1 = (dist c, delta c)
        /\ (dist c <=? ALIGN_THRESHOLD)%float = true
        /\ forall c', In c' (seen ++ [c1]) ->
             (dist c' <? dist c)%float = false).
Proof.
  assert (Hfar : forall a b : float,
            (a <=? ALIGN_THRESHOLD)%float = false ->
            (b <=? ALIGN_THRESHOLD)%float = true ->
            (a <? b)%float = false).
  { intros a b Ha Hb. destruct (a <? b)%float eqn:E; [|reflexivity].
    rewrite (ltb_leb _ _ (ltb_leb_trans _ _ _ E Hb)) in Ha. discriminate. }
  intros [(-> & Hnone) | (c & Hin & -> & Hth & Hmin)]; unfold consider;
    cbn [fst].
  - destruct (dist c1 <=? ALIGN_THRESHOLD)%float eqn:H1.
    + assert (H2 : (dist c1 <? ALIGN_THRESHOLD + 1)%float = true)
        by (apply leb_ltb_trans with (1 := H1); reflexivity).
      rewrite H2. cbn [andb]. right. exists c1.
      split; [apply in_app_iff; right; now left|].
      split; [reflexivity|]. split; [exact H1|].
      intros c' [Hc' | [<- | []]]%in_app_iff;
        [apply Hfar; auto | apply ltb_irrefl].
    + rewrite andb_false_r. left. split; [reflexivity|].
      intros c' [Hc' | [<- | []]]%in_app_iff; auto.
  - destruct (dist c1 <? dist c)%float eqn:H2;
      destruct (dist c1 <=? ALIGN_THRESHOLD)%float eqn:H1; cbn [andb].
    + right. exists c1. split; [apply in_app_iff; right; now left|].
      split; [reflexivity|]. split; [exact H1|].
      intros c' [Hc' | [<- | []]]%in_app_iff; [|apply ltb_irrefl].
      destruct (dist c' <? dist c1)%float eqn:E; [|reflexivity].
      rewrite <- (Hmin c' Hc'). symmetry. now apply ltb_trans with (dist c1).
    + rewrite (Hfar _ _ H1 Hth) in H2. discriminate.
    + right. exists c. split; [apply in_app_iff; now left|].
      split; [reflexivity|]. split; [exact Hth|].
      intros c' [Hc' | [<- | []]]%in_app_iff; auto.
    + right. exists c. split; [apply in_app_iff; now left|].
      split; [reflexivity|]. split; [exact Hth|].
      intros c' [Hc' | [<- | []]]%in_app_iff; auto.
Qed.

(** The search of one axis, started as [snapWidget] starts it. *)
Lemma consider_chosen (cands : list Candidate) :
  chosen cands
    (snd (fold_left consider cands ((ALIGN_THRESHOLD + 1)%float, 0%float))).
Proof.
  assert (H : forall cands seen acc,
            (acc = ((ALIGN_THRESHOLD + 1)%float, 0%float)
             /\ forall c, In c seen ->
                  (dist c <=? ALIGN_THRESHOLD)%float = false)
            \/ (exists c,
                  In c seen /\ acc = (dist c, delta c)
                  /\ (dist c <=? ALIGN_THRESHOLD)%float = true
                  /\ forall c', In c' seen ->
                       (dist c' <? dist c)%float = false) ->
            chosen (seen ++ cands) (snd (fold_left consider cands acc))).
  { clear cands. induction cands as [|c1 cands IH]; intros seen acc HJ.
    - rewrite app_nil_r. cbn [fold_left].
      destruct HJ as [(-> & Hnone) | (c & Hin & -> & Hth & Hmin)].
      + left. now split.
      + right. exists c. auto.
    - cbn [fold_left].
      replace (seen ++ c1 :: cands) with ((seen ++ [c1]) ++ cands)
        by (now rewrite <- app_assoc).
      apply IH. now apply consider_step. }
  apply (H cands []). left. split; [reflexivity|]. intros c [].
Qed.

Lemma align_axes (selfRect : Rect) (others : list Rect)
  (acc : (float * float) * (float * float)) :
  fold_left (alignStep selfRect) others acc
  = (fold_left consider (flat_map (candidatesX selfRect) others) (fst acc),
     fold_left consider (flat_map (candidatesY selfRect) others) (snd acc)).
Proof.
  revert acc. induction others as [|r others IH]; intros acc.
  - now destruct acc.
  - cbn [fold_left flat_map]. rewrite IH, !fold_left_app. reflexivity.
Qed.

(** A shift the search may apply is within the tolerance. *)
Lemma chosen_within (edges : list (Rect -> float)) (selfRect : Rect)
  (others : list Rect) (d : float) :
  chosen (misalignments edges selfRect others) d ->
  (Math_abs d <=? ALIGN_THRESHOLD)%float = true.
Proof.
  intros [(-> & _) | (c & Hin & -> & Hth & _)]; [reflexivity|].
  unfold misalignments in Hin.
  apply in_flat_map in Hin as (r & _ & Hin).
  apply in_map_iff in Hin as (edge & <- & _).
  cbn [delta dist] in *. unfold Math_abs in *.
  now rewrite abs_sub_comm.
Qed.

Lemma release_snaps (dom : Dom) (wid : string) (s : State) :
  pinchActive s = true -> draggingId s = Some wid -> wid <> "" ->
  editMode s = true ->
  release dom false s
  = set_pinchMode PinchNone
      (set_draggingId None (set_pinchActive false (snapWidget dom wid s))).
Proof.
  intros Hp Hd Hw He. unfold release. rewrite Hp, Hd, He. cbn.
  destruct (String.eqb_spec wid ""); [contradiction|]. reflexivity.
Qed.

Lemma units_SNAP_SIZE : units SNAP_SIZE = 2 ^ 1078.
Proof. reflexivity. Qed.

Lemma snap_nearestOnGrid (v : float) :
  is_finite v = true -> nearestOnGrid v (snap v).
Proof.
  intros F. destruct (snap_units v F) as [F' E]. unfold nearestOnGrid, onGrid.
  rewrite units_SNAP_SIZE. split; [split; [exact F'|]|].
  - now exists ((units v + 2 ^ 1077) / 2 ^ 1078).
  - now apply snap_near.
Qed.

(** C2. When a widget is released, [snapWidget] shifts it on each axis by
    the delta of a candidate at the smallest misalignment distance among
    the leading edges, centres and trailing edges of all other widgets,
    provided that distance is within the tolerance of 140 pixels, and by
    nothing when no candidate is; the magnitude of the shift never exceeds
    the tolerance.  The new offset on each axis is [snap] of the shifted
    offset, which, the shifted offset being a finite number, is a multiple
    of the grid unit of 16 pixels, and one nearest to the shifted offset.
    Nothing else changes, and the release of a pinch that drags the widget
    in edit mode does this and ends the session. *)
Theorem snap_within_tolerance_on_grid (dom : Dom) (wid : string) (s : State)
  (st : WidgetState) (self : Element) :
  widgetState s !! wid = Some st ->
  widgetElements dom !! el st = Some self ->
  let others :=
    map getRect (filter (fun e => id e ≠ wid) (widgetElements dom)) in
  let found := align (getRect self) others in
  let deltaX := snd (fst found) in
  let deltaY := snd (snd found) in
  let x := (px (offset st) + deltaX)%float in
  let y := (py (offset st) + deltaY)%float in
  chosen (misalignments [left; centerX; right] (getRect self) others) deltaX
  /\ chosen (misalignments [top; centerY; bottom] (getRect self) others)
            deltaY
  /\ (Math_abs deltaX <=? ALIGN_THRESHOLD)%float = true
  /\ (Math_abs deltaY <=? ALIGN_THRESHOLD)%float = true
  /\ snapWidget dom wid s
     = set_widgetState
         (<[wid := mkWidgetState (el st) (baseCenter st)
                     (mkPoint (snap x) (snap y))]> (widgetState s)) s
  /\ (is_finite x = true -> nearestOnGrid x (snap x))
  /\ (is_finite y = true -> nearestOnGrid y (snap y))
  /\ (pinchActive s = true -> draggingId s = Some wid -> wid <> "" ->
      editMode s = true ->
      release dom false s
      = set_pinchMode PinchNone
          (set_draggingId None
             (set_pinchActive false (snapWidget dom wid s)))).
Proof.
  intros Hst Hself others found deltaX deltaY x y.
  assert (HX : chosen (misalignments [left; centerX; right] (getRect self)
                         others) deltaX).
  { subst deltaX found. unfold align. rewrite align_axes.
    apply (consider_chosen (flat_map (candidatesX (getRect self)) others)). }
  assert (HY : chosen (misalignments [top; centerY; bottom] (getRect self)
                         others) deltaY).
  { subst deltaY found. unfold align. rewrite align_axes.
    apply (consider_chosen (flat_map (candidatesY (getRect self)) others)). }
  split; [exact HX|]. split; [exact HY|].
  split; [exact (chosen_within _ _ _ _ HX)|].
  split; [exact (chosen_within _ _ _ _ HY)|].
  split; [unfold snapWidget; now rewrite Hst, Hself|].
  split; [apply snap_nearestOnGrid|]. split; [apply snap_nearestOnGrid|].
  apply release_snaps.
Qed.

Lemma snap_within_tolerance_on_grid_witness :
  chosen (misalignments [left; centerX; right] (getRect elA)
            [getRect elB; getRect elC]) 10
  /\ chosen (misalignments [top; centerY; bottom] (getRect elA)
               [getRect elB; getRect elC]) 10
  /\ release domABC false draggingABC
     = set_pinchMode PinchNone
         (set_draggingId None
            (set_pinchActive false
               (set_widgetState
                  (<["a" := mkWidgetState 0 (mkPoint 100 100)
                              (mkPoint 160 16)]> (widgetState draggingABC))
                  draggingABC)))
  /\ nearestOnGrid 160 160 /\ nearestOnGrid 10 16.
Proof.
  destruct (snap_within_tolerance_on_grid domABC "a" draggingABC stA elA
              eq_refl eq_refl)
    as (HX & HY & _ & _ & Hs & HnX & HnY & Hr).
  split; [exact HX|]. split; [exact HY|].
  split; [rewrite (Hr eq_refl eq_refl ltac:(discriminate) eq_refl), Hs;
          reflexivity|].
  split; [exact (HnX eq_refl) | exact (HnY eq_refl)].
Defined.

(** The release of [a] among [b] and [c]: the centre of [c] is the nearest
    candidate on the horizontal axis (10 pixels, against 30 for its left
    edge and 52 for the edges of [b]), its top the nearest on the vertical
    axis; the offset (150 + 10, 0 + 10) becomes (160, 16).  With [b] alone
    the left edge of [b], 52 pixels away, is taken: 202 becomes 208. *)
Example snap_scenario_run :
  widgetState (release domABC false draggingABC) !! "a"
  = Some (mkWidgetState 0 (mkPoint 100 100) (mkPoint 160 16))
  /\ widgetState (release domAB false draggingAB) !! "a"
     = Some (mkWidgetState 0 (mkPoint 100 100) (mkPoint 208 0))
  /\ snap 8 = 16%float /\ snap (-8) = (-0)%float /\ snap 24 = 32%float
  /\ snap 7.999999999999999 = 0%float /\ snap nan = nan.
Proof. repeat split; vm_compute; reflexivity. Qed.

(** X4. The grid rounding of [snapWidget] is idempotent, leaves a finite
    multiple of the grid unit where it is, and moves no finite value by
    more than half a unit. *)
Theorem snap_idempotent (v : float) :
  snap (snap v) = snap v
  /\ (onGrid v -> snap v = v)
  /\ (is_finite v = true -> nearestOnGrid v (snap v)).
Proof.
  split; [apply snap_snap|]. split; [|apply snap_nearestOnGrid].
  intros (F & k & E). rewrite units_SNAP_SIZE in E.
  exact (snap_fixed v k F E).
Qed.

(** ** Incomplete landmark sets *)

Lemma complete_lookup (landmarks : list Point) (i : nat) :
  complete landmarks -> (i < 21)%nat -> is_Some (landmarks !! i).
Proof. unfold complete. intros H Hi. apply lookup_lt_is_Some_2. lia. Qed.

Lemma processPinch_throws (dom : Dom) (now : Z) (landmarks : list Point)
  (s s' : State) :
  processPinch dom now landmarks s = Throw s'
  <-> lacksPinchLandmark landmarks /\ s' = s.
Proof.
  unfold processPinch, lacksPinchLandmark.
  destruct (landmarks !! 4%nat) as [thumb|];
    [|split; [intros [= <-] | intros [_ ->]]; auto].
  destruct (landmarks !! 8%nat) as [index|];
    [|split; [intros [= <-] | intros [_ ->]]; auto].
  destruct (landmarks !! 0%nat) as [palm|];
    [|split; [intros [= <-] | intros [_ ->]]; auto].
  destruct (landmarks !! 9%nat) as [base|];
    [|split; [intros [= <-] | intros [_ ->]]; auto 6].
  split.
  - destruct (isPinching _ _ _ _ _); cbn [negb]; [|discriminate].
    destruct (pinchActive s); [discriminate|].
    destruct (pressed _ _ _ _); discriminate.
  - intros [[H | [H | [H | H]]] _]; discriminate.
Qed.

Lemma processPinch_ok (dom : Dom) (now : Z) (landmarks : list Point)
  (s : State) :
  ~ lacksPinchLandmark landmarks ->
  exists b s', processPinch dom now landmarks s = Ok b s'.
Proof.
  intros H. destruct (processPinch dom now landmarks s) as [b s'|s'] eqn:E.
  - eauto.
  - apply processPinch_throws in E. now destruct E.
Qed.

Lemma complete_not_lacking (landmarks : list Point) :
  complete landmarks -> ~ lacksPinchLandmark landmarks.
Proof.
  intros Hc [H | [H | [H | H]]];
    (eapply is_Some_None; rewrite <- H; apply complete_lookup;
     [exact Hc | lia]).
Qed.

Lemma pinchLoop_ok (dom : Dom) (now : Z) (hands : list (list Point)) :
  Forall (fun lm => ~ lacksPinchLandmark lm) hands ->
  forall anyPinch s, exists b s',
    pinchLoop dom now hands anyPinch s = Ok b s'.
Proof.
  induction 1 as [|lm hands Hlm _ IH]; intros anyPinch s; cbn [pinchLoop].
  - eauto.
  - destruct (processPinch_ok dom now lm s Hlm) as (b & s' & ->).
    cbn [andThen]. apply IH.
Qed.

(** The loop stops at the first hand that lacks a landmark; the hands after
    it are not looked at. *)
Lemma pinchLoop_throws (dom : Dom) (now : Z) (pre post : list (list Point))
  (bad : list Point) :
  lacksPinchLandmark bad ->
  forall anyPinch s b s1,
    pinchLoop dom now pre anyPinch s = Ok b s1 ->
    pinchLoop dom now (pre ++ bad :: post) anyPinch s = Throw s1.
Proof.
  intros Hbad. induction pre as [|lm pre IH]; intros anyPinch s b s1.
  - cbn [pinchLoop app]. intros [= _ ->].
    now rewrite (proj2 (processPinch_throws dom now bad s1 s1) (conj Hbad eq_refl)).
  - cbn [pinchLoop app].
    destruct (processPinch dom now lm s) as [p s'|s']; cbn [andThen].
    + apply IH.
    + discriminate.
Qed.

Lemma swipeHand_ok (now : Z) (landmarks : list Point) (s : State) :
  is_Some (landmarks !! 8%nat) -> exists s', swipeHand now landmarks s = Ok tt s'.
Proof.
  intros [tip H]. unfold swipeHand. rewrite H.
  destruct (swipeStartX s); eauto.
Qed.

Lemma forEach_ok {A} (f : A -> State -> Result unit) (l : list A) :
  Forall (fun a => forall s, exists s', f a s = Ok tt s') l ->
  forall s, exists s', forEach f l s = Ok tt s'.
Proof.
  induction 1 as [|a l Ha _ IH]; intros s; cbn [forEach].
  - eauto.
  - destruct (Ha s) as [s' ->]. cbn [andThen]. apply IH.
Qed.

Lemma thumbLoop_ok (now : Z) (hands : list (list Point)) :
  Forall complete hands ->
  forall s, exists s', thumbLoop now hands s = Ok tt s'.
Proof.
  induction 1 as [|lm hands Hlm _ IH]; intros s; cbn [thumbLoop].
  - eauto.
  - assert (Hi : forall i, (i < 21)%nat -> is_Some (lm !! i))
      by (intros i; now apply complete_lookup).
    unfold fingersFolded, thumbsUp, thumbsDown, folded, above, below.
    destruct (Hi 0%nat) as [? ->]; [lia|]. destruct (Hi 2%nat) as [? ->]; [lia|].
    destruct (Hi 4%nat) as [? ->]; [lia|]. destruct (Hi 6%nat) as [? ->]; [lia|].
    destruct (Hi 8%nat) as [? ->]; [lia|].
    destruct (Hi 10%nat) as [? ->]; [lia|].
    destruct (Hi 12%nat) as [? ->]; [lia|].
    destruct (Hi 14%nat) as [? ->]; [lia|].
    destruct (Hi 16%nat) as [? ->]; [lia|].
    destruct (Hi 18%nat) as [? ->]; [lia|].
    destruct (Hi 20%nat) as [? ->]; [lia|].
    cbn [andAlso].
    repeat (destruct (_ <? _)%float; cbn [andAlso]; eauto).
Qed.

Lemma onResults_hands (dom : Dom) (now : Z) (hands : list (list Point))
  (s : State) :
  hands <> [] ->
  onResults dom now (Some hands) s
  = (let? (anyPinch, s1) := pinchLoop dom now hands false s in
     let s2 := release dom anyPinch s1 in
     let? (_u, s3) := detectSwipes now hands s2 in
     if Mode_eqb (mode s3) TryOn && photoReady s3 && negb (isCountingDown s3)
     then detectThumbGestures now hands s3
     else Ok tt s3).
Proof. intros H. now destruct hands. Qed.

Lemma onResults_complete_ok (dom : Dom) (now : Z)
  (hands : list (list Point)) (s : State) :
  Forall complete hands ->
  exists s', onResults dom now (Some hands) s = Ok tt s'.
Proof.
  intros Hc.
  destruct (decide (hands = [])) as [-> | Hne]; [cbn; eauto|].
  rewrite onResults_hands by assumption.
  destruct (pinchLoop_ok dom now hands) with (anyPinch := false) (s := s)
    as (b & s1 & ->).
  { eapply Forall_impl; [exact Hc|]. apply complete_not_lacking. }
  cbn [andThen]. cbv zeta. unfold detectSwipes.
  destruct (forEach_ok (swipeHand now) hands) with (s := release dom b s1)
    as (s2 & ->).
  { eapply Forall_impl; [exact Hc|]. intros lm' Hlm' s'.
    apply swipeHand_ok, complete_lookup; [assumption | lia]. }
  cbn [andThen].
  destruct (_ && _ && _); [|eauto].
  unfold detectThumbGestures. destruct (_ <? _)%Z; [eauto|].
  now apply thumbLoop_ok.
Qed.

Lemma incomplete_hand_counterexample :
  length shortHand = 8%nat
  /\ complete hand006
  /\ onResults dom0 0 (Some [shortHand; hand006]) initial = Throw initial
  /\ pinchActive (stateOf (onResults dom0 0 (Some [hand006]) initial)) = true.
Proof. repeat split; vm_compute; reflexivity. Qed.

(** C4, as the code has it. Landmark sets are not validated.  A hand that
    lacks landmark 0, 4, 8 or 9 makes the pinch classifier throw, and only
    such a hand does; the exception ends the frame at that hand: the hands
    before it have been processed, the hands after it, the release of the
    session, the swipe and the thumb detection are not run.  A frame whose
    hands all have their 21 landmarks never throws. *)
Theorem incomplete_hand_aborts_frame (dom : Dom) (now : Z)
  (pre post : list (list Point)) (bad : list Point) (s : State) :
  Forall (fun lm => ~ lacksPinchLandmark lm) pre ->
  lacksPinchLandmark bad ->
  (exists b s1, pinchLoop dom now pre false s = Ok b s1
     /\ onResults dom now (Some (pre ++ bad :: post)) s = Throw s1)
  /\ (forall lm s0 s', processPinch dom now lm s0 = Throw s'
        <-> lacksPinchLandmark lm /\ s' = s0)
  /\ (forall hands s0, Forall complete hands ->
        exists s', onResults dom now (Some hands) s0 = Ok tt s').
Proof.
  intros Hpre Hbad. split; [|split].
  - destruct (pinchLoop_ok dom now pre Hpre false s) as (b & s1 & Hloop).
    exists b, s1. split; [exact Hloop|].
    rewrite onResults_hands by now destruct pre.
    now rewrite (pinchLoop_throws dom now pre post bad Hbad _ _ _ _ Hloop).
  - intros lm s0 s'. apply processPinch_throws.
  - intros hands s0. apply onResults_complete_ok.
Qed.

Lemma incomplete_hand_aborts_frame_witness :
  (exists b s1, pinchLoop dom0 0 [hand008] false initial = Ok b s1
     /\ onResults dom0 0 (Some ([hand008] ++ shortHand :: [hand006])) initial
        = Throw s1)
  /\ (forall lm s0 s', processPinch dom0 0 lm s0 = Throw s'
        <-> lacksPinchLandmark lm /\ s' = s0)
  /\ (forall hands s0, Forall complete hands ->
        exists s', onResults dom0 0 (Some hands) s0 = Ok tt s').
Proof.
  apply (incomplete_hand_aborts_frame dom0 0 [hand008] [hand006] shortHand
           initial).
  - repeat constructor. intros [H | [H | [H | H]]]; discriminate.
  - right. right. left. reflexivity.
Defined.

(** ** What each function leaves alone *)


Lemma set_widgetState_id (s : State) : set_widgetState (widgetState s) s = s.
Proof. now destruct s. Qed.


Lemma widgetsOnly_initWidgetState (dom : Dom) :
  widgetsOnly (initWidgetState dom).
Proof.
  intros s. unfold initWidgetState.
  generalize (imap pair (widgetElements dom)). intros l.
  assert (H : forall m, exists m',
             fold_left initWidget l (set_widgetState m s)
             = set_widgetState m' s).
  { induction l as [|[i e] l IH]; intros m; cbn [fold_left]; [eauto|].
    unfold initWidget at 2. cbv zeta. cbn [widgetState set_widgetState].
    apply IH. }
  destruct (H (widgetState s)) as [m' Hm'].
  rewrite set_widgetState_id in Hm'. eauto.
Qed.

Lemma widgetsOnly_resetPanels (dom : Dom) : widgetsOnly (resetPanels dom).
Proof.
  intros s. unfold resetPanels.
  destruct (widgetsOnly_initWidgetState dom
              (set_widgetState
                 ((fun st => mkWidgetState (el st) (baseCenter st) origin)
                    <$> widgetState s) s)) as [m ->].
  now exists m.
Qed.

Lemma widgetsOnly_setWidgetPosition (wid : string) (x y : float) :
  widgetsOnly (setWidgetPosition wid x y).
Proof.
  intros s. unfold setWidgetPosition.
  destruct (widgetState s !! wid);
    [destruct (editMode s); cbn [negb]|]; eauto;
    exists (widgetState s); now rewrite set_widgetState_id.
Qed.

Lemma widgetsOnly_snapWidget (dom : Dom) (wid : string) :
  widgetsOnly (snapWidget dom wid).
Proof.
  intros s. unfold snapWidget.
  destruct (widgetState s !! wid) as [st|];
    [destruct (widgetElements dom !! el st)|]; eauto;
    exists (widgetState s); now rewrite set_widgetState_id.
Qed.

Lemma widgetsOnly_dragTo (point : Point) : widgetsOnly (dragTo point).
Proof.
  intros s. unfold dragTo.
  destruct (pinchMode s), (draggingId s) as [wid|];
    try (exists (widgetState s); now rewrite set_widgetState_id).
  destruct (_ && _ && _);
    [apply widgetsOnly_setWidgetPosition|].
  exists (widgetState s); now rewrite set_widgetState_id.
Qed.


Lemma widgetsOnly_session (f : State -> State) (s : State) :
  widgetsOnly f -> session (f s) = session s.
Proof. intros H. now destruct (H s) as [m ->]. Qed.

Lemma session_triggerShutter (s : State) :
  session (triggerShutter s) = session s.
Proof. unfold triggerShutter. frame. Qed.

Lemma session_hidePhotoPreview (s : State) :
  session (hidePhotoPreview s) = session s.
Proof. reflexivity. Qed.

Lemma session_retakePhoto (s : State) : session (retakePhoto s) = session s.
Proof. unfold retakePhoto. now rewrite session_triggerShutter. Qed.

Lemma session_savePhoto (s : State) : session (savePhoto s) = session s.
Proof. unfold savePhoto. frame. Qed.

Lemma session_countdownTick (dom : Dom) (h : positive) (s : State) :
  session (countdownTick dom h s) = session s.
Proof. unfold countdownTick, clearInterval. frame. Qed.

Lemma session_setEditMode (on : bool) (s : State) :
  session (setEditMode on s)
  = mkSession (if on then draggingId s else None) (pinchActive s)
              (lastButtonPress s) (fired s) (mode s) on.
Proof. unfold setEditMode. now destruct on. Qed.

Lemma session_runAction (dom : Dom) (act : string) (s : State) :
  exists d e,
    session (runAction dom act s)
    = mkSession d (pinchActive s) (lastButtonPress s) (fired s) (mode s) e
    /\ (d = draggingId s \/ d = None).
Proof.
  unfold runAction.
  set (s1 := if String.eqb act "reset" then resetPanels dom s else s).
  assert (H1 : session s1 = session s).
  { subst s1. destruct (String.eqb act "reset"); [|reflexivity].
    apply widgetsOnly_session, widgetsOnly_resetPanels. }
  set (s2 := if String.eqb act "toggle-edit"
             then setEditMode (negb (editMode s1)) s1 else s1).
  assert (H2 : exists d e,
             session s2
             = mkSession d (pinchActive s) (lastButtonPress s) (fired s)
                         (mode s) e
             /\ (d = draggingId s \/ d = None)).
  { injection H1 as Hd Hp Hl Hf Hm He. subst s2.
    destruct (String.eqb act "toggle-edit").
    - rewrite session_setEditMode, Hp, Hl, Hf, Hm, Hd.
      eexists _, _. split; [reflexivity|].
      destruct (negb (editMode s1)); auto.
    - exists (draggingId s), (editMode s). split; [|now left].
      unfold session. congruence. }
  destruct H2 as (d & e & H2 & Hd). exists d, e. split; [|exact Hd].
  destruct (String.eqb act "shutter"); [|exact H2].
  now rewrite session_triggerShutter.
Qed.


Lemma session_setMode (next : Mode) (s : State) :
  exists d m e,
    session (setMode next s)
    = mkSession d (pinchActive s) (lastButtonPress s) (fired s) m e
    /\ (d = draggingId s \/ d = None).
Proof.
  unfold setMode. destruct (Mode_eqb (mode s) next).
  - exists (draggingId s), (mode s), (editMode s). split; [reflexivity | now left].
  - destruct next.
    + exists (draggingId s), Mirror, (editMode s). split; [|now left].
      cbn. destruct (countdownTimer s); reflexivity.
    + exists None, TryOn, false. split; [|now right].
      cbn. destruct (countdownTimer s); reflexivity.
Qed.

Lemma session_bindWidget (dom : Dom) (point : Point) (s : State) :
  exists d,
    session (bindWidget dom point s)
    = mkSession d (pinchActive s) (lastButtonPress s) (fired s) (mode s)
                (editMode s).
Proof.
  unfold bindWidget. destruct (_ && _); [|now eexists].
  destruct (truthy _); now eexists.
Qed.

Lemma session_reanchor (now : Z) (mirroredX : float) (dt : Z) (moving : bool)
  (s : State) :
  session (reanchor now mirroredX dt moving s) = session s.
Proof. unfold reanchor. now destruct (_ || _). Qed.

Lemma session_swipeSwitch (now : Z) (dx : float) (dt sinceLast : Z) (s : State) :
  exists d m e,
    session (swipeSwitch now dx dt sinceLast s)
    = mkSession d (pinchActive s) (lastButtonPress s) (fired s) m e
    /\ (d = draggingId s \/ d = None)
    /\ (pinchActive s = true -> d = draggingId s /\ m = mode s).
Proof.
  assert (Hsame : exists d m e,
             session s
             = mkSession d (pinchActive s) (lastButtonPress s) (fired s) m e
             /\ (d = draggingId s \/ d = None)
             /\ (pinchActive s = true -> d = draggingId s /\ m = mode s)).
  { exists (draggingId s), (mode s), (editMode s). auto. }
  assert (Hfire : forall next,
             pinchActive s = false ->
             exists d m e,
               session (set_swipeStartTime 0
                          (set_swipeStartX None
                             (set_lastSwipeTime now (setMode next s))))
               = mkSession d (pinchActive s) (lastButtonPress s) (fired s) m e
               /\ (d = draggingId s \/ d = None)
               /\ (pinchActive s = true -> d = draggingId s /\ m = mode s)).
  { intros next Hp.
    destruct (session_setMode next s) as (d & m & e & H & Hd).
    exists d, m, e. split; [exact H|]. split; [exact Hd|].
    intros Hp'. congruence. }
  unfold swipeSwitch. destruct (pinchActive s) eqn:Hp; cbn [negb andb].
  - exact Hsame.
  - destruct (_ && _); [|exact Hsame].
    destruct (_ && _); [now apply Hfire|].
    destruct (_ && _); [now apply Hfire | exact Hsame].
Qed.

Lemma session_swipeHand (now : Z) (landmarks : list Point) (s : State) :
  exists d m e,
    session (stateOf (swipeHand now landmarks s))
    = mkSession d (pinchActive s) (lastButtonPress s) (fired s) m e
    /\ (d = draggingId s \/ d = None)
    /\ (pinchActive s = true -> d = draggingId s /\ m = mode s).
Proof.
  assert (Hsame : exists d m e,
             session s
             = mkSession d (pinchActive s) (lastButtonPress s) (fired s) m e
             /\ (d = draggingId s \/ d = None)
             /\ (pinchActive s = true -> d = draggingId s /\ m = mode s)).
  { exists (draggingId s), (mode s), (editMode s). auto. }
  unfold swipeHand.
  destruct (landmarks !! 8%nat) as [tip|]; [|exact Hsame].
  destruct (swipeStartX s) as [startX|]; [|exact Hsame].
  cbv zeta. cbn [stateOf].
  change (session (set_lastSwipeX ?x ?s0)) with (session s0).
  rewrite session_reanchor. apply session_swipeSwitch.
Qed.

Lemma session_detectSwipes (now : Z) (hands : list (list Point)) (s : State) :
  exists d m e,
    session (stateOf (detectSwipes now hands s))
    = mkSession d (pinchActive s) (lastButtonPress s) (fired s) m e
    /\ (d = draggingId s \/ d = None)
    /\ (pinchActive s = true -> d = draggingId s /\ m = mode s).
Proof.
  unfold detectSwipes. revert s.
  induction hands as [|lm hands IH]; intros s; cbn [forEach].
  - eexists _, _, _. split; [reflexivity | auto].
  - destruct (session_swipeHand now lm s) as (d & m & e & H & Hd & Hact).
    destruct (swipeHand now lm s) as [[] s'|s'] eqn:E; cbn [andThen stateOf] in *.
    + destruct (IH s') as (d' & m' & e' & H' & Hd' & Hact').
      injection H as H1 H2 H3 H4 H5 H6.
      rewrite H1, H2, H3, H4, H5 in *.
      exists d', m', e'. split; [exact H'|]. split.
      * destruct Hd' as [-> | ->]; auto.
      * intros Hp. destruct (Hact Hp) as [-> ->]. auto.
    + eauto 10.
Qed.

Lemma session_thumbLoop (now : Z) (hands : list (list Point)) (s : State) :
  session (stateOf (thumbLoop now hands s)) = session s.
Proof.
  revert s. induction hands as [|lm hands IH]; intros s; cbn [thumbLoop].
  - reflexivity.
  - destruct (fingersFolded lm) as [[|]|]; auto.
    destruct (thumbsUp lm) as [[|]|]; auto.
    + cbn [stateOf]. now rewrite session_savePhoto.
    + destruct (thumbsDown lm) as [[|]|]; auto.
      cbn [stateOf]. now rewrite session_retakePhoto.
Qed.

Lemma session_detectThumbGestures (now : Z) (hands : list (list Point))
  (s : State) :
  session (stateOf (detectThumbGestures now hands s)) = session s.
Proof.
  unfold detectThumbGestures. destruct (_ <? _)%Z; [reflexivity|].
  apply session_thumbLoop.
Qed.

Lemma session_release (dom : Dom) (anyPinch : bool) (s : State) :
  session (release dom anyPinch s)
  = if negb anyPinch && pinchActive s
    then mkSession None false (lastButtonPress s) (fired s) (mode s)
                   (editMode s)
    else session s.
Proof.
  unfold release. destruct (negb anyPinch && pinchActive s); [|reflexivity].
  destruct (draggingId s) as [wid|]; [|reflexivity].
  destruct (_ && _); [|reflexivity].
  destruct (widgetsOnly_snapWidget dom wid s) as [m ->]. reflexivity.
Qed.

(** What a hand does to the session, case by case. *)
Lemma processPinch_cases (dom : Dom) (now : Z) (landmarks : list Point)
  (s : State) :
  processPinch dom now landmarks s = Throw s
  \/ processPinch dom now landmarks s = Ok false s
  \/ (pinchActive s = true
      /\ exists s', processPinch dom now landmarks s = Ok true s'
                    /\ session s' = session s)
  \/ (pinchActive s = false
      /\ exists s' index,
           processPinch dom now landmarks s = Ok true s'
           /\ landmarks !! 8%nat = Some index
           /\ ((exists btn d e,
                  hitTestButtons dom (pinchPointUI dom (mode s) index)
                  = Some btn
                  /\ BUTTON_COOLDOWN_MS < now - lastButtonPress s
                  /\ session s'
                     = mkSession d true now ((now, action btn) :: fired s)
                                 (mode s) e
                  /\ pinchMode s' = PinchButton)
               \/ (pressed dom now (pinchPointUI dom (mode s) index) s = None
                   /\ exists d,
                        session s'
                        = mkSession d true (lastButtonPress s) (fired s)
                                    (mode s) (editMode s)))).
Proof.
  unfold processPinch.
  destruct (landmarks !! 4%nat) as [thumb|]; [|now left].
  destruct (landmarks !! 8%nat) as [index|]; [|now left].
  destruct (landmarks !! 0%nat) as [palm|]; [|now left].
  destruct (landmarks !! 9%nat) as [base|]; [|now left].
  cbv zeta. destruct (isPinching dom thumb index palm base); cbn [negb]; [|auto].
  right. right. destruct (pinchActive s) eqn:Hp.
  - left. split; [reflexivity|]. eexists. split; [reflexivity|].
    apply widgetsOnly_session, widgetsOnly_dragTo.
  - right. split; [reflexivity|].
    set (s0 := set_pinchMode PinchIdle (set_pinchActive true s)).
    set (ui := pinchPointUI dom (mode s) index).
    destruct (pressed dom now ui s0) as [btn|] eqn:Hpress.
    + eexists _, index. split; [reflexivity|]. split; [reflexivity|]. left.
      unfold pressed in Hpress. change (mode s0) with (mode s) in *.
      destruct (hitTestButtons dom ui) as [btn'|] eqn:Hhit; [|discriminate].
      change (lastButtonPress s0) with (lastButtonPress s) in Hpress.
      destruct (BUTTON_COOLDOWN_MS <? now - lastButtonPress s)%Z eqn:Hcool;
        [|discriminate].
      injection Hpress as ->. apply Z.ltb_lt in Hcool.
      destruct (session_runAction dom (action btn) s0) as (d & e & H & _).
      injection H as H1 H2 H3 H4 H5 H6.
      exists btn, d, e. repeat split; auto.
      unfold session. cbn. now rewrite H1, H2, H4, H5, H6.
    + eexists _, index. split; [reflexivity|]. split; [reflexivity|]. right.
      split; [exact Hpress|].
      rewrite (widgetsOnly_session _ _ (widgetsOnly_dragTo _)).
      destruct (session_bindWidget dom (pinchPointMirror dom (mode s) index) s0)
        as [d ->].
      now exists d.
Qed.

Lemma session_processPinch_active (dom : Dom) (now : Z)
  (landmarks : list Point) (s : State) :
  pinchActive s = true ->
  session (stateOf (processPinch dom now landmarks s)) = session s.
Proof.
  intros Hp.
  destruct (processPinch_cases dom now landmarks s)
    as [-> | [-> | [(_ & s' & -> & H) | (Hp' & _)]]]; auto; congruence.
Qed.

Lemma session_pinchLoop_active (dom : Dom) (now : Z)
  (hands : list (list Point)) (anyPinch : bool) (s : State) :
  pinchActive s = true ->
  session (stateOf (pinchLoop dom now hands anyPinch s)) = session s.
Proof.
  revert anyPinch s.
  induction hands as [|lm hands IH]; intros anyPinch s Hp; cbn [pinchLoop].
  - reflexivity.
  - pose proof (session_processPinch_active dom now lm s Hp) as H.
    destruct (processPinch dom now lm s) as [b s'|s']; cbn [andThen stateOf] in *.
    + rewrite IH; [exact H|].
      injection H as _ H2 _. congruence.
    + exact H.
Qed.

(** ** The drag binding *)

Lemma stateOf_andThen {A B} (r : Result A) (k : A -> State -> Result B)
  (P : State -> Prop) :
  (forall s, r = Throw s -> P s) ->
  (forall a s, r = Ok a s -> P (stateOf (k a s))) ->
  P (stateOf (andThen r k)).
Proof. destruct r; cbn; auto. Qed.

(** The two branches of [onResults]. *)
Lemma onResults_cases (P : State -> Prop) (dom : Dom) (now : Z)
  (hands : option (list (list Point))) (s : State) :
  P (resetSwipe
       (set_draggingId None
          (set_pinchMode PinchNone (set_pinchActive false s)))) ->
  (forall hs, hs <> [] ->
     P (stateOf
          (let? (anyPinch, s1) := pinchLoop dom now hs false s in
           let s2 := release dom anyPinch s1 in
           let? (_u, s3) := detectSwipes now hs s2 in
           if Mode_eqb (mode s3) TryOn && photoReady s3
              && negb (isCountingDown s3)
           then detectThumbGestures now hs s3
           else Ok tt s3))) ->
  P (stateOf (onResults dom now hands s)).
Proof.
  intros Hnil Hcons. destruct hands as [[|lm hs]|].
  - exact Hnil.
  - rewrite onResults_hands by discriminate. now apply Hcons.
  - exact Hnil.
Qed.

Lemma session_same (s' : State) (d : option string) (p : bool) (l : Z)
  (f : list (Z * string)) (m : Mode) (e : bool) :
  session s' = mkSession d p l f m e ->
  draggingId s' = d /\ pinchActive s' = p /\ lastButtonPress s' = l
  /\ fired s' = f /\ mode s' = m /\ editMode s' = e.
Proof. intros [= <- <- <- <- <- <-]. repeat split. Qed.

Lemma session_thumbStage (now : Z) (hs : list (list Point)) (s3 : State) :
  session (stateOf
             (if Mode_eqb (mode s3) TryOn && photoReady s3
                 && negb (isCountingDown s3)
              then detectThumbGestures now hs s3 else Ok tt s3))
  = session s3.
Proof.
  destruct (_ && _ && _); [apply session_detectThumbGestures | reflexivity].
Qed.

(** A frame that starts with the session active fires no button and keeps
    or clears the dragged widget id. *)
Lemma session_onResults_active (dom : Dom) (now : Z)
  (hands : option (list (list Point))) (s : State) :
  pinchActive s = true ->
  lastButtonPress (stateOf (onResults dom now hands s)) = lastButtonPress s
  /\ fired (stateOf (onResults dom now hands s)) = fired s
  /\ keeps s (stateOf (onResults dom now hands s)).
Proof.
  intros Hp. unfold keeps. apply onResults_cases.
  { repeat split. now right. }
  intros hs _.
  pose proof (session_pinchLoop_active dom now hs false s Hp) as Hloop.
  apply stateOf_andThen.
  - intros s1 E. rewrite E in Hloop. cbn [stateOf] in Hloop.
    apply session_same in Hloop as (-> & _ & -> & -> & _). auto.
  - intros b s1 E. rewrite E in Hloop. cbn [stateOf] in Hloop.
    apply session_same in Hloop as (H1 & _ & H3 & H4 & _).
    cbv zeta.
    pose proof (session_release dom b s1) as Hrel.
    set (s2 := release dom b s1) in *.
    assert (Hs2 : lastButtonPress s2 = lastButtonPress s
                  /\ fired s2 = fired s
                  /\ (draggingId s2 = draggingId s \/ draggingId s2 = None)).
    { destruct (negb b && pinchActive s1);
        apply session_same in Hrel as (G1 & _ & G3 & G4 & _);
        rewrite G1, G3, G4; auto. }
    destruct Hs2 as (G3 & G4 & G1).
    destruct (session_detectSwipes now hs s2) as (d3 & m3 & e3 & Hsw & Hd3 & _).
    assert (Hd3' : d3 = draggingId s \/ d3 = None).
    { destruct Hd3 as [-> | ->]; auto. }
    apply stateOf_andThen.
    + intros s3 E3. rewrite E3 in Hsw. cbn [stateOf] in Hsw.
      apply session_same in Hsw as (-> & _ & -> & -> & _). auto.
    + intros [] s3 E3. rewrite E3 in Hsw.
      pose proof (session_thumbStage now hs s3) as Hfin.
      cbn [stateOf] in Hsw. rewrite Hsw in Hfin.
      apply session_same in Hfin as (-> & _ & -> & -> & _). auto.
Qed.

(** No event rebinds the drag while the session is active. *)
Lemma step_keeps (s : State) (e : Event) :
  pinchActive s = true -> keeps s (step s e).
Proof.
  intros Hp. unfold keeps. destruct e as [dom now hands|dom act|dom h|dom];
    cbn [step].
  - apply (session_onResults_active dom now hands s Hp).
  - destruct (session_runAction dom act s) as (d & e & H & Hd).
    injection H as -> _. exact Hd.
  - pose proof (session_countdownTick dom h s) as H.
    injection H as -> _. now left.
  - pose proof (widgetsOnly_session _ s (widgetsOnly_initWidgetState dom))
      as H.
    injection H as -> _. now left.
Qed.

(** C5. Once the pinch session is active and bound to a widget id, a
    further pinching hand leaves the binding as it is, an event (a frame
    with any number of hands, a click, a timer, a resize) keeps the id or
    clears it, and so does every sequence of events during which the
    session stays active: the session is never bound to another widget
    before it has been released. *)
Theorem drag_binding_not_rebound :
  (forall dom now landmarks s,
     pinchActive s = true ->
     draggingId (stateOf (processPinch dom now landmarks s)) = draggingId s
     /\ pinchActive (stateOf (processPinch dom now landmarks s)) = true)
  /\ (forall s e, pinchActive s = true -> keeps s (step s e))
  /\ (forall evs s wid,
        draggingId s = Some wid \/ draggingId s = None ->
        sessionHeld s evs ->
        draggingId (run s evs) = Some wid \/ draggingId (run s evs) = None).
Proof.
  split; [|split].
  - intros dom now landmarks s Hp.
    pose proof (session_processPinch_active dom now landmarks s Hp) as H.
    injection H as -> -> _. auto.
  - apply step_keeps.
  - induction evs as [|e evs IH]; intros s wid Hd Hheld; cbn [run fold_left].
    + exact Hd.
    + destruct Hheld as [Hp Hheld].
      apply (IH (step s e) wid); [|exact Hheld].
      destruct (step_keeps s e Hp) as [-> | ->]; auto.
Qed.

(** ** The toggle-edit command *)

Lemma toggle_edit_in_tryon_counterexample :
  mode tryonState = TryOn
  /\ editMode tryonState = false
  /\ editMode (runAction dom0 "toggle-edit" tryonState) = true.
Proof. repeat split. Qed.

(** Outside Mirror mode neither the binding nor the drag step of
    [processPinch] does anything. *)
Lemma bind_drag_tryon (dom : Dom) (point : Point) (s : State) :
  mode s = TryOn -> bindWidget dom point s = s /\ dragTo point s = s.
Proof.
  intros Hmode. unfold bindWidget, dragTo. rewrite Hmode. cbn.
  rewrite !andb_false_r. split; [reflexivity|].
  destruct (pinchMode s), (draggingId s); try reflexivity.
  now rewrite andb_false_r.
Qed.

(** The widgets after [runAction]: untouched, unless the action is reset. *)
Lemma widgetState_runAction (dom : Dom) (act : string) (s : State) :
  act <> "reset" -> widgetState (runAction dom act s) = widgetState s.
Proof.
  intros Hr. unfold runAction.
  destruct (String.eqb_spec act "reset"); [contradiction|].
  assert (E1 : forall s1, widgetState (triggerShutter s1) = widgetState s1).
  { intros s1. unfold triggerShutter. destruct (mode s1); [reflexivity|].
    now destruct (isCountingDown s1). }
  assert (E2 : forall on s1, widgetState (setEditMode on s1) = widgetState s1).
  { intros on s1. unfold setEditMode. now destruct on. }
  destruct (String.eqb act "toggle-edit"), (String.eqb act "shutter");
    rewrite ?E1, ?E2; reflexivity.
Qed.

(** [resetPanels] reads the widgets only. *)
Lemma widgetState_resetPanels (dom : Dom) (s1 s2 : State) :
  widgetState s1 = widgetState s2 ->
  widgetState (resetPanels dom s1) = widgetState (resetPanels dom s2).
Proof.
  intros H. unfold resetPanels, initWidgetState. cbv zeta. rewrite H.
  set (t1 := set_widgetState _ s1). set (t2 := set_widgetState _ s2).
  assert (Ht : widgetState t1 = widgetState t2) by reflexivity.
  clearbody t1 t2. revert t1 t2 Ht.
  induction (imap pair (widgetElements dom)) as [|[i e] l IH];
    intros t1 t2 Ht; [exact Ht|].
  cbn [fold_left]. apply IH. unfold initWidget. cbn. now rewrite Ht.
Qed.

(** C3, as the code has it. In Try-On mode the toggle-edit command is not
    ignored: as in Mirror mode it flips the edit-mode flag, clears the
    dragged widget id when the flag becomes false, and changes nothing else.
    What Try-On mode suspends is dragging: entering Try-On switches the
    flag off, and in Try-On mode, whatever the flag, a hand given to
    [processPinch] binds no widget and drags none: a hand of a sustained
    pinch changes nothing at all, and a pinch start changes the widgets
    only when its pointer hits a button whose action is reset, after the
    cooldown; the widgets are then those [resetPanels] leaves. *)
Theorem toggle_edit_in_tryon (dom : Dom) (s : State) :
  mode s = TryOn ->
  runAction dom "toggle-edit" s
  = (if editMode s then set_draggingId None (set_editMode false s)
     else set_editMode true s)
  /\ editMode (runAction dom "toggle-edit" s) = negb (editMode s)
  /\ (forall s0, mode s0 = Mirror -> editMode (setMode TryOn s0) = false)
  /\ (forall point, bindWidget dom point s = s /\ dragTo point s = s)
  /\ (forall now landmarks,
        (draggingId (stateOf (processPinch dom now landmarks s))
         = draggingId s
         \/ draggingId (stateOf (processPinch dom now landmarks s)) = None)
        /\ (widgetState (stateOf (processPinch dom now landmarks s))
            = widgetState s
            \/ (pinchActive s = false
                /\ BUTTON_COOLDOWN_MS < now - lastButtonPress s
                /\ exists index btn,
                     landmarks !! 8%nat = Some index
                     /\ hitTestButtons dom (pinchPointUI dom TryOn index)
                        = Some btn
                     /\ action btn = "reset"
                     /\ widgetState
                          (stateOf (processPinch dom now landmarks s))
                        = widgetState (resetPanels dom s)))
        /\ (pinchActive s = true ->
            stateOf (processPinch dom now landmarks s) = s)).
Proof.
  intros Hmode. split; [|split; [|split; [|split]]].
  - unfold runAction. cbn. unfold setEditMode. now destruct (editMode s).
  - unfold runAction. cbn. unfold setEditMode. now destruct (editMode s).
  - intros s0 E. unfold setMode. rewrite E. cbn.
    destruct (countdownTimer s0); reflexivity.
  - intros point. now apply bind_drag_tryon.
  - intros now landmarks. unfold processPinch.
    destruct (landmarks !! 4%nat) as [thumb|]; [|cbn; auto].
    destruct (landmarks !! 8%nat) as [index|]; [|cbn; auto].
    destruct (landmarks !! 0%nat) as [palm|]; [|cbn; auto].
    destruct (landmarks !! 9%nat) as [base|]; [|cbn; auto].
    cbv zeta. destruct (isPinching dom thumb index palm base); cbn [negb];
      [|cbn; auto].
    destruct (pinchActive s) eqn:Hp.
    { cbn [stateOf]. rewrite (proj2 (bind_drag_tryon dom _ s Hmode)). auto. }
    set (s0 := set_pinchMode PinchIdle (set_pinchActive true s)).
    assert (Hm0 : mode s0 = TryOn) by exact Hmode.
    destruct (pressed dom now _ s0) as [btn|] eqn:Hb; cbn [stateOf].
    + cbn [draggingId widgetState fired set_pinchMode set_lastButtonPress
           set_fired].
      destruct (session_runAction dom (action btn) s0) as (d & e & Hs & Hd).
      apply session_same in Hs as (Hd' & _ & _ & Hf & _).
      split; [rewrite Hd'; exact Hd|]. split; [|discriminate].
      destruct (String.eqb_spec (action btn) "reset") as [Hr | Hr].
      * right. split; [reflexivity|]. unfold pressed in Hb.
        rewrite Hmode in Hb.
        destruct (hitTestButtons dom _) as [btn'|] eqn:Hh; [|discriminate].
        change (lastButtonPress s0) with (lastButtonPress s) in Hb.
        destruct (Z.ltb_spec BUTTON_COOLDOWN_MS (now - lastButtonPress s));
          [|discriminate].
        injection Hb as ->. split; [assumption|].
        exists index, btn. split; [reflexivity|]. split; [exact Hh|].
        split; [exact Hr|]. rewrite Hr.
        change (widgetState (runAction dom "reset" s0))
          with (widgetState (resetPanels dom s0)).
        now apply widgetState_resetPanels.
      * left. now rewrite widgetState_runAction.
    + rewrite (proj1 (bind_drag_tryon dom _ s0 Hm0)).
      rewrite (proj2 (bind_drag_tryon dom _ s0 Hm0)).
      split; [now left|]. split; [now left | discriminate].
Qed.

Lemma toggle_edit_in_tryon_witness :
  runAction domBtn "toggle-edit" tryonAB
  = (if editMode tryonAB
     then set_draggingId None (set_editMode false tryonAB)
     else set_editMode true tryonAB)
  /\ editMode (runAction domBtn "toggle-edit" tryonAB)
     = negb (editMode tryonAB)
  /\ (forall s0, mode s0 = Mirror -> editMode (setMode TryOn s0) = false)
  /\ (forall point, bindWidget domBtn point tryonAB = tryonAB
                    /\ dragTo point tryonAB = tryonAB)
  /\ (forall now landmarks,
        (draggingId (stateOf (processPinch domBtn now landmarks tryonAB))
         = draggingId tryonAB
         \/ draggingId (stateOf (processPinch domBtn now landmarks tryonAB))
            = None)
        /\ (widgetState (stateOf (processPinch domBtn now landmarks tryonAB))
            = widgetState tryonAB
            \/ (pinchActive tryonAB = false
                /\ BUTTON_COOLDOWN_MS < now - lastButtonPress tryonAB
                /\ exists index btn,
                     landmarks !! 8%nat = Some index
                     /\ hitTestButtons domBtn (pinchPointUI domBtn TryOn index)
                        = Some btn
                     /\ action btn = "reset"
                     /\ widgetState
                          (stateOf
                             (processPinch domBtn now landmarks tryonAB))
                        = widgetState (resetPanels domBtn tryonAB)))
        /\ (pinchActive tryonAB = true ->
            stateOf (processPinch domBtn now landmarks tryonAB)
            = tryonAB)).
Proof. apply (toggle_edit_in_tryon domBtn tryonAB). reflexivity. Defined.

(** Try-On mode with edit mode switched on by the toggle and widget [a]
    dragged earlier: a pinch over [a] binds and moves nothing, a pinch on
    the reset button clears the offsets. *)
Example tryon_pinch_run :
  mode tryonAB = TryOn /\ editMode tryonAB = true
  /\ processPinch domBtn 5000 pinchInA tryonAB
     = Ok true (set_pinchMode PinchIdle (set_pinchActive true tryonAB))
  /\ offsetOf tryonAB "a" = mkPoint 150 0
  /\ offsetOf (stateOf (processPinch domBtn 5000 pinchAtButtonTryOn tryonAB))
              "a" = origin.
Proof. repeat split; vm_compute; reflexivity. Qed.

(** ** Button cooldown *)

Lemma pressLogged_same (s s' : State) :
  fired s' = fired s -> lastButtonPress s' = lastButtonPress s ->
  pressLogged s -> pressLogged s'.
Proof. unfold pressLogged. now intros -> ->. Qed.

Lemma pressLogged_press (s s' : State) (now : Z) (act : string) :
  BUTTON_COOLDOWN_MS < now - lastButtonPress s ->
  fired s' = (now, act) :: fired s -> lastButtonPress s' = now ->
  pressLogged s -> pressLogged s'.
Proof.
  unfold pressLogged. intros Hcool -> -> [Hsp Hlast].
  split; [|reflexivity]. cbn [spaced]. split; [|exact Hsp].
  destruct (fired s) as [|[t a] rest]; [exact I|]. now rewrite <- Hlast.
Qed.

Lemma pressLogged_processPinch (dom : Dom) (now : Z) (landmarks : list Point)
  (s : State) :
  pressLogged s -> pressLogged (stateOf (processPinch dom now landmarks s)).
Proof.
  intros H.
  destruct (processPinch_cases dom now landmarks s)
    as [-> | [-> | [(_ & s' & -> & Hs) | (_ & s' & index & -> & _ & Hs)]]];
    cbn [stateOf]; auto.
  - injection Hs as _ _ Hl Hf _ _. now apply (pressLogged_same s).
  - destruct Hs as [(btn & d & e & _ & Hcool & Hs & _) | (_ & d & Hs)].
    + injection Hs as _ _ Hl Hf _ _.
      now apply (pressLogged_press s s' now (action btn)).
    + injection Hs as _ _ Hl Hf _ _. now apply (pressLogged_same s).
Qed.

Lemma pressLogged_pinchLoop (dom : Dom) (now : Z) (hands : list (list Point))
  (anyPinch : bool) (s : State) :
  pressLogged s ->
  pressLogged (stateOf (pinchLoop dom now hands anyPinch s)).
Proof.
  revert anyPinch s.
  induction hands as [|lm hands IH]; intros anyPinch s H; cbn [pinchLoop].
  - exact H.
  - pose proof (pressLogged_processPinch dom now lm s H) as H'.
    destruct (processPinch dom now lm s) as [b s'|s']; cbn [andThen stateOf] in *.
    + now apply IH.
    + exact H'.
Qed.

(** The stages of a frame after the pinch loop fire nothing. *)
Lemma fired_after_pinchLoop (dom : Dom) (now : Z)
  (hs : list (list Point)) (b : bool) (s1 : State) (k : Result unit) :
  k = (let s2 := release dom b s1 in
       let? (_u, s3) := detectSwipes now hs s2 in
       if Mode_eqb (mode s3) TryOn && photoReady s3 && negb (isCountingDown s3)
       then detectThumbGestures now hs s3
       else Ok tt s3) ->
  lastButtonPress (stateOf k) = lastButtonPress s1
  /\ fired (stateOf k) = fired s1.
Proof.
  intros ->. cbv zeta.
  pose proof (session_release dom b s1) as Hrel.
  set (s2 := release dom b s1) in *.
  assert (Hs2 : lastButtonPress s2 = lastButtonPress s1
                /\ fired s2 = fired s1).
  { destruct (negb b && pinchActive s1);
      apply session_same in Hrel as (_ & _ & -> & -> & _); auto. }
  destruct Hs2 as [G1 G2].
  destruct (session_detectSwipes now hs s2) as (d3 & m3 & e3 & Hsw & _).
  apply stateOf_andThen.
  - intros s3 E3. rewrite E3 in Hsw. cbn [stateOf] in Hsw.
    apply session_same in Hsw as (_ & _ & -> & -> & _). auto.
  - intros [] s3 E3. rewrite E3 in Hsw. cbn [stateOf] in Hsw.
    pose proof (session_thumbStage now hs s3) as Hfin.
    rewrite Hsw in Hfin.
    apply session_same in Hfin as (_ & _ & -> & -> & _). auto.
Qed.

Lemma pressLogged_onResults (dom : Dom) (now : Z)
  (hands : option (list (list Point))) (s : State) :
  pressLogged s -> pressLogged (stateOf (onResults dom now hands s)).
Proof.
  intros H. apply onResults_cases.
  { now apply (pressLogged_same s). }
  intros hs _.
  pose proof (pressLogged_pinchLoop dom now hs false s H) as Hloop.
  apply stateOf_andThen.
  - intros s1 E. now rewrite E in Hloop.
  - intros b s1 E. rewrite E in Hloop. cbn [stateOf] in Hloop.
    destruct (fired_after_pinchLoop dom now hs b s1 _ eq_refl) as [Hl Hf].
    now apply (pressLogged_same s1).
Qed.

Lemma pressLogged_step (s : State) (e : Event) :
  pressLogged s -> pressLogged (step s e).
Proof.
  intros H. destruct e as [dom now hands|dom act|dom h|dom]; cbn [step].
  - now apply pressLogged_onResults.
  - destruct (session_runAction dom act s) as (d & e & Hs & _).
    injection Hs as _ _ Hl Hf _ _. now apply (pressLogged_same s).
  - pose proof (session_countdownTick dom h s) as Hs.
    injection Hs as _ _ Hl Hf _ _. now apply (pressLogged_same s).
  - pose proof (widgetsOnly_session _ s (widgetsOnly_initWidgetState dom))
      as Hs.
    injection Hs as _ _ Hl Hf _ _. now apply (pressLogged_same s).
Qed.

Lemma pressLogged_run (evs : list Event) (s : State) :
  pressLogged s -> pressLogged (run s evs).
Proof.
  revert s. induction evs as [|e evs IH]; intros s H; cbn [run fold_left].
  - exact H.
  - apply IH, pressLogged_step, H.
Qed.

Lemma spaced_head (rest : list (Z * string)) (t : Z) (a : string) :
  spaced ((t, a) :: rest) ->
  forall j tj aj, rest !! j = Some (tj, aj) -> BUTTON_COOLDOWN_MS < t - tj.
Proof.
  revert t a. induction rest as [|[t2 a2] rest IH]; intros t a Hsp j tj aj Hj.
  - destruct j; discriminate.
  - destruct Hsp as [H12 Hrest]. destruct j as [|j].
    + injection Hj as <- _. exact H12.
    + specialize (IH t2 a2 Hrest j tj aj Hj).
      unfold BUTTON_COOLDOWN_MS in *. lia.
Qed.

Lemma spaced_apart (log : list (Z * string)) :
  spaced log ->
  forall i j ti ai tj aj, (i < j)%nat ->
    log !! i = Some (ti, ai) -> log !! j = Some (tj, aj) ->
    BUTTON_COOLDOWN_MS < ti - tj.
Proof.
  induction log as [|[t a] rest IH]; intros Hsp i j ti ai tj aj Hij Hi Hj.
  - destruct i; discriminate.
  - destruct j as [|j]; [lia|]. destruct i as [|i].
    + injection Hi as <- _. eapply spaced_head; eauto.
    + destruct Hsp as [_ Hrest].
      apply (IH Hrest i j ti ai tj aj); [lia | exact Hi | exact Hj].
Qed.

Lemma step_fired_active (s : State) (e : Event) :
  pinchActive s = true -> fired (step s e) = fired s.
Proof.
  intros Hp. destruct e as [dom now hands|dom act|dom h|dom]; cbn [step].
  - apply (session_onResults_active dom now hands s Hp).
  - destruct (session_runAction dom act s) as (d & e & H & _).
    now injection H as _ _ _ -> _ _.
  - pose proof (session_countdownTick dom h s) as H.
    now injection H as _ _ _ -> _ _.
  - pose proof (widgetsOnly_session _ s (widgetsOnly_initWidgetState dom))
      as H.
    now injection H as _ _ _ -> _ _.
Qed.

(** C6. The actions fired by pinching are kept in [fired] with their time.
    A hand fires one only on a pinch start (the session goes from inactive
    to active) whose pointer hits a button, at a time more than 800 ms after
    [lastButtonPress], and the firing sets [lastButtonPress] to that time.
    While the session stays active no event fires anything, however many
    frames report the pinch.  In every run from the initial state any two
    firings are more than 800 ms apart. *)
Theorem button_fires_once_per_cooldown :
  (forall dom now landmarks s b s',
     processPinch dom now landmarks s = Ok b s' ->
     fired s' <> fired s ->
     pinchActive s = false /\ pinchActive s' = true
     /\ exists index btn,
          landmarks !! 8%nat = Some index
          /\ hitTestButtons dom (pinchPointUI dom (mode s) index) = Some btn
          /\ BUTTON_COOLDOWN_MS < now - lastButtonPress s
          /\ fired s' = (now, action btn) :: fired s
          /\ lastButtonPress s' = now)
  /\ (forall evs s, sessionHeld s evs -> fired (run s evs) = fired s)
  /\ (forall evs s, pressLogged s -> pressLogged (run s evs))
  /\ (forall evs i j ti ai tj aj,
        (i < j)%nat ->
        fired (run initial evs) !! i = Some (ti, ai) ->
        fired (run initial evs) !! j = Some (tj, aj) ->
        BUTTON_COOLDOWN_MS < ti - tj).
Proof.
  split; [|split; [|split]].
  - intros dom now landmarks s b s' Hrun Hfired.
    destruct (processPinch_cases dom now landmarks s)
      as [E | [E | [(_ & s1 & E & Hs) | (Hp & s1 & index & E & H8 & Hs)]]];
      rewrite E in Hrun; try discriminate; injection Hrun as <- <-.
    + contradiction.
    + injection Hs as _ _ _ Hf _ _. contradiction.
    + destruct Hs as [(btn & d & e & Hhit & Hcool & Hs & _) | (_ & d & Hs)].
      * injection Hs as _ Hp' Hl Hf _ _. split; [exact Hp|]. split; [exact Hp'|].
        exists index, btn. auto.
      * injection Hs as _ _ _ Hf _ _. contradiction.
  - induction evs as [|e evs IH]; intros s Hheld; cbn [run fold_left].
    + reflexivity.
    + destruct Hheld as [Hp Hheld]. fold (run (step s e) evs).
      rewrite (IH _ Hheld). now apply step_fired_active.
  - apply pressLogged_run.
  - intros evs i j ti ai tj aj Hij Hi Hj.
    assert (H : pressLogged (run initial evs))
      by (apply pressLogged_run; repeat split).
    destruct H as [Hsp _]. eapply spaced_apart; eauto.
Qed.

(** ** Swipe navigation *)

Lemma mode_setMode (next : Mode) (s : State) : mode (setMode next s) = next.
Proof.
  unfold setMode. destruct (mode s) eqn:E, next; cbn; try assumption;
    destruct (countdownTimer s); reflexivity.
Qed.

Lemma swipeSwitch_spec (now : Z) (dx : float) (dt sinceLast : Z) (s : State) :
  (pinchActive s = false
   /\ SWIPE_COOLDOWN_MS < sinceLast /\ dt <= SWIPE_TIME_MAX
   /\ ((mode s = Mirror /\ (SWIPE_THRESHOLD <? dx)%float = true
        /\ mode (swipeSwitch now dx dt sinceLast s) = TryOn)
       \/ (mode s = TryOn /\ (dx <? - SWIPE_THRESHOLD)%float = true
           /\ mode (swipeSwitch now dx dt sinceLast s) = Mirror))
   /\ lastSwipeTime (swipeSwitch now dx dt sinceLast s) = now)
  \/ (swipeSwitch now dx dt sinceLast s = s
      /\ ~ (pinchActive s = false
            /\ SWIPE_COOLDOWN_MS < sinceLast /\ dt <= SWIPE_TIME_MAX
            /\ ((mode s = Mirror /\ (SWIPE_THRESHOLD <? dx)%float = true)
                \/ (mode s = TryOn /\ (dx <? - SWIPE_THRESHOLD)%float = true)))).
Proof.
  unfold swipeSwitch.
  destruct (pinchActive s) eqn:Hp; cbn [negb andb].
  { right. split; [reflexivity|]. intros (Hp' & _). discriminate. }
  destruct (SWIPE_COOLDOWN_MS <? sinceLast)%Z eqn:Hcool; cbn [andb].
  2:{ right. split; [reflexivity|]. intros (_ & Hc & _).
      apply Z.ltb_ge in Hcool. lia. }
  destruct (dt <=? SWIPE_TIME_MAX)%Z eqn:Hdt.
  2:{ right. split; [reflexivity|]. intros (_ & _ & Hd & _).
      apply Z.leb_gt in Hdt. lia. }
  apply Z.ltb_lt in Hcool. apply Z.leb_le in Hdt.
  destruct (mode s) eqn:Hm; cbn [Mode_eqb].
  - rewrite andb_true_r, andb_false_r.
    destruct (SWIPE_THRESHOLD <? dx)%float eqn:Hpos.
    + left. cbn. rewrite mode_setMode. auto 10.
    + right. split; [reflexivity|].
      intros (_ & _ & _ & [(_ & Hlt) | (Hm' & _)]); discriminate.
  - rewrite andb_true_r, andb_false_r.
    destruct (dx <? - SWIPE_THRESHOLD)%float eqn:Hneg.
    + left. cbn. rewrite mode_setMode. auto 10.
    + right. split; [reflexivity|].
      intros (_ & _ & _ & [(Hm' & _) | (_ & Hlt)]); discriminate.
Qed.

Lemma swipeHand_some (now : Z) (landmarks : list Point) (s : State)
  (tip : Point) (startX : float) :
  landmarks !! 8%nat = Some tip -> swipeStartX s = Some startX ->
  exists s1,
    swipeHand now landmarks s = Ok tt s1
    /\ ((pinchActive s = false
         /\ SWIPE_COOLDOWN_MS < now - lastSwipeTime s
         /\ now - swipeStartTime s <= SWIPE_TIME_MAX
         /\ ((mode s = Mirror
              /\ (SWIPE_THRESHOLD <? 1 - px tip - startX)%float = true
              /\ mode s1 = TryOn)
             \/ (mode s = TryOn
                 /\ (1 - px tip - startX <? - SWIPE_THRESHOLD)%float = true
                 /\ mode s1 = Mirror))
         /\ lastSwipeTime s1 = now)
        \/ (mode s1 = mode s /\ lastSwipeTime s1 = lastSwipeTime s
            /\ ~ exists next, swipeFires now landmarks s next)).
Proof.
  intros H8 Hstart. unfold swipeHand. rewrite H8, Hstart. cbv zeta.
  eexists. split; [reflexivity|].
  set (dx := (1 - px tip - startX)%float).
  set (dt := now - swipeStartTime s).
  set (sinceLast := now - lastSwipeTime s).
  set (moving := (0.02 <? _)%float).
  assert (Hre : forall s0,
             mode (set_lastSwipeX (Some (1 - px tip)%float)
                     (reanchor now (1 - px tip) dt moving s0)) = mode s0
             /\ lastSwipeTime (set_lastSwipeX (Some (1 - px tip)%float)
                     (reanchor now (1 - px tip) dt moving s0))
                = lastSwipeTime s0).
  { intros s0. unfold reanchor. now destruct (_ || _). }
  destruct (Hre (swipeSwitch now dx dt sinceLast s)) as [-> ->].
  destruct (swipeSwitch_spec now dx dt sinceLast s)
    as [(Hp & Hc & Hd & Hdir & Hl) | (-> & Hno)].
  - left. auto.
  - right. repeat split.
    intros (next & tip' & sx & E8 & Es & Hp & Hc & Hd & Hdir).
    rewrite H8 in E8. rewrite Hstart in Es.
    injection E8 as <-. injection Es as <-.
    apply Hno. repeat split; auto.
    destruct Hdir as [(? & ? & _) | (? & ? & _)]; auto.
Qed.

Lemma swipeHand_fires (now : Z) (landmarks : list Point) (s : State)
  (next : Mode) :
  swipeFires now landmarks s next ->
  mode (stateOf (swipeHand now landmarks s)) = next
  /\ next <> mode s
  /\ lastSwipeTime (stateOf (swipeHand now landmarks s)) = now.
Proof.
  intros Hf. pose proof Hf as (tip & startX & H8 & Hs & _ & _ & _ & Hdir).
  destruct (swipeHand_some now landmarks s tip startX H8 Hs)
    as (s1 & -> & [(_ & _ & _ & Hd & Hl) | (_ & _ & Hno)]); cbn [stateOf].
  - destruct Hdir as [(Hm & Hq & ->) | (Hm & Hq & ->)];
      destruct Hd as [(Hm' & Hq' & ->) | (Hm' & Hq' & ->)];
      try congruence; repeat split; auto; congruence.
  - exfalso. apply Hno. now exists next.
Qed.

Lemma swipeHand_switch (now : Z) (landmarks : list Point) (s : State) :
  mode (stateOf (swipeHand now landmarks s)) <> mode s ->
  swipeFires now landmarks s (mode (stateOf (swipeHand now landmarks s))).
Proof.
  intros Hne.
  destruct (landmarks !! 8%nat) as [tip|] eqn:H8;
    [|unfold swipeHand in Hne; now rewrite H8 in Hne].
  destruct (swipeStartX s) as [startX|] eqn:Hs;
    [|unfold swipeHand in Hne; now rewrite H8, Hs in Hne].
  destruct (swipeHand_some now landmarks s tip startX H8 Hs)
    as (s1 & E & [(Hp & Hc & Hd & Hdir & Hl) | (Hm & _)]);
    rewrite E in *; cbn [stateOf] in *; [|contradiction].
  exists tip, startX. repeat split; auto.
Qed.

Lemma mode_processPinch (dom : Dom) (now : Z) (landmarks : list Point)
  (s : State) :
  mode (stateOf (processPinch dom now landmarks s)) = mode s
  /\ (forall s', processPinch dom now landmarks s = Ok true s' ->
        pinchActive s' = true).
Proof.
  destruct (processPinch_cases dom now landmarks s)
    as [-> | [-> | [(Hp & s' & -> & Hs) | (_ & s' & index & -> & _ & Hs)]]];
    cbn [stateOf]; try (split; [reflexivity | discriminate]).
  - injection Hs as _ Hp' _ _ Hm _. split; [exact Hm|].
    intros s'' [= <-]. congruence.
  - destruct Hs as [(btn & d & e & _ & _ & Hs & _) | (_ & d & Hs)];
      injection Hs as _ Hp' _ _ Hm _; (split; [exact Hm|]);
      intros s'' [= <-]; exact Hp'.
Qed.

(** After the pinch loop and the release the session is active exactly when
    a hand of the frame was pinching. *)
Lemma pinchLoop_release (dom : Dom) (now : Z) (hands : list (list Point))
  (s : State) :
  mode (stateOf (pinchLoop dom now hands false s)) = mode s
  /\ forall b s1, pinchLoop dom now hands false s = Ok b s1 ->
       pinchActive (release dom b s1) = b
       /\ mode (release dom b s1) = mode s.
Proof.
  assert (H : forall a s0,
             mode (stateOf (pinchLoop dom now hands a s0)) = mode s0
             /\ forall b s1, pinchLoop dom now hands a s0 = Ok b s1 ->
                  (a = true -> pinchActive s0 = true ->
                   b = true /\ pinchActive s1 = true)
                  /\ (b = true -> a = true \/ pinchActive s1 = true)).
  { induction hands as [|lm hands IH]; intros a s0; cbn [pinchLoop].
    - split; [reflexivity|]. intros b s1 [= <- <-]. auto.
    - destruct (mode_processPinch dom now lm s0) as [Hm Htrue].
      pose proof (session_processPinch_active dom now lm s0) as Hact.
      destruct (processPinch dom now lm s0) as [p s'|s'];
        cbn [andThen stateOf] in *; [|split; [exact Hm | discriminate]].
      destruct (IH (if p then true else a) s') as [Hm' Hrest].
      split; [congruence|]. intros b s1 E.
      destruct (Hrest b s1 E) as [Hkeep Hany]. split.
      + intros -> Hp0. apply Hkeep; [now destruct p|].
        specialize (Hact Hp0). injection Hact as _ -> _. exact Hp0.
      + intros ->. destruct p.
        * right. apply Hkeep; [reflexivity | now apply Htrue].
        * destruct (Hany eq_refl); auto. }
  destruct (H false s) as [Hm Hrest]. split; [exact Hm|].
  intros b s1 E. destruct (Hrest b s1 E) as [_ Hany].
  pose proof (session_release dom b s1) as Hrel.
  assert (Hm1 : mode s1 = mode s) by (now rewrite E in Hm).
  pose proof (f_equal sPinchActive Hrel) as Hpa.
  pose proof (f_equal sMode Hrel) as Hmo.
  destruct b; cbn [negb andb] in Hpa, Hmo.
  - unfold release. cbn [negb andb]. split; [|exact Hm1].
    destruct (Hany eq_refl); [discriminate | assumption].
  - revert Hpa Hmo. destruct (pinchActive s1) eqn:Hp1; cbn;
      intros -> ->; auto.
Qed.

(** A frame that changes the mode had no pinching hand and ends with the
    session inactive. *)
Lemma onResults_mode_change (dom : Dom) (now : Z)
  (hands : option (list (list Point))) (s : State) :
  mode (stateOf (onResults dom now hands s)) <> mode s ->
  pinchActive (stateOf (onResults dom now hands s)) = false.
Proof.
  apply (onResults_cases
           (fun s' => mode s' <> mode s -> pinchActive s' = false)).
  { reflexivity. }
  intros hs _.
  destruct (pinchLoop_release dom now hs s) as [Hm Hrel].
  destruct (pinchLoop dom now hs false s) as [b s1|s1];
    cbn [andThen stateOf] in *; [|contradiction].
  destruct (Hrel b s1 eq_refl) as [Hp2 Hm2]. cbv zeta.
  set (s2 := release dom b s1) in *.
  destruct (session_detectSwipes now hs s2) as (d3 & m3 & e3 & Hsw & _ & Hact).
  apply stateOf_andThen.
  - intros s3 E3. rewrite E3 in Hsw. cbn [stateOf] in Hsw.
    apply session_same in Hsw as (_ & -> & _ & _ & -> & _).
    intros Hne'. rewrite Hp2. destruct b; [|reflexivity].
    destruct (Hact Hp2) as [_ ->]. congruence.
  - intros [] s3 E3. rewrite E3 in Hsw. cbn [stateOf] in Hsw.
    pose proof (session_thumbStage now hs s3) as Hfin.
    rewrite Hsw in Hfin.
    apply session_same in Hfin as (_ & -> & _ & _ & -> & _).
    intros Hne'. rewrite Hp2. destruct b; [|reflexivity].
    destruct (Hact Hp2) as [_ ->]. congruence.
Qed.

(** C7. A hand switches the mode exactly when its swipe qualifies: no pinch
    session is active, more than the cooldown has passed since the last
    switch, the travel was made within the time window, and it exceeds the
    threshold rightwards in Mirror mode (to Try-On) or leftwards in Try-On
    mode (to Mirror).  The switch records its time.  While a pinch session
    is active the swipe detection leaves the mode alone, only a tracker
    frame changes the mode, and a frame that does so ends with the session
    inactive. *)
Theorem swipe_mode_switch :
  (forall now landmarks s next,
     swipeFires now landmarks s next ->
     mode (stateOf (swipeHand now landmarks s)) = next
     /\ next <> mode s
     /\ lastSwipeTime (stateOf (swipeHand now landmarks s)) = now)
  /\ (forall now landmarks s,
        mode (stateOf (swipeHand now landmarks s)) <> mode s ->
        swipeFires now landmarks s
          (mode (stateOf (swipeHand now landmarks s))))
  /\ (forall now hands s,
        pinchActive s = true ->
        mode (stateOf (detectSwipes now hands s)) = mode s)
  /\ (forall s e,
        mode (step s e) <> mode s ->
        pinchActive (step s e) = false
        /\ exists dom now hands, e = Results dom now hands).
Proof.
  split; [|split; [|split]].
  - apply swipeHand_fires.
  - apply swipeHand_switch.
  - intros now hands s Hp.
    destruct (session_detectSwipes now hands s) as (d & m & e & H & _ & Hact).
    injection H as _ _ _ _ -> _. now apply Hact.
  - intros s e Hne. destruct e as [dom now hands|dom act|dom h|dom];
      cbn [step] in *.
    + split; [now apply onResults_mode_change | eauto].
    + destruct (session_runAction dom act s) as (d & e & H & _).
      injection H as _ _ _ _ Hm _. contradiction.
    + pose proof (session_countdownTick dom h s) as H.
      injection H as _ _ _ _ Hm _. contradiction.
    + pose proof (widgetsOnly_session _ s (widgetsOnly_initWidgetState dom))
        as H.
      injection H as _ _ _ _ Hm _. contradiction.
Qed.

(** ** Capture countdown *)

Lemma find_cleared (h : positive) (l : list Interval) :
  List.find (fun t => Pos.eqb (handle t) h)
            (filter (fun t => handle t ≠ h) l) = None.
Proof.
  induction l as [|t l IH]; [reflexivity|].
  rewrite filter_cons. destruct (decide (handle t ≠ h)) as [Hne | Heq].
  - cbn [List.find]. apply Pos.eqb_neq in Hne. now rewrite Hne.
  - exact IH.
Qed.

Lemma countdownTick_running (dom : Dom) (h : positive) (c ms : Z)
  (rest : list Interval) (s : State) :
  intervals s = mkInterval h c ms :: rest -> 0 < c - 1 ->
  exists rest',
    countdownTick dom h s
    = set_countdownText (c - 1)
        (set_intervals (mkInterval h (c - 1) ms :: rest') s).
Proof.
  intros Hi Hc. unfold countdownTick. rewrite Hi. cbn [List.find handle].
  rewrite Pos.eqb_refl. cbn [counter map handle]. rewrite Pos.eqb_refl.
  destruct (c - 1 <=? 0)%Z eqn:E; [apply Z.leb_le in E; lia|].
  now eexists.
Qed.

Lemma countdownTick_last (dom : Dom) (h : positive) (c ms : Z)
  (rest : list Interval) (s : State) :
  intervals s = mkInterval h c ms :: rest -> c - 1 <= 0 ->
  countdownTimer s = Some h ->
  exists rest',
    countdownTick dom h s
    = capturePhoto dom
        (set_isCountingDown false
           (set_countdownHidden true
              (set_intervals (filter (fun t => handle t ≠ h) rest') s))).
Proof.
  intros Hi Hc Ht. unfold countdownTick. rewrite Hi. cbn [List.find handle].
  rewrite Pos.eqb_refl. cbn [counter map handle]. rewrite Pos.eqb_refl.
  destruct (c - 1 <=? 0)%Z eqn:E; [|apply Z.leb_gt in E; lia].
  cbn [countdownTimer set_intervals]. rewrite Ht.
  unfold clearInterval. cbn [intervals set_intervals].
  rewrite filter_cons. cbn [handle].
  destruct (decide (h ≠ h)) as [Hne|_]; [contradiction|].
  now eexists.
Qed.

(** C8. Triggering the shutter changes nothing unless the mode is Try-On
    and no countdown is running; in particular it changes nothing during
    the countdown it has started.  When it fires the counter shows 3 and a
    timer with a delay of 1000 ms is started; the first two ticks of that
    timer show 2 and 1 with the countdown still running and no photo, and
    the third tick ends the countdown, clears the timer and captures the
    photo; a later tick of that timer does nothing. *)
Theorem shutter_countdown (dom1 dom2 dom3 : Dom) (s : State) :
  mode s = TryOn -> isCountingDown s = false ->
  let h := nextHandle s in
  let s0 := triggerShutter s in
  let s1 := countdownTick dom1 h s0 in
  let s2 := countdownTick dom2 h s1 in
  let s3 := countdownTick dom3 h s2 in
  (countdownTimer s0 = Some h /\ isCountingDown s0 = true
   /\ countdownText s0 = 3 /\ countdownHidden s0 = false
   /\ photoReady s0 = false)
  /\ intervals s0 = mkInterval h 3 1000 :: intervals s
  /\ (isCountingDown s1 = true /\ countdownText s1 = 2
      /\ countdownHidden s1 = false /\ photoReady s1 = false)
  /\ (isCountingDown s2 = true /\ countdownText s2 = 1
      /\ countdownHidden s2 = false /\ photoReady s2 = false)
  /\ (isCountingDown s3 = false /\ photoReady s3 = true
      /\ captureDataUrl s3 = Some (videoFrame dom3)
      /\ countdownHidden s3 = true /\ mode s3 = TryOn)
  /\ (forall dom, countdownTick dom h s3 = s3)
  /\ triggerShutter s0 = s0 /\ triggerShutter s1 = s1
  /\ triggerShutter s2 = s2
  /\ (forall s', mode s' = Mirror \/ isCountingDown s' = true ->
        triggerShutter s' = s').
Proof.
  intros Hm Hc h s0 s1 s2 s3.
  assert (Hnoop : forall s', mode s' = Mirror \/ isCountingDown s' = true ->
                             triggerShutter s' = s').
  { intros s' [H | H]; unfold triggerShutter; rewrite H; [reflexivity|].
    now destruct (mode s'). }
  assert (E0 : s0 = set_countdownTimer (Some h)
                      (set_nextHandle (Pos.succ h)
                         (set_intervals (mkInterval h 3 1000 :: intervals s)
                            (set_isCountingDown true
                               (set_countdownText 3
                                  (set_countdownHidden false
                                     (hidePhotoPreview s))))))).
  { subst s0. unfold triggerShutter. now rewrite Hm, Hc. }
  destruct (countdownTick_running dom1 h 3 1000 (intervals s) s0) as [r1 E1];
    [now rewrite E0 | lia |]. fold s1 in E1. change (3 - 1) with 2 in E1.
  destruct (countdownTick_running dom2 h 2 1000 r1 s1) as [r2 E2];
    [now rewrite E1 | lia |]. fold s2 in E2. change (2 - 1) with 1 in E2.
  destruct (countdownTick_last dom3 h 1 1000 r2 s2) as [r3 E3];
    [now rewrite E2 | lia | now rewrite E2, E1, E0 |]. fold s3 in E3.
  split; [now rewrite E0|]. split; [now rewrite E0|].
  split; [now rewrite E1, E0|].
  split; [now rewrite E2, E1, E0|].
  split; [rewrite E3, E2, E1, E0; cbn; auto|].
  split.
  { intros dom. unfold countdownTick.
    replace (intervals s3) with (filter (fun t => handle t ≠ h) r3)
      by now rewrite E3.
    now rewrite find_cleared. }
  split; [apply Hnoop; right; now rewrite E0|].
  split; [apply Hnoop; right; now rewrite E1, E0|].
  split; [apply Hnoop; right; now rewrite E2, E1, E0|].
  exact Hnoop.
Qed.

Lemma shutter_countdown_witness :
  let h := nextHandle tryonState in
  let s0 := triggerShutter tryonState in
  let s1 := countdownTick dom0 h s0 in
  let s2 := countdownTick dom0 h s1 in
  let s3 := countdownTick dom0 h s2 in
  (countdownTimer s0 = Some h /\ isCountingDown s0 = true
   /\ countdownText s0 = 3 /\ countdownHidden s0 = false
   /\ photoReady s0 = false)
  /\ intervals s0 = mkInterval h 3 1000 :: intervals tryonState
  /\ (isCountingDown s1 = true /\ countdownText s1 = 2
      /\ countdownHidden s1 = false /\ photoReady s1 = false)
  /\ (isCountingDown s2 = true /\ countdownText s2 = 1
      /\ countdownHidden s2 = false /\ photoReady s2 = false)
  /\ (isCountingDown s3 = false /\ photoReady s3 = true
      /\ captureDataUrl s3 = Some (videoFrame dom0)
      /\ countdownHidden s3 = true /\ mode s3 = TryOn)
  /\ (forall dom, countdownTick dom h s3 = s3)
  /\ triggerShutter s0 = s0 /\ triggerShutter s1 = s1
  /\ triggerShutter s2 = s2
  /\ (forall s', mode s' = Mirror \/ isCountingDown s' = true ->
        triggerShutter s' = s').
Proof.
  apply (shutter_countdown dom0 dom0 dom0 tryonState); reflexivity.
Defined.

(** ** The capture flow over all events *)

Lemma captureInv_fields (s s' : State) :
  mode s' = mode s -> isCountingDown s' = isCountingDown s ->
  countdownTimer s' = countdownTimer s -> photoReady s' = photoReady s ->
  captureDataUrl s' = captureDataUrl s -> intervals s' = intervals s ->
  countdownText s' = countdownText s ->
  countdownHidden s' = countdownHidden s ->
  captureInv s -> captureInv s'.
Proof.
  intros Hm Hc Ht Hp Hu Hi Hx Hh.
  unfold captureInv, capIdle, capCounting.
  now rewrite Hm, Hc, Ht, Hp, Hu, Hi, Hx, Hh.
Qed.

Lemma captureInv_capture (s s' : State) :
  capture s' = capture s -> captureInv s -> captureInv s'.
Proof.
  unfold capture. intros [= Hm _ _ Hc Ht Hp Hu Hi _ Hx Hh _].
  now apply captureInv_fields.
Qed.

Lemma capIdle_capture (s s' : State) :
  capture s' = capture s -> capIdle s -> capIdle s'.
Proof.
  unfold capture. intros [= Hm _ _ Hc Ht Hp Hu Hi _ Hx Hh _].
  unfold capIdle. now rewrite Hm, Hc, Hp, Hu, Hi, Hh.
Qed.

Lemma widgetsOnly_capture (f : State -> State) (s : State) :
  widgetsOnly f -> capture (f s) = capture s.
Proof. intros H. now destruct (H s) as [m ->]. Qed.

Lemma capture_setEditMode (on : bool) (s : State) :
  capture (setEditMode on s) = capture s.
Proof. unfold setEditMode. now destruct on. Qed.

Lemma capture_bindWidget (dom : Dom) (point : Point) (s : State) :
  capture (bindWidget dom point s) = capture s.
Proof.
  unfold bindWidget. destruct (_ && _); [|reflexivity].
  now destruct (truthy _).
Qed.

Lemma capture_release (dom : Dom) (anyPinch : bool) (s : State) :
  capture (release dom anyPinch s) = capture s.
Proof.
  unfold release. destruct (negb anyPinch && pinchActive s); [|reflexivity].
  destruct (draggingId s) as [wid|]; [|reflexivity].
  destruct (_ && _); [|reflexivity].
  destruct (widgetsOnly_snapWidget dom wid s) as [m ->]. reflexivity.
Qed.

Lemma captureInv_triggerShutter (s : State) :
  captureInv s -> captureInv (triggerShutter s).
Proof.
  intros H. unfold triggerShutter.
  destruct (mode s) eqn:Hm; [exact H|].
  destruct (isCountingDown s) eqn:Hc; [exact H|].
  destruct H as [(_ & Hi & _) | (Hc' & _)]; [|congruence].
  right. unfold capCounting. cbn. rewrite Hi.
  repeat split; auto. exists (nextHandle s), 3. repeat split; auto; lia.
Qed.

Lemma capIdle_hidePhotoPreview (s : State) :
  capIdle s -> capIdle (hidePhotoPreview s).
Proof.
  intros (Hc & Hi & _). unfold capIdle. cbn.
  repeat split; auto; discriminate.
Qed.

Lemma captureInv_retakePhoto (s : State) :
  capIdle s -> captureInv (retakePhoto s).
Proof.
  intros H. apply captureInv_triggerShutter. left.
  now apply capIdle_hidePhotoPreview.
Qed.

Lemma capture_savePhoto (s : State) :
  capIdle s -> capIdle (savePhoto s).
Proof.
  intros H. unfold savePhoto. destruct (captureDataUrl s); [|exact H].
  destruct (_ || _); [exact H|]. exact H.
Qed.

Lemma captureInv_countdownTick (dom : Dom) (h : positive) (s : State) :
  captureInv s -> captureInv (countdownTick dom h s).
Proof.
  intros [H | H].
  - left. destruct H as (Hc & Hi & Hrest). unfold countdownTick.
    rewrite Hi. cbn [List.find]. repeat split; tauto.
  - destruct H as (Hc & Hm & Hp & Hu & h0 & c & Ht & Hi & Hr & Hx & Hh).
    unfold countdownTick. rewrite Hi. cbn [List.find handle].
    destruct (Pos.eqb_spec h0 h) as [-> | Hne].
    2:{ right. unfold capCounting. repeat split; auto.
        exists h0, c. repeat split; auto; lia. }
    cbn [counter map handle]. rewrite Pos.eqb_refl.
    destruct (c - 1 <=? 0)%Z eqn:E.
    + left. unfold capIdle. cbn. rewrite Ht. unfold clearInterval. cbn.
      destruct (decide (h ≠ h)) as [?|_]; [contradiction|].
      repeat split; eauto. discriminate.
    + right. apply Z.leb_gt in E. unfold capCounting. cbn.
      repeat split; auto. exists h, (c - 1). repeat split; auto; lia.
Qed.

Lemma captureInv_setMode (next : Mode) (s : State) :
  captureInv s -> captureInv (setMode next s).
Proof.
  intros H. unfold setMode. destruct (Mode_eqb (mode s) next) eqn:E;
    [exact H|].
  left. unfold capIdle, setEditMode. destruct next; cbn.
  - (* to Mirror *)
    destruct H as [(Hc & Hi & _) | (_ & _ & _ & _ & h & c & Ht & Hi & _)].
    + destruct (countdownTimer s) as [h|]; cbn; rewrite Hi;
        repeat split; auto; discriminate.
    + rewrite Ht. cbn. rewrite Hi. cbn.
      destruct (decide (h ≠ h)) as [?|_]; [contradiction|].
      repeat split; auto; discriminate.
  - (* to Try-On: the mode was Mirror *)
    destruct H as [(Hc & Hi & _) | (_ & Hm & _)];
      [|rewrite Hm in E; discriminate].
    destruct (countdownTimer s) as [h|]; cbn; rewrite ?Hi;
      repeat split; auto; discriminate.
Qed.

Lemma captureInv_runAction (dom : Dom) (act : string) (s : State) :
  captureInv s -> captureInv (runAction dom act s).
Proof.
  intros H. unfold runAction.
  set (s1 := if String.eqb act "reset" then resetPanels dom s else s).
  assert (H1 : captureInv s1).
  { subst s1. destruct (String.eqb act "reset"); [|exact H].
    apply (captureInv_capture s); [|exact H].
    apply widgetsOnly_capture, widgetsOnly_resetPanels. }
  set (s2 := if String.eqb act "toggle-edit"
             then setEditMode (negb (editMode s1)) s1 else s1).
  assert (H2 : captureInv s2).
  { subst s2. destruct (String.eqb act "toggle-edit"); [|exact H1].
    apply (captureInv_capture s1); [apply capture_setEditMode | exact H1]. }
  destruct (String.eqb act "shutter"); [|exact H2].
  now apply captureInv_triggerShutter.
Qed.

Lemma captureInv_processPinch (dom : Dom) (now : Z) (landmarks : list Point)
  (s : State) :
  captureInv s -> captureInv (stateOf (processPinch dom now landmarks s)).
Proof.
  intros H. unfold processPinch.
  destruct (landmarks !! 4%nat) as [thumb|]; [|exact H].
  destruct (landmarks !! 8%nat) as [index|]; [|exact H].
  destruct (landmarks !! 0%nat) as [palm|]; [|exact H].
  destruct (landmarks !! 9%nat) as [base|]; [|exact H].
  cbv zeta. destruct (isPinching dom thumb index palm base); cbn [negb]; [|exact H].
  destruct (pinchActive s) eqn:Hp; cbn [stateOf].
  - apply (captureInv_capture s); [|exact H].
    apply widgetsOnly_capture, widgetsOnly_dragTo.
  - set (s0 := set_pinchMode PinchIdle (set_pinchActive true s)).
    assert (H0 : captureInv s0) by exact H.
    destruct (pressed dom now _ s0) as [btn|]; cbn [stateOf].
    + apply (captureInv_capture (runAction dom (action btn) s0));
        [reflexivity|].
      now apply captureInv_runAction.
    + apply (captureInv_capture s0); [|exact H0].
      rewrite (widgetsOnly_capture _ _ (widgetsOnly_dragTo _)).
      apply capture_bindWidget.
Qed.

Lemma captureInv_pinchLoop (dom : Dom) (now : Z) (hands : list (list Point))
  (anyPinch : bool) (s : State) :
  captureInv s ->
  captureInv (stateOf (pinchLoop dom now hands anyPinch s)).
Proof.
  revert anyPinch s.
  induction hands as [|lm hands IH]; intros anyPinch s H; cbn [pinchLoop].
  - exact H.
  - pose proof (captureInv_processPinch dom now lm s H) as H'.
    destruct (processPinch dom now lm s) as [b s'|s']; cbn [andThen stateOf] in *.
    + now apply IH.
    + exact H'.
Qed.

Lemma captureInv_swipeSwitch (now : Z) (dx : float) (dt sinceLast : Z)
  (s : State) :
  captureInv s -> captureInv (swipeSwitch now dx dt sinceLast s).
Proof.
  intros H. unfold swipeSwitch. destruct (_ && _ && _); [|exact H].
  destruct (_ && _).
  - apply (captureInv_fields (setMode TryOn s)); try reflexivity.
    now apply captureInv_setMode.
  - destruct (_ && _); [|exact H].
    apply (captureInv_fields (setMode Mirror s)); try reflexivity.
    now apply captureInv_setMode.
Qed.

Lemma captureInv_swipeHand (now : Z) (landmarks : list Point) (s : State) :
  captureInv s -> captureInv (stateOf (swipeHand now landmarks s)).
Proof.
  intros H. unfold swipeHand.
  destruct (landmarks !! 8%nat) as [tip|]; [|exact H].
  destruct (swipeStartX s) as [startX|]; [|exact H].
  cbv zeta. cbn [stateOf].
  set (s1 := swipeSwitch _ _ _ _ s).
  assert (H1 : captureInv s1) by now apply captureInv_swipeSwitch.
  unfold reanchor. destruct (_ || _); exact H1.
Qed.

Lemma captureInv_detectSwipes (now : Z) (hands : list (list Point))
  (s : State) :
  captureInv s -> captureInv (stateOf (detectSwipes now hands s)).
Proof.
  unfold detectSwipes. revert s.
  induction hands as [|lm hands IH]; intros s H; cbn [forEach].
  - exact H.
  - pose proof (captureInv_swipeHand now lm s H) as H'.
    destruct (swipeHand now lm s) as [[] s'|s']; cbn [andThen stateOf] in *.
    + now apply IH.
    + exact H'.
Qed.

Lemma captureInv_thumbLoop (now : Z) (hands : list (list Point)) (s : State) :
  capIdle s -> captureInv (stateOf (thumbLoop now hands s)).
Proof.
  intros H. induction hands as [|lm hands IH]; cbn [thumbLoop].
  - now left.
  - destruct (fingersFolded lm) as [[|]|]; [|exact IH|now left].
    destruct (thumbsUp lm) as [[|]|]; [| |now left].
    + cbn [stateOf]. left. now apply capture_savePhoto.
    + destruct (thumbsDown lm) as [[|]|]; [|exact IH|now left].
      cbn [stateOf]. now apply captureInv_retakePhoto.
Qed.

Lemma captureInv_onResults (dom : Dom) (now : Z)
  (hands : option (list (list Point))) (s : State) :
  captureInv s -> captureInv (stateOf (onResults dom now hands s)).
Proof.
  intros H. apply onResults_cases; [exact H|]. intros hs _.
  pose proof (captureInv_pinchLoop dom now hs false s H) as Hloop.
  apply stateOf_andThen.
  - intros s1 E. now rewrite E in Hloop.
  - intros b s1 E. rewrite E in Hloop. cbn [stateOf] in Hloop. cbv zeta.
    assert (H2 : captureInv (release dom b s1)).
    { apply (captureInv_capture s1); [apply capture_release | exact Hloop]. }
    pose proof (captureInv_detectSwipes now hs _ H2) as H3.
    apply stateOf_andThen.
    + intros s3 E3. now rewrite E3 in H3.
    + intros [] s3 E3. rewrite E3 in H3. cbn [stateOf] in H3.
      destruct (Mode_eqb (mode s3) TryOn && photoReady s3) eqn:Eg;
        cbn [andb]; [|exact H3].
      destruct (isCountingDown s3) eqn:Ec; cbn [negb]; [exact H3|].
      unfold detectThumbGestures. destruct (_ <? _)%Z; [exact H3|].
      apply captureInv_thumbLoop.
      destruct H3 as [H3 | (Hc & _)]; [exact H3 | congruence].
Qed.

Lemma captureInv_step (s : State) (e : Event) :
  captureInv s -> captureInv (step s e).
Proof.
  intros H. destruct e as [dom now hands|dom act|dom h|dom]; cbn [step].
  - now apply captureInv_onResults.
  - now apply captureInv_runAction.
  - now apply captureInv_countdownTick.
  - apply (captureInv_capture s); [|exact H].
    apply widgetsOnly_capture, widgetsOnly_initWidgetState.
Qed.

Lemma captureInv_initial : captureInv initial.
Proof. left. unfold capIdle. cbn. repeat split; auto; discriminate. Qed.

(** X15. In every state the script reaches, the capture flow is idle, counting
    down or showing a photo, never two of them: a countdown runs exactly
    when one timer is live, the one [countdownTimer] names, and then the
    mode is Try-On, the numeral shown is the timer's counter, between 1 and
    3, and there is no photo; otherwise no timer is live and the numeral is
    hidden.  In Mirror mode there is neither a countdown nor a photo. *)
Theorem capture_flow_invariant (evs : list Event) :
  captureInv (run initial evs)
  /\ (length (intervals (run initial evs)) <= 1)%nat
  /\ (isCountingDown (run initial evs) = true
      <-> intervals (run initial evs) <> [])
  /\ (isCountingDown (run initial evs) = true ->
      photoReady (run initial evs) = false)
  /\ (mode (run initial evs) = Mirror ->
      isCountingDown (run initial evs) = false
      /\ photoReady (run initial evs) = false
      /\ captureDataUrl (run initial evs) = None).
Proof.
  assert (H : captureInv (run initial evs)).
  { assert (G : forall s, captureInv s -> captureInv (run s evs)).
    { induction evs as [|e evs IH]; intros s Hs; cbn [run fold_left].
      - exact Hs.
      - apply IH, captureInv_step, Hs. }
    apply G, captureInv_initial. }
  split; [exact H|].
  destruct H as [(Hc & Hi & Hh & Hp & Hu) | (Hc & Hm & Hp & Hu & h & c & Ht & Hi & _)].
  - rewrite Hc, Hi. cbn. split; [lia|]. split; [split; [discriminate | congruence]|].
    split; [discriminate|]. intros Hm. split; [reflexivity|].
    destruct (photoReady (run initial evs)) eqn:E.
    + destruct (Hp eq_refl) as [Hm' _]. congruence.
    + auto.
  - rewrite Hc, Hi, Hm, Hp. cbn. split; [lia|].
    split; [split; [discriminate | reflexivity]|].
    split; [reflexivity | discriminate].
Qed.

(** ** Thumb gestures *)

Lemma thumbLoop_skip (now : Z) (pre rest : list (list Point)) (s : State) :
  Forall showsNothing pre ->
  thumbLoop now (pre ++ rest) s = thumbLoop now rest s.
Proof.
  induction 1 as [|lm pre Hlm _ IH]; [reflexivity|].
  cbn [app thumbLoop].
  destruct Hlm as [-> | (-> & -> & ->)]; exact IH.
Qed.

Lemma detectThumbGestures_cooling (now : Z) (hands : list (list Point))
  (s : State) :
  now - lastGestureTime s < GESTURE_COOLDOWN_MS ->
  detectThumbGestures now hands s = Ok tt s.
Proof.
  intros H. unfold detectThumbGestures.
  now destruct (Z.ltb_spec (now - lastGestureTime s) GESTURE_COOLDOWN_MS);
    [|lia].
Qed.

Lemma detectThumbGestures_first (now : Z) (pre post : list (list Point))
  (lm : list Point) (s : State) :
  GESTURE_COOLDOWN_MS <= now - lastGestureTime s ->
  Forall showsNothing pre ->
  (showsThumbsUp lm ->
   detectThumbGestures now (pre ++ lm :: post) s
   = Ok tt (savePhoto (set_lastGestureTime now s)))
  /\ (showsThumbsDown lm ->
      detectThumbGestures now (pre ++ lm :: post) s
      = Ok tt (retakePhoto (set_lastGestureTime now s))).
Proof.
  intros Hcool Hpre. unfold detectThumbGestures.
  destruct (Z.ltb_spec (now - lastGestureTime s) GESTURE_COOLDOWN_MS);
    [lia|].
  rewrite thumbLoop_skip by assumption. cbn [thumbLoop]. split.
  - intros [-> ->]. reflexivity.
  - intros (-> & -> & ->). reflexivity.
Qed.

(** X16. A thumbs-up on a ready photo starts one download of its data URL and
    leaves the photo ready: the hands before it that show nothing are passed
    over, the hands after it are not looked at, and for the next 1200 ms no
    hand is looked at. *)
Theorem thumbs_up_downloads (now : Z) (pre post : list (list Point))
  (lm : list Point) (s : State) (url : string) :
  GESTURE_COOLDOWN_MS <= now - lastGestureTime s ->
  Forall showsNothing pre -> showsThumbsUp lm ->
  photoReady s = true -> captureDataUrl s = Some url -> url <> "" ->
  detectThumbGestures now (pre ++ lm :: post) s
  = Ok tt (set_saved (url :: saved s) (set_lastGestureTime now s))
  /\ (forall now' hands',
        now' - now < GESTURE_COOLDOWN_MS ->
        detectThumbGestures now' hands'
          (set_saved (url :: saved s) (set_lastGestureTime now s))
        = Ok tt (set_saved (url :: saved s) (set_lastGestureTime now s))).
Proof.
  intros Hcool Hpre Hup Hready Hurl Hne. split.
  - rewrite (proj1 (detectThumbGestures_first now pre post lm s Hcool Hpre) Hup).
    unfold savePhoto. cbn. rewrite Hurl, Hready. cbn.
    destruct (String.eqb_spec url ""); [contradiction|]. reflexivity.
  - intros now' hands' H. now apply detectThumbGestures_cooling.
Qed.



Lemma thumbs_up_downloads_witness :
  detectThumbGestures 5000 ([openHand] ++ thumbUpHand :: [thumbDownHand])
    photoState
  = Ok tt (set_saved (videoFrame dom0 :: saved photoState)
             (set_lastGestureTime 5000 photoState))
  /\ (forall now' hands',
        now' - 5000 < GESTURE_COOLDOWN_MS ->
        detectThumbGestures now' hands'
          (set_saved (videoFrame dom0 :: saved photoState)
             (set_lastGestureTime 5000 photoState))
        = Ok tt (set_saved (videoFrame dom0 :: saved photoState)
                   (set_lastGestureTime 5000 photoState))).
Proof.
  apply (thumbs_up_downloads 5000 [openHand] [thumbDownHand] thumbUpHand
           photoState (videoFrame dom0)).
  - vm_compute. discriminate.
  - constructor; [left; reflexivity | constructor].
  - split; reflexivity.
  - reflexivity.
  - reflexivity.
  - discriminate.
Defined.


(** The same gestures through the frame dispatch. *)
Example thumb_frames_run :
  photoReady photoState = true
  /\ saved (stateOf (onResults dom0 5000 (Some [thumbUpHand]) photoState))
     = [videoFrame dom0]
  /\ isCountingDown
       (stateOf (onResults dom0 5000 (Some [thumbDownHand]) photoState))
     = true
  /\ onResults dom0 1000 (Some [thumbDownHand]) photoState
     = onResults dom0 1000 (Some [openHand]) photoState.
Proof. split; [|split; [|split]]; vm_compute; reflexivity. Qed.

Lemma quiet_refl (s : State) : quiet s s.
Proof. repeat split; auto. Qed.

Lemma quiet_trans (s1 s2 s3 : State) : quiet s1 s2 -> quiet s2 s3 -> quiet s1 s3.
Proof.
  intros (H1 & H2 & H3) (G1 & G2 & G3). repeat split; try congruence. auto.
Qed.

Lemma quiet_capture (s s' : State) : capture s' = capture s -> quiet s s'.
Proof.
  unfold capture. intros [= _ _ Hg _ _ Hp _ _ _ _ _ Hs].
  repeat split; congruence.
Qed.

Lemma quiet_triggerShutter (s : State) : quiet s (triggerShutter s).
Proof.
  unfold triggerShutter. destruct (mode s); [apply quiet_refl|].
  destruct (isCountingDown s); [apply quiet_refl|]. repeat split.
Qed.

Lemma quiet_setMode (next : Mode) (s : State) : quiet s (setMode next s).
Proof.
  unfold setMode. destruct (Mode_eqb (mode s) next); [apply quiet_refl|].
  unfold setEditMode. destruct next; cbn; destruct (countdownTimer s);
    repeat split.
Qed.

Lemma quiet_runAction (dom : Dom) (act : string) (s : State) :
  quiet s (runAction dom act s).
Proof.
  unfold runAction.
  set (s1 := if String.eqb act "reset" then resetPanels dom s else s).
  assert (H1 : quiet s s1).
  { subst s1. destruct (String.eqb act "reset"); [|apply quiet_refl].
    apply quiet_capture, widgetsOnly_capture, widgetsOnly_resetPanels. }
  set (s2 := if String.eqb act "toggle-edit"
             then setEditMode (negb (editMode s1)) s1 else s1).
  assert (H2 : quiet s s2).
  { apply (quiet_trans s s1); [exact H1|]. subst s2.
    destruct (String.eqb act "toggle-edit"); [|apply quiet_refl].
    apply quiet_capture, capture_setEditMode. }
  destruct (String.eqb act "shutter"); [|exact H2].
  apply (quiet_trans s s2); [exact H2 | apply quiet_triggerShutter].
Qed.

Lemma quiet_processPinch (dom : Dom) (now : Z) (landmarks : list Point)
  (s : State) :
  quiet s (stateOf (processPinch dom now landmarks s)).
Proof.
  unfold processPinch.
  destruct (landmarks !! 4%nat) as [thumb|]; [|apply quiet_refl].
  destruct (landmarks !! 8%nat) as [index|]; [|apply quiet_refl].
  destruct (landmarks !! 0%nat) as [palm|]; [|apply quiet_refl].
  destruct (landmarks !! 9%nat) as [base|]; [|apply quiet_refl].
  cbv zeta. destruct (isPinching dom thumb index palm base); cbn [negb];
    [|apply quiet_refl].
  destruct (pinchActive s) eqn:Hp; cbn [stateOf].
  - apply quiet_capture, widgetsOnly_capture, widgetsOnly_dragTo.
  - set (s0 := set_pinchMode PinchIdle (set_pinchActive true s)).
    assert (H0 : quiet s s0) by (repeat split; auto).
    apply (quiet_trans s s0); [exact H0|].
    destruct (pressed dom now _ s0) as [btn|]; cbn [stateOf].
    + apply (quiet_trans s0 (runAction dom (action btn) s0));
        [apply quiet_runAction | repeat split; auto].
    + apply quiet_capture.
      rewrite (widgetsOnly_capture _ _ (widgetsOnly_dragTo _)).
      apply capture_bindWidget.
Qed.

Lemma quiet_pinchLoop (dom : Dom) (now : Z) (hands : list (list Point))
  (anyPinch : bool) (s : State) :
  quiet s (stateOf (pinchLoop dom now hands anyPinch s)).
Proof.
  revert anyPinch s.
  induction hands as [|lm hands IH]; intros anyPinch s; cbn [pinchLoop].
  - apply quiet_refl.
  - pose proof (quiet_processPinch dom now lm s) as H.
    destruct (processPinch dom now lm s) as [b s'|s']; cbn [andThen stateOf] in *.
    + apply (quiet_trans s s'); [exact H | apply IH].
    + exact H.
Qed.

Lemma quiet_swipeHand (now : Z) (landmarks : list Point) (s : State) :
  quiet s (stateOf (swipeHand now landmarks s)).
Proof.
  unfold swipeHand.
  destruct (landmarks !! 8%nat) as [tip|]; [|apply quiet_refl].
  destruct (swipeStartX s) as [startX|]; [|repeat split; auto].
  cbv zeta. cbn [stateOf].
  set (s1 := swipeSwitch _ _ _ _ s).
  assert (H1 : quiet s s1).
  { subst s1. unfold swipeSwitch. destruct (_ && _ && _); [|apply quiet_refl].
    destruct (_ && _).
    - apply (quiet_trans s (setMode TryOn s)); [apply quiet_setMode|].
      repeat split; auto.
    - destruct (_ && _); [|apply quiet_refl].
      apply (quiet_trans s (setMode Mirror s)); [apply quiet_setMode|].
      repeat split; auto. }
  apply (quiet_trans s s1); [exact H1|].
  unfold reanchor. destruct (_ || _); repeat split; auto.
Qed.

Lemma quiet_detectSwipes (now : Z) (hands : list (list Point)) (s : State) :
  quiet s (stateOf (detectSwipes now hands s)).
Proof.
  unfold detectSwipes. revert s.
  induction hands as [|lm hands IH]; intros s; cbn [forEach].
  - apply quiet_refl.
  - pose proof (quiet_swipeHand now lm s) as H.
    destruct (swipeHand now lm s) as [[] s'|s']; cbn [andThen stateOf] in *.
    + apply (quiet_trans s s'); [exact H | apply IH].
    + exact H.
Qed.

(** X18. Without a ready photo a frame honours no thumb gesture: whatever the
    hands show, nothing is saved, the gesture cooldown is not restarted and
    no photo appears. *)
Theorem no_photo_no_gesture (dom : Dom) (now : Z)
  (hands : option (list (list Point))) (s : State) :
  photoReady s = false ->
  saved (stateOf (onResults dom now hands s)) = saved s
  /\ lastGestureTime (stateOf (onResults dom now hands s))
     = lastGestureTime s
  /\ photoReady (stateOf (onResults dom now hands s)) = false.
Proof.
  intros Hp.
  assert (H : quiet s (stateOf (onResults dom now hands s))
              /\ photoReady (stateOf (onResults dom now hands s)) = false).
  { apply (onResults_cases
             (fun s' => quiet s s' /\ photoReady s' = false)).
    { split; [repeat split; auto | exact Hp]. }
    intros hs _.
    pose proof (quiet_pinchLoop dom now hs false s) as Hloop.
    apply stateOf_andThen.
    - intros s1 E. rewrite E in Hloop. cbn [stateOf] in Hloop.
      split; [exact Hloop | now apply Hloop].
    - intros b s1 E. rewrite E in Hloop. cbn [stateOf] in Hloop. cbv zeta.
      assert (H2 : quiet s (release dom b s1)).
      { apply (quiet_trans s s1); [exact Hloop|].
        apply quiet_capture, capture_release. }
      pose proof (quiet_detectSwipes now hs (release dom b s1)) as H3.
      apply stateOf_andThen.
      + intros s3 E3. rewrite E3 in H3. cbn [stateOf] in H3.
        pose proof (quiet_trans _ _ _ H2 H3) as H4.
        split; [exact H4 | now apply H4].
      + intros [] s3 E3. rewrite E3 in H3. cbn [stateOf] in H3.
        pose proof (quiet_trans _ _ _ H2 H3) as H4.
        assert (Hp3 : photoReady s3 = false) by now apply H4.
        rewrite Hp3, andb_false_r. cbn [andb stateOf].
        split; [exact H4 | exact Hp3]. }
  destruct H as [(H1 & H2 & _) H3]. auto.
Qed.

Lemma no_photo_no_gesture_witness :
  saved (stateOf (onResults dom0 5000 (Some [thumbUpHand]) tryonState))
  = saved tryonState
  /\ lastGestureTime
       (stateOf (onResults dom0 5000 (Some [thumbUpHand]) tryonState))
     = lastGestureTime tryonState
  /\ photoReady
       (stateOf (onResults dom0 5000 (Some [thumbUpHand]) tryonState))
     = false.
Proof.
  apply (no_photo_no_gesture dom0 5000 (Some [thumbUpHand]) tryonState).
  reflexivity.
Defined.

(** ** Layout recompute, positioning and reset *)

Lemma initWidget_offsetOf (s : State) (ie : nat * Element) (w : string) :
  offsetOf (initWidget s ie) w = offsetOf s w.
Proof.
  destruct ie as [i e]. unfold initWidget, offsetOf. cbv zeta.
  cbn [widgetState set_widgetState].
  destruct (decide (id e = w)) as [<- | Hne].
  - rewrite lookup_insert_eq. reflexivity.
  - now rewrite lookup_insert_ne.
Qed.

Lemma initWidget_other (s : State) (ie : nat * Element) (w : string) :
  id (snd ie) <> w ->
  widgetState (initWidget s ie) !! w = widgetState s !! w.
Proof.
  destruct ie as [i e]. intros Hne. unfold initWidget. cbv zeta.
  cbn [widgetState set_widgetState]. now rewrite lookup_insert_ne.
Qed.

Lemma fold_initWidget_offsetOf (l : list (nat * Element)) (s : State)
  (w : string) :
  offsetOf (fold_left initWidget l s) w = offsetOf s w.
Proof.
  revert s. induction l as [|ie l IH]; intros s; cbn [fold_left].
  - reflexivity.
  - now rewrite IH, initWidget_offsetOf.
Qed.

Lemma fold_initWidget_other (l : list (nat * Element)) (s : State)
  (w : string) :
  Forall (fun ie => id (snd ie) <> w) l ->
  widgetState (fold_left initWidget l s) !! w = widgetState s !! w.
Proof.
  intros H. revert s.
  induction H as [|ie l Hie _ IH]; intros s; cbn [fold_left].
  - reflexivity.
  - now rewrite IH, initWidget_other.
Qed.

Lemma Forall_imap_snd (P : Element -> Prop) (l : list Element)
  (h : nat -> nat) :
  Forall P l -> Forall (fun ie => P (snd ie)) (imap (fun i => pair (h i)) l).
Proof.
  intros H. revert h.
  induction H as [|e l He _ IH]; intros h; cbn [imap].
  - constructor.
  - constructor; [exact He|]. apply (IH (fun i => h (S i))).
Qed.

Lemma initWidgetState_last (dom : Dom) (s : State) (l1 l2 : list Element)
  (e : Element) :
  widgetElements dom = l1 ++ e :: l2 ->
  Forall (fun e' => id e' <> id e) l2 ->
  widgetState (initWidgetState dom s) !! id e
  = Some (mkWidgetState (length l1)
            (mkPoint (left_ (rect e) + width_ (rect e) / 2
                      - px (offsetOf s (id e)))%float
                     (top_ (rect e) + height_ (rect e) / 2
                      - py (offsetOf s (id e)))%float)
            (offsetOf s (id e))).
Proof.
  intros Hl Hl2. unfold initWidgetState. rewrite Hl, imap_app.
  cbn [imap]. rewrite fold_left_app. cbn [fold_left].
  rewrite fold_initWidget_other.
  2:{ apply (Forall_imap_snd (fun e' => id e' <> id e) l2
               (fun i => (length l1 + S i)%nat)), Hl2. }
  set (s1 := fold_left initWidget (imap pair l1) s).
  assert (Hoff : offsetOf s1 (id e) = offsetOf s (id e))
    by apply fold_initWidget_offsetOf.
  unfold initWidget. cbv zeta. cbn [widgetState set_widgetState].
  rewrite lookup_insert_eq. rewrite Nat.add_0_r.
  unfold offsetOf in Hoff at 1. rewrite Hoff. reflexivity.
Qed.

(** X1. [initWidgetState], run on a layout change, keeps every offset; the last
    element of each id gets an entry that points at it, with the offset the
    id had and, as base centre, the centre of the element's rectangle minus
    that offset, each operation a double operation; [getWidgetCenter] then
    returns base centre plus offset.  Ids of no element keep their
    entries, and nothing but [widgetState] changes. *)
Theorem initWidgetState_keeps_offsets (dom : Dom) (s : State)
  (l1 l2 : list Element) (e : Element) :
  widgetElements dom = l1 ++ e :: l2 ->
  Forall (fun e' => id e' <> id e) l2 ->
  (exists st,
     widgetState (initWidgetState dom s) !! id e = Some st
     /\ widgetElements dom !! el st = Some e
     /\ offset st = offsetOf s (id e)
     /\ baseCenter st
        = mkPoint (centerX (getRect e) - px (offsetOf s (id e)))%float
                  (centerY (getRect e) - py (offsetOf s (id e)))%float
     /\ getWidgetCenter (initWidgetState dom s) (id e)
        = Some (mkPoint (centerX (getRect e) - px (offsetOf s (id e))
                         + px (offsetOf s (id e)))%float
                        (centerY (getRect e) - py (offsetOf s (id e))
                         + py (offsetOf s (id e)))%float))
  /\ (forall w, offsetOf (initWidgetState dom s) w = offsetOf s w)
  /\ (forall w, Forall (fun e' => id e' <> w) (widgetElements dom) ->
        widgetState (initWidgetState dom s) !! w = widgetState s !! w)
  /\ exists m, initWidgetState dom s = set_widgetState m s.
Proof.
  intros Hl Hl2. split; [|split; [|split]].
  - eexists. split; [apply (initWidgetState_last dom s l1 l2 e Hl Hl2)|].
    cbn [el offset baseCenter px py getRect centerX centerY].
    split; [rewrite Hl; now apply list_lookup_middle|].
    split; [reflexivity|]. split; [reflexivity|].
    unfold getWidgetCenter.
    now rewrite (initWidgetState_last dom s l1 l2 e Hl Hl2).
  - intros w. apply fold_initWidget_offsetOf.
  - intros w Hw. unfold initWidgetState. apply fold_initWidget_other.
    apply (Forall_imap_snd (fun e' => id e' <> w) _ (fun i => i)), Hw.
  - apply widgetsOnly_initWidgetState.
Qed.

Lemma initWidgetState_keeps_offsets_witness :
  (exists st,
     widgetState (initWidgetState domDrift stateDrift) !! "a" = Some st
     /\ widgetElements domDrift !! el st = Some elDrift
     /\ offset st = mkPoint 250 0
     /\ baseCenter st = mkPoint (-149.7) 100
     /\ centerX (getRect elDrift) = 100.3%float
     /\ getWidgetCenter (initWidgetState domDrift stateDrift) "a"
        = Some (mkPoint 100.30000000000001 100))
  /\ (forall w, offsetOf (initWidgetState domDrift stateDrift) w
                = offsetOf stateDrift w)
  /\ (forall w, Forall (fun e' => id e' <> w) (widgetElements domDrift) ->
        widgetState (initWidgetState domDrift stateDrift) !! w
        = widgetState stateDrift !! w)
  /\ exists m, initWidgetState domDrift stateDrift
               = set_widgetState m stateDrift.
Proof.
  destruct (initWidgetState_keeps_offsets domDrift stateDrift [] [elB] elDrift)
    as ((st & H1 & H2 & H3 & H4 & H5) & H6).
  - reflexivity.
  - repeat constructor. discriminate.
  - split; [|exact H6]. exists st.
    split; [exact H1|]. split; [exact H2|].
    split; [rewrite H3; reflexivity|]. split; [rewrite H4; reflexivity|].
    split; [reflexivity | exact (eq_trans H5 eq_refl)].
Defined.

(** X2. In edit mode, for an id with an entry, [setWidgetPosition] stores
    the given point minus the base centre as the offset, each operation a
    double operation, so that [getWidgetCenter] returns base centre plus
    that difference; the base centre and the element of the entry stay, no
    other entry is touched and nothing but [widgetState] changes.  Outside
    edit mode it changes nothing, whatever the id. *)
Theorem setWidgetPosition_centres (wid : string) (x y : float) (s : State)
  (st : WidgetState) :
  widgetState s !! wid = Some st -> editMode s = true ->
  (exists st',
     widgetState (setWidgetPosition wid x y s) !! wid = Some st'
     /\ baseCenter st' = baseCenter st /\ el st' = el st
     /\ offset st' = mkPoint (x - px (baseCenter st))%float
                             (y - py (baseCenter st))%float
     /\ getWidgetCenter (setWidgetPosition wid x y s) wid
        = Some (mkPoint (px (baseCenter st) + (x - px (baseCenter st)))%float
                        (py (baseCenter st) + (y - py (baseCenter st)))%float))
  /\ (forall w, w <> wid ->
        widgetState (setWidgetPosition wid x y s) !! w = widgetState s !! w)
  /\ (exists m, setWidgetPosition wid x y s = set_widgetState m s)
  /\ (forall w s0, editMode s0 = false -> setWidgetPosition w x y s0 = s0).
Proof.
  intros Hst Hedit.
  assert (E : setWidgetPosition wid x y s
              = set_widgetState
                  (<[wid := mkWidgetState (el st) (baseCenter st)
                              (mkPoint (x - px (baseCenter st))%float
                                       (y - py (baseCenter st))%float)]>
                     (widgetState s)) s).
  { unfold setWidgetPosition. now rewrite Hst, Hedit. }
  split; [|split; [|split]].
  - eexists. unfold getWidgetCenter. rewrite E.
    cbn [widgetState set_widgetState]. rewrite lookup_insert_eq.
    split; [reflexivity|]. cbn [baseCenter el offset px py]. auto.
  - intros w Hw. rewrite E. cbn [widgetState set_widgetState].
    now rewrite lookup_insert_ne.
  - rewrite E. eauto.
  - intros w s0 H. unfold setWidgetPosition. rewrite H.
    now destruct (widgetState s0 !! w).
Qed.

Lemma setWidgetPosition_centres_witness :
  (exists st',
     widgetState (setWidgetPosition "a" 6.3 120 stateAB) !! "a" = Some st'
     /\ baseCenter st' = mkPoint 100 100 /\ el st' = 0%nat
     /\ offset st' = mkPoint (-93.7) 20
     /\ getWidgetCenter (setWidgetPosition "a" 6.3 120 stateAB) "a"
        = Some (mkPoint 6.299999999999997 120))
  /\ (forall w, w <> "a" ->
        widgetState (setWidgetPosition "a" 6.3 120 stateAB) !! w
        = widgetState stateAB !! w)
  /\ (exists m, setWidgetPosition "a" 6.3 120 stateAB
                = set_widgetState m stateAB)
  /\ (forall w s0, editMode s0 = false ->
        setWidgetPosition w 6.3 120 s0 = s0).
Proof.
  apply (setWidgetPosition_centres "a" 6.3 120 stateAB stA); reflexivity.
Defined.

Lemma last_with_id (l : list Element) (w : string) :
  Exists (fun e => id e = w) l ->
  exists l1 e l2, l = l1 ++ e :: l2 /\ id e = w
                  /\ Forall (fun e' => id e' <> w) l2.
Proof.
  intros Hsome. induction l as [|e l IH] using rev_ind.
  - inversion Hsome.
  - destruct (decide (id e = w)) as [Heq | Hne].
    + exists l, e, []. auto.
    + apply Exists_app in Hsome as [Hs | Hs].
      * destruct (IH Hs) as (l1 & e' & l2 & -> & He' & Hl2).
        exists l1, e', (l2 ++ [e]). rewrite <- app_assoc.
        repeat split; auto. apply Forall_app. auto.
      * inversion Hs as [? ? Hd | ? ? Hd]; [contradiction | inversion Hd].
Qed.

(** After [resetPanels] every entry has the offset (0, 0), and no entry is
    lost. *)
Lemma resetPanels_origin (dom : Dom) (s : State) :
  (forall w st, widgetState (resetPanels dom s) !! w = Some st ->
                offset st = origin)
  /\ (forall w, is_Some (widgetState s !! w) ->
                is_Some (widgetState (resetPanels dom s) !! w)).
Proof.
  set (s0 := set_widgetState
               ((fun st => mkWidgetState (el st) (baseCenter st) origin)
                  <$> widgetState s) s).
  assert (E : resetPanels dom s = initWidgetState dom s0) by reflexivity.
  assert (Hoff : forall w, offsetOf (resetPanels dom s) w = origin).
  { intros w. rewrite E. unfold initWidgetState.
    rewrite fold_initWidget_offsetOf. unfold offsetOf, s0.
    cbn [widgetState set_widgetState].
    rewrite lookup_fmap. now destruct (widgetState s !! w). }
  split.
  - intros w st Hst. specialize (Hoff w). unfold offsetOf in Hoff.
    now rewrite Hst in Hoff.
  - intros w [st Hst].
    destruct (decide (Forall (fun e' => id e' <> w) (widgetElements dom)))
      as [Hno | Hsome].
    + rewrite E. unfold initWidgetState. rewrite fold_initWidget_other.
      * unfold s0. cbn [widgetState set_widgetState].
        rewrite lookup_fmap, Hst. now eexists.
      * apply (Forall_imap_snd (fun e' => id e' <> w) _ (fun i => i)), Hno.
    + apply not_Forall_Exists in Hsome; [|intros e'; apply _].
      assert (Hex : Exists (fun e => id e = w) (widgetElements dom)).
      { eapply Exists_impl; [exact Hsome|]. intros e' He'.
        destruct (decide (id e' = w)); [assumption | contradiction]. }
      destruct (last_with_id _ _ Hex) as (l1 & e & l2 & Hl & <- & Hl2).
      rewrite E, (initWidgetState_last dom s0 l1 l2 e Hl Hl2). now eexists.
Qed.

(** X3. [resetPanels] leaves every known widget with the offset (0, 0): no
    entry is lost, and the last element of each id gets the centre of its
    rectangle, minus zero, as base centre.  Nothing but [widgetState]
    changes. *)
Theorem resetPanels_clears_offsets (dom : Dom) (s : State) :
  (forall w st, widgetState (resetPanels dom s) !! w = Some st ->
                offset st = origin)
  /\ (forall w, is_Some (widgetState s !! w) ->
                is_Some (widgetState (resetPanels dom s) !! w))
  /\ (forall l1 e l2,
        widgetElements dom = l1 ++ e :: l2 ->
        Forall (fun e' => id e' <> id e) l2 ->
        exists st,
          widgetState (resetPanels dom s) !! id e = Some st
          /\ widgetElements dom !! el st = Some e
          /\ offset st = origin
          /\ baseCenter st = mkPoint (centerX (getRect e) - 0)%float
                                     (centerY (getRect e) - 0)%float)
  /\ exists m, resetPanels dom s = set_widgetState m s.
Proof.
  set (s0 := set_widgetState
               ((fun st => mkWidgetState (el st) (baseCenter st) origin)
                  <$> widgetState s) s).
  assert (E : resetPanels dom s = initWidgetState dom s0) by reflexivity.
  assert (H0 : forall w, offsetOf s0 w = origin).
  { intros w. unfold offsetOf, s0. cbn [widgetState set_widgetState].
    rewrite lookup_fmap. now destruct (widgetState s !! w). }
  destruct (resetPanels_origin dom s) as (Ho & Hk).
  split; [exact Ho|]. split; [exact Hk|]. split.
  - intros l1 e l2 Hl Hl2.
    eexists. rewrite E.
    split; [apply (initWidgetState_last dom s0 l1 l2 e Hl Hl2)|].
    cbn [el offset baseCenter px py getRect centerX centerY].
    split; [rewrite Hl; now apply list_lookup_middle|].
    rewrite (H0 (id e)). cbn [origin px py]. split; reflexivity.
  - apply widgetsOnly_resetPanels.
Qed.


(** ** The swipe cooldown *)

Lemma swipeHand_pass (now : Z) (landmarks : list Point) (s : State) :
  (mode (stateOf (swipeHand now landmarks s)) = mode s
   /\ lastSwipeTime (stateOf (swipeHand now landmarks s)) = lastSwipeTime s)
  \/ (SWIPE_COOLDOWN_MS < now - lastSwipeTime s
      /\ lastSwipeTime (stateOf (swipeHand now landmarks s)) = now).
Proof.
  destruct (landmarks !! 8%nat) as [tip|] eqn:H8;
    [|left; unfold swipeHand; now rewrite H8].
  destruct (swipeStartX s) as [startX|] eqn:Hs;
    [|left; unfold swipeHand; now rewrite H8, Hs].
  destruct (swipeHand_some now landmarks s tip startX H8 Hs)
    as (s1 & -> & [(_ & Hc & _ & _ & Hl) | (Hm & Hl & _)]); cbn [stateOf];
    auto.
Qed.

Lemma forEach_app {A} (f : A -> State -> Result unit) (l1 l2 : list A)
  (s : State) :
  forEach f (l1 ++ l2) s
  = let? (_u, s') := forEach f l1 s in forEach f l2 s'.
Proof.
  revert s. induction l1 as [|a l1 IH]; intros s; cbn [app forEach andThen].
  - reflexivity.
  - destruct (f a s) as [[] s'|s']; cbn [andThen]; [apply IH | reflexivity].
Qed.

Lemma detectSwipes_cooling (now : Z) (hands : list (list Point)) (s : State) :
  now - lastSwipeTime s <= SWIPE_COOLDOWN_MS ->
  mode (stateOf (detectSwipes now hands s)) = mode s
  /\ lastSwipeTime (stateOf (detectSwipes now hands s)) = lastSwipeTime s.
Proof.
  unfold detectSwipes. revert s.
  induction hands as [|lm hands IH]; intros s Hc; cbn [forEach].
  - auto.
  - destruct (swipeHand_pass now lm s) as [[Hm Hl] | [Hlt _]]; [|lia].
    destruct (swipeHand now lm s) as [[] s'|s']; cbn [andThen stateOf] in *;
      [|auto].
    destruct (IH s') as [Hm' Hl']; [now rewrite Hl|].
    now rewrite Hm', Hl', Hm, Hl.
Qed.

Lemma detectSwipes_pass (now : Z) (hands : list (list Point)) (s : State) :
  (mode (stateOf (detectSwipes now hands s)) = mode s
   /\ lastSwipeTime (stateOf (detectSwipes now hands s)) = lastSwipeTime s)
  \/ lastSwipeTime (stateOf (detectSwipes now hands s)) = now.
Proof.
  unfold detectSwipes. revert s.
  induction hands as [|lm hands IH]; intros s; cbn [forEach].
  - now left.
  - destruct (swipeHand_pass now lm s) as [[Hm Hl] | [_ Hl]];
      destruct (swipeHand now lm s) as [[] s'|s'] eqn:E;
      cbn [andThen stateOf] in *; auto.
    + destruct (IH s') as [[Hm' Hl'] | Hl']; [left | now right].
      now rewrite Hm', Hl', Hm, Hl.
    + right.
      destruct (detectSwipes_cooling now hands s') as [_ Hl'].
      { rewrite Hl. unfold SWIPE_COOLDOWN_MS. lia. }
      unfold detectSwipes in Hl'. now rewrite Hl'.
Qed.

Lemma lastSwipeTime_runAction (dom : Dom) (act : string) (s : State) :
  lastSwipeTime (runAction dom act s) = lastSwipeTime s.
Proof.
  unfold runAction.
  set (s1 := if String.eqb act "reset" then resetPanels dom s else s).
  assert (H1 : lastSwipeTime s1 = lastSwipeTime s).
  { subst s1. destruct (String.eqb act "reset"); [|reflexivity].
    now destruct (widgetsOnly_resetPanels dom s) as [m ->]. }
  set (s2 := if String.eqb act "toggle-edit"
             then setEditMode (negb (editMode s1)) s1 else s1).
  assert (H2 : lastSwipeTime s2 = lastSwipeTime s).
  { subst s2. destruct (String.eqb act "toggle-edit"); [|exact H1].
    unfold setEditMode. now destruct (negb (editMode s1)). }
  destruct (String.eqb act "shutter"); [|exact H2].
  unfold triggerShutter. destruct (mode s2); [exact H2|].
  destruct (isCountingDown s2); exact H2.
Qed.

Lemma lastSwipeTime_processPinch (dom : Dom) (now : Z)
  (landmarks : list Point) (s : State) :
  lastSwipeTime (stateOf (processPinch dom now landmarks s))
  = lastSwipeTime s.
Proof.
  unfold processPinch.
  destruct (landmarks !! 4%nat) as [thumb|]; [|reflexivity].
  destruct (landmarks !! 8%nat) as [index|]; [|reflexivity].
  destruct (landmarks !! 0%nat) as [palm|]; [|reflexivity].
  destruct (landmarks !! 9%nat) as [base|]; [|reflexivity].
  cbv zeta. destruct (isPinching dom thumb index palm base); cbn [negb];
    [|reflexivity].
  destruct (pinchActive s) eqn:Hp; cbn [stateOf].
  - now destruct (widgetsOnly_dragTo (pinchPointMirror dom (mode s) index) s)
      as [m ->].
  - set (s0 := set_pinchMode PinchIdle (set_pinchActive true s)).
    destruct (pressed dom now _ s0) as [btn|]; cbn [stateOf].
    + cbn. now rewrite lastSwipeTime_runAction.
    + destruct (widgetsOnly_dragTo (pinchPointMirror dom (mode s) index)
                  (bindWidget dom (pinchPointMirror dom (mode s) index) s0))
        as [m ->].
      cbn. pose proof (capture_bindWidget dom
                         (pinchPointMirror dom (mode s) index) s0) as H.
      now injection H as _ -> _.
Qed.

Lemma lastSwipeTime_pinchLoop (dom : Dom) (now : Z)
  (hands : list (list Point)) (anyPinch : bool) (s : State) :
  lastSwipeTime (stateOf (pinchLoop dom now hands anyPinch s))
  = lastSwipeTime s.
Proof.
  revert anyPinch s.
  induction hands as [|lm hands IH]; intros anyPinch s; cbn [pinchLoop].
  - reflexivity.
  - pose proof (lastSwipeTime_processPinch dom now lm s) as H.
    destruct (processPinch dom now lm s) as [b s'|s']; cbn [andThen stateOf] in *.
    + now rewrite IH.
    + exact H.
Qed.

(** What a frame does to the mode and to the time of the last switch. *)
Lemma onResults_pass (dom : Dom) (now : Z)
  (hands : option (list (list Point))) (s : State) :
  (mode (stateOf (onResults dom now hands s)) = mode s
   /\ lastSwipeTime (stateOf (onResults dom now hands s)) = lastSwipeTime s)
  \/ (SWIPE_COOLDOWN_MS < now - lastSwipeTime s
      /\ lastSwipeTime (stateOf (onResults dom now hands s)) = now).
Proof.
  apply (onResults_cases
           (fun s' => (mode s' = mode s /\ lastSwipeTime s' = lastSwipeTime s)
                      \/ (SWIPE_COOLDOWN_MS < now - lastSwipeTime s
                          /\ lastSwipeTime s' = now))).
  { now left. }
  intros hs _.
  destruct (pinchLoop_release dom now hs s) as [Hm Hrel].
  pose proof (lastSwipeTime_pinchLoop dom now hs false s) as Hl.
  destruct (pinchLoop dom now hs false s) as [b s1|s1];
    cbn [andThen stateOf] in *; [|now left].
  destruct (Hrel b s1 eq_refl) as [_ Hm2]. cbv zeta.
  pose proof (capture_release dom b s1) as Hcap.
  set (s2 := release dom b s1) in *.
  assert (Hl2 : lastSwipeTime s2 = lastSwipeTime s).
  { injection Hcap as _ -> _. exact Hl. }
  assert (H3 : forall s3,
             stateOf (detectSwipes now hs s2) = s3 ->
             (mode s3 = mode s /\ lastSwipeTime s3 = lastSwipeTime s)
             \/ (SWIPE_COOLDOWN_MS < now - lastSwipeTime s
                 /\ lastSwipeTime s3 = now)).
  { intros s3 <-.
    destruct (Z_le_gt_dec (now - lastSwipeTime s2) SWIPE_COOLDOWN_MS)
      as [Hc | Hc].
    - left. destruct (detectSwipes_cooling now hs s2 Hc) as [-> ->]. auto.
    - destruct (detectSwipes_pass now hs s2) as [[-> ->] | ->]; [now left|].
      right. rewrite <- Hl2. split; [lia | reflexivity]. }
  apply stateOf_andThen.
  - intros s3 E3. apply H3. now rewrite E3.
  - intros [] s3 E3.
    pose proof (session_thumbStage now hs s3) as Hses.
    assert (Hlt : lastSwipeTime
                    (stateOf
                       (if Mode_eqb (mode s3) TryOn && photoReady s3
                           && negb (isCountingDown s3)
                        then detectThumbGestures now hs s3 else Ok tt s3))
                  = lastSwipeTime s3).
    { destruct (_ && _ && _); [|reflexivity].
      unfold detectThumbGestures. destruct (_ <? _)%Z; [reflexivity|].
      clear. induction hs as [|lm hs IH]; cbn [thumbLoop]; [reflexivity|].
      destruct (fingersFolded lm) as [[|]|]; auto.
      destruct (thumbsUp lm) as [[|]|]; auto.
      - cbn [stateOf]. unfold savePhoto. cbn.
        destruct (captureDataUrl s3); [|reflexivity].
        now destruct (_ || _).
      - destruct (thumbsDown lm) as [[|]|]; auto.
        cbn [stateOf]. unfold retakePhoto, triggerShutter. cbn.
        destruct (mode s3); [reflexivity|]. now destruct (isCountingDown s3). }
    apply (f_equal sMode) in Hses. cbn [session sMode] in Hses.
    rewrite Hses, Hlt. apply H3. now rewrite E3.
Qed.

(** X14. Mode switches are rate-limited: a swipe pass, and a whole frame, at a
    time at most 900 ms after the last switch leaves the mode alone; a
    frame that switches the mode records its time; and once a hand of a
    pass has switched the mode the hands after it cannot switch it back. *)
Theorem swipe_cooldown_blocks :
  (forall now hands s,
     now - lastSwipeTime s <= SWIPE_COOLDOWN_MS ->
     mode (stateOf (detectSwipes now hands s)) = mode s)
  /\ (forall dom now hands s,
        now - lastSwipeTime s <= SWIPE_COOLDOWN_MS ->
        mode (step s (Results dom now hands)) = mode s)
  /\ (forall dom now hands s,
        mode (step s (Results dom now hands)) <> mode s ->
        lastSwipeTime (step s (Results dom now hands)) = now)
  /\ (forall now pre post s,
        mode (stateOf (detectSwipes now pre s)) <> mode s ->
        mode (stateOf (detectSwipes now (pre ++ post) s))
        = mode (stateOf (detectSwipes now pre s))).
Proof.
  split; [|split; [|split]].
  - intros now hands s Hc. now apply detectSwipes_cooling.
  - intros dom now hands s Hc. cbn [step].
    destruct (onResults_pass dom now hands s) as [[Hm _] | [Hlt _]];
      [exact Hm | lia].
  - intros dom now hands s Hne. cbn [step] in *.
    destruct (onResults_pass dom now hands s) as [[Hm _] | [_ Hl]];
      [contradiction | exact Hl].
  - intros now pre post s Hne. unfold detectSwipes in *.
    rewrite forEach_app.
    destruct (detectSwipes_pass now pre s) as [[Hm _] | Hl];
      [unfold detectSwipes in Hm; contradiction|].
    unfold detectSwipes in Hl.
    destruct (forEach (swipeHand now) pre s) as [[] s1|s1];
      cbn [andThen stateOf] in *; [|reflexivity].
    apply (detectSwipes_cooling now post s1).
    rewrite Hl. unfold SWIPE_COOLDOWN_MS. lia.
Qed.

(** ** Pinch lifecycles *)

(** X6. A frame without hands ends the pinch session and forgets the swipe in
    progress, without snapping the dragged widget: widgets, cooldowns, mode
    and capture state stay as they are.  An absent hand list is an empty
    one. *)
Theorem no_hands_resets_session (dom : Dom) (now : Z) (s : State) :
  onResults dom now None s = onResults dom now (Some []) s
  /\ exists s',
       onResults dom now (Some []) s = Ok tt s'
       /\ pinchActive s' = false /\ pinchMode s' = PinchNone
       /\ draggingId s' = None
       /\ lastSwipeX s' = None /\ swipeStartX s' = None
       /\ swipeStartTime s' = 0
       /\ widgetState s' = widgetState s
       /\ capture s' = capture s
       /\ fired s' = fired s /\ lastButtonPress s' = lastButtonPress s
       /\ editMode s' = editMode s.
Proof.
  split; [reflexivity|]. eexists. split; [reflexivity|]. repeat split.
Qed.

(** The contrast with a release: the widget dragged to the offset (150, 0)
    stays there when the hands disappear, and is snapped to (208, 0) when a
    hand is seen that does not pinch. *)
Example hands_lost_run :
  widgetState (stateOf (onResults domAB 0 None draggingAB)) !! "a"
  = Some (mkWidgetState 0 (mkPoint 100 100) (mkPoint 150 0))
  /\ widgetState (stateOf (onResults domAB 0 (Some [handAt 0.5]) draggingAB))
       !! "a"
     = Some (mkWidgetState 0 (mkPoint 100 100) (mkPoint 208 0)).
Proof. split; vm_compute; reflexivity. Qed.

Lemma dragTo_not_dragging (point : Point) (s : State) :
  pinchMode s <> PinchDrag -> dragTo point s = s.
Proof.
  intros H. unfold dragTo.
  destruct (pinchMode s); try reflexivity. contradiction.
Qed.

(** X10. While the session is active in a mode other than drag (it started on a
    button or on nothing), a pinching hand changes nothing at all, and a
    frame does not touch the widgets. *)
Theorem idle_pinch_does_nothing (dom : Dom) (now : Z)
  (landmarks : list Point) (s : State) :
  pinchActive s = true -> pinchMode s <> PinchDrag ->
  stateOf (processPinch dom now landmarks s) = s
  /\ forall hands anyPinch,
       stateOf (pinchLoop dom now hands anyPinch s) = s.
Proof.
  intros Hp Hm.
  assert (H : forall lm, stateOf (processPinch dom now lm s) = s).
  { intros lm. unfold processPinch.
    destruct (lm !! 4%nat) as [thumb|]; [|reflexivity].
    destruct (lm !! 8%nat) as [index|]; [|reflexivity].
    destruct (lm !! 0%nat) as [palm|]; [|reflexivity].
    destruct (lm !! 9%nat) as [base|]; [|reflexivity].
    cbv zeta. destruct (isPinching dom thumb index palm base); cbn [negb];
      [|reflexivity].
    rewrite Hp. cbn [stateOf]. now apply dragTo_not_dragging. }
  split; [apply H|].
  induction hands as [|lm hands IH]; intros anyPinch; cbn [pinchLoop].
  - reflexivity.
  - specialize (H lm).
    destruct (processPinch dom now lm s) as [b s'|s']; cbn [andThen stateOf] in *.
    + subst s'. apply IH.
    + exact H.
Qed.

Lemma idle_pinch_does_nothing_witness :
  stateOf (processPinch domAB 0 pinchAtA
             (set_pinchMode PinchButton (set_pinchActive true stateAB)))
  = set_pinchMode PinchButton (set_pinchActive true stateAB)
  /\ forall hands anyPinch,
       stateOf (pinchLoop domAB 0 hands anyPinch
                  (set_pinchMode PinchButton (set_pinchActive true stateAB)))
       = set_pinchMode PinchButton (set_pinchActive true stateAB).
Proof.
  apply (idle_pinch_does_nothing domAB 0 pinchAtA
           (set_pinchMode PinchButton (set_pinchActive true stateAB)));
    [reflexivity | discriminate].
Defined.

(** X9. A pinch start that presses a button is consumed by the button: the
    state it leaves is the one [runAction] returns for the button's action,
    run on the state with the session just opened, with the cooldown
    restarted and the session in button mode; no widget is bound, whatever
    lies under the pointer.  So a pinch on reset leaves every widget with
    the offset (0, 0), a pinch on the edit toggle flips edit mode (and
    drops the drag binding when it switches it off), a pinch on the shutter
    in Try-On mode with no countdown running starts the countdown at 3, and
    an action the script does not know changes nothing but the session. *)
Theorem button_press_consumes_pinch (dom : Dom) (now : Z)
  (landmarks : list Point) (s : State) (thumb index palm base : Point)
  (btn : Button) :
  landmarks !! 4%nat = Some thumb -> landmarks !! 8%nat = Some index ->
  landmarks !! 0%nat = Some palm -> landmarks !! 9%nat = Some base ->
  isPinching dom thumb index palm base = true ->
  pinchActive s = false ->
  hitTestButtons dom (pinchPointUI dom (mode s) index) = Some btn ->
  BUTTON_COOLDOWN_MS < now - lastButtonPress s ->
  exists s',
    processPinch dom now landmarks s = Ok true s'
    /\ s' = set_pinchMode PinchButton
              (set_lastButtonPress now
                 (set_fired ((now, action btn) :: fired s)
                    (runAction dom (action btn)
                       (set_pinchMode PinchIdle (set_pinchActive true s)))))
    /\ pinchActive s' = true /\ pinchMode s' = PinchButton
    /\ lastButtonPress s' = now
    /\ (draggingId s' = draggingId s \/ draggingId s' = None)
    /\ buttonHit (pinchPointUI dom (mode s) index) btn = true
    /\ notInteractable (styles btn) = false
    /\ (action btn = "reset" ->
        (forall w st, widgetState s' !! w = Some st -> offset st = origin)
        /\ (forall w, is_Some (widgetState s !! w) ->
                      is_Some (widgetState s' !! w))
        /\ editMode s' = editMode s /\ draggingId s' = draggingId s)
    /\ (action btn = "toggle-edit" ->
        editMode s' = negb (editMode s)
        /\ widgetState s' = widgetState s
        /\ (editMode s = true -> draggingId s' = None)
        /\ (editMode s = false -> draggingId s' = draggingId s))
    /\ (action btn = "shutter" ->
        widgetState s' = widgetState s
        /\ editMode s' = editMode s
        /\ (mode s = TryOn -> isCountingDown s = false ->
            isCountingDown s' = true /\ countdownText s' = 3
            /\ countdownHidden s' = false /\ photoReady s' = false
            /\ countdownTimer s' = Some (nextHandle s)
            /\ intervals s' = mkInterval (nextHandle s) 3 1000 :: intervals s)
        /\ (mode s = Mirror \/ isCountingDown s = true ->
            capture s' = capture s))
    /\ (action btn <> "reset" -> action btn <> "toggle-edit" ->
        action btn <> "shutter" ->
        s' = set_pinchMode PinchButton
               (set_lastButtonPress now
                  (set_fired ((now, action btn) :: fired s)
                     (set_pinchActive true s)))).
Proof.
  intros H4 H8 H0 H9 Hpinch Hp Hhit Hcool.
  set (s0 := set_pinchMode PinchIdle (set_pinchActive true s)).
  assert (Hpress : pressed dom now (pinchPointUI dom (mode s) index) s0
                   = Some btn).
  { unfold pressed. rewrite Hhit. cbn.
    now destruct (Z.ltb_spec BUTTON_COOLDOWN_MS (now - lastButtonPress s));
      [|lia]. }
  eexists. split.
  { unfold processPinch. rewrite H4, H8, H0, H9. cbv zeta.
    rewrite Hpinch, Hp. cbn [negb]. fold s0. rewrite Hpress. reflexivity. }
  destruct (session_runAction dom (action btn) s0) as (d & e & Hs & Hd).
  apply session_same in Hs as (Hd' & Hpa & Hl & Hf & _).
  split; [now rewrite Hf|].
  cbn [pinchActive pinchMode lastButtonPress fired draggingId widgetState
       editMode mode isCountingDown countdownText countdownHidden photoReady
       countdownTimer intervals
       set_pinchMode set_lastButtonPress set_fired].
  split; [exact Hpa|]. split; [reflexivity|]. split; [reflexivity|].
  split; [rewrite Hd'; exact Hd|].
  assert (Hb : buttonHit (pinchPointUI dom (mode s) index) btn = true).
  { unfold hitTestButtons in Hhit. apply find_first in Hhit.
    now destruct Hhit as (l1 & l2 & _ & Hb & _). }
  split; [exact Hb|].
  split; [unfold buttonHit in Hb; now destruct (notInteractable (styles btn))|].
  split; [|split; [|split]].
  - intros ->. unfold runAction. cbn [String.eqb Ascii.eqb Bool.eqb andb].
    destruct (resetPanels_origin dom s0) as (Ho & Hk).
    destruct (widgetsOnly_resetPanels dom s0) as [m Hm].
    split; [exact Ho|]. split; [exact Hk|]. rewrite Hm. split; reflexivity.
  - intros ->. unfold runAction. cbn [String.eqb Ascii.eqb Bool.eqb andb].
    unfold setEditMode. cbn [editMode set_editMode s0 set_pinchMode
      set_pinchActive].
    destruct (editMode s); cbn [negb]; repeat split; auto; discriminate.
  - intros ->. unfold runAction. cbn [String.eqb Ascii.eqb Bool.eqb andb].
    unfold triggerShutter. cbn [mode isCountingDown s0 set_pinchMode
      set_pinchActive].
    destruct (mode s) eqn:Hm.
    + repeat split; auto; discriminate.
    + destruct (isCountingDown s) eqn:Hc.
      * repeat split; auto; discriminate.
      * repeat split; auto. intros [? | ?]; discriminate.
  - intros Hr Ht Hsh. unfold runAction.
    destruct (String.eqb_spec (action btn) "reset"); [contradiction|].
    destruct (String.eqb_spec (action btn) "toggle-edit"); [contradiction|].
    destruct (String.eqb_spec (action btn) "shutter"); [contradiction|].
    reflexivity.
Qed.

Lemma button_press_consumes_pinch_witness :
  offsetOf stateAB "a" = mkPoint 150 0
  /\ exists s',
       processPinch domBtn 5000 pinchAtButton stateAB = Ok true s'
       /\ pinchMode s' = PinchButton /\ lastButtonPress s' = 5000
       /\ draggingId s' = None
       /\ offsetOf s' "a" = origin /\ offsetOf s' "b" = origin
       /\ fired s' = [(5000, "reset")].
Proof.
  split; [reflexivity|].
  destruct (button_press_consumes_pinch domBtn 5000 pinchAtButton stateAB
              (mkPoint 0.94 0.02) (mkPoint 0.95 0.02)
              (mkPoint 0.5 0.9) (mkPoint 0.6 0.9) resetBtn)
    as (s' & Hrun & Hs' & _); try reflexivity.
  exists s'. split; [exact Hrun|]. rewrite Hs'. repeat split.
Defined.

(** X7. A pinch start in edit mode, in Mirror mode, that presses no button and
    whose pointer is over a widget binds the drag to that widget and moves
    it at once: the widget's offset becomes the pointer minus its base
    centre, each operation a double operation, the pointer being the index
    tip mirrored and mapped into the mirror rectangle.  No other widget is
    touched and nothing is fired. *)
Theorem pinch_start_binds_and_moves (dom : Dom) (now : Z)
  (landmarks : list Point) (s : State) (thumb index palm base : Point)
  (wid : string) (st : WidgetState) :
  landmarks !! 4%nat = Some thumb -> landmarks !! 8%nat = Some index ->
  landmarks !! 0%nat = Some palm -> landmarks !! 9%nat = Some base ->
  isPinching dom thumb index palm base = true ->
  pinchActive s = false -> editMode s = true -> mode s = Mirror ->
  pressed dom now (pinchPointUI dom Mirror index) s = None ->
  widgetUnderPoint dom (pinchPointMirror dom Mirror index) = Some wid ->
  wid <> "" -> widgetState s !! wid = Some st ->
  let x := (left_ (mirrorRect dom)
            + (1 - px index) * width_ (mirrorRect dom))%float in
  let y := (top_ (mirrorRect dom)
            + py index * height_ (mirrorRect dom))%float in
  exists s',
    processPinch dom now landmarks s = Ok true s'
    /\ s' = set_widgetState
              (<[wid := mkWidgetState (el st) (baseCenter st)
                          (mkPoint (x - px (baseCenter st))%float
                                   (y - py (baseCenter st))%float)]>
                 (widgetState s))
              (set_pinchMode PinchDrag
                 (set_draggingId (Some wid) (set_pinchActive true s)))
    /\ pinchActive s' = true /\ pinchMode s' = PinchDrag
    /\ draggingId s' = Some wid
    /\ offsetOf s' wid = mkPoint (x - px (baseCenter st))%float
                                 (y - py (baseCenter st))%float
    /\ (forall w, w <> wid -> widgetState s' !! w = widgetState s !! w)
    /\ fired s' = fired s /\ lastButtonPress s' = lastButtonPress s
    /\ capture s' = capture s.
Proof.
  intros H4 H8 H0 H9 Hpinch Hp Hedit Hmode Hpress Hunder Hwid Hst x y.
  set (pt := pinchPointMirror dom Mirror index).
  set (s0 := set_pinchMode PinchIdle (set_pinchActive true s)).
  set (s1 := set_pinchMode PinchDrag (set_draggingId (Some wid) s0)).
  assert (Hbind : bindWidget dom pt s0 = s1).
  { unfold bindWidget. change (editMode s0) with (editMode s).
    change (mode s0) with (mode s). rewrite Hedit, Hmode. cbn [andb Mode_eqb].
    fold pt in Hunder. rewrite Hunder. cbn [truthy].
    now destruct (String.eqb_spec wid ""). }
  assert (Hdrag : dragTo pt s1
                  = set_widgetState
                      (<[wid := mkWidgetState (el st) (baseCenter st)
                                  (mkPoint (x - px (baseCenter st))%float
                                           (y - py (baseCenter st))%float)]>
                         (widgetState s)) s1).
  { unfold dragTo. cbn [pinchMode draggingId s1 set_pinchMode set_draggingId].
    change (editMode s1) with (editMode s). change (mode s1) with (mode s).
    rewrite Hedit, Hmode. cbn [truthy andb Mode_eqb].
    destruct (String.eqb_spec wid ""); [contradiction|]. cbn [negb].
    unfold setWidgetPosition. change (widgetState s1) with (widgetState s).
    change (editMode s1) with (editMode s). now rewrite Hst, Hedit. }
  eexists. split.
  { unfold processPinch. rewrite H4, H8, H0, H9. cbv zeta.
    rewrite Hpinch, Hp, Hmode. cbn [negb]. fold s0 pt.
    change (pressed dom now (pinchPointUI dom Mirror index) s0)
      with (pressed dom now (pinchPointUI dom Mirror index) s).
    rewrite Hpress, Hbind, Hdrag. reflexivity. }
  split; [reflexivity|].
  unfold offsetOf.
  cbn [widgetState set_widgetState pinchActive pinchMode draggingId fired
       lastButtonPress].
  rewrite lookup_insert_eq. cbn [offset].
  split; [reflexivity|]. split; [reflexivity|]. split; [reflexivity|].
  split; [reflexivity|].
  split; [intros w Hw; now rewrite lookup_insert_ne|].
  repeat split.
Qed.

Lemma pinch_start_binds_and_moves_witness :
  offsetOf stateAB "a" = mkPoint 150 0
  /\ pinchPointMirror domAB Mirror (mkPoint 0.72 0.12)
     = mkPoint 280 120
  /\ exists s',
       processPinch domAB 0 pinchInA stateAB = Ok true s'
       /\ pinchMode s' = PinchDrag /\ draggingId s' = Some "a"
       /\ offsetOf s' "a" = mkPoint 180 20
       /\ offsetOf s' "b" = offsetOf stateAB "b".
Proof.
  split; [reflexivity|]. split; [reflexivity|].
  destruct (pinch_start_binds_and_moves domAB 0 pinchInA stateAB
              (mkPoint 0.71 0.12) (mkPoint 0.72 0.12)
              (mkPoint 0.5 0.9) (mkPoint 0.6 0.9) "a" stA)
    as (s' & Hrun & Hs' & _); try reflexivity; [discriminate|].
  exists s'. split; [exact Hrun|]. rewrite Hs'. repeat split.
Defined.

(** X8. While a widget is being dragged, a pinching hand sets the widget's
    offset to that hand's pointer minus the widget's base centre, each
    operation a double operation, and changes nothing else: the binding,
    the session, the cooldowns and the other widgets stay. *)
Theorem drag_follows_pointer (dom : Dom) (now : Z)
  (landmarks : list Point) (s : State) (thumb index palm base : Point)
  (wid : string) (st : WidgetState) :
  landmarks !! 4%nat = Some thumb -> landmarks !! 8%nat = Some index ->
  landmarks !! 0%nat = Some palm -> landmarks !! 9%nat = Some base ->
  isPinching dom thumb index palm base = true ->
  pinchActive s = true -> pinchMode s = PinchDrag ->
  draggingId s = Some wid -> wid <> "" ->
  editMode s = true -> mode s = Mirror -> widgetState s !! wid = Some st ->
  let x := (left_ (mirrorRect dom)
            + (1 - px index) * width_ (mirrorRect dom))%float in
  let y := (top_ (mirrorRect dom)
            + py index * height_ (mirrorRect dom))%float in
  exists s',
    processPinch dom now landmarks s = Ok true s'
    /\ s' = set_widgetState
              (<[wid := mkWidgetState (el st) (baseCenter st)
                          (mkPoint (x - px (baseCenter st))%float
                                   (y - py (baseCenter st))%float)]>
                 (widgetState s)) s
    /\ offsetOf s' wid = mkPoint (x - px (baseCenter st))%float
                                 (y - py (baseCenter st))%float
    /\ (forall w, w <> wid -> widgetState s' !! w = widgetState s !! w).
Proof.
  intros H4 H8 H0 H9 Hpinch Hp Hpm Hd Hwid Hedit Hmode Hst x y.
  set (pt := pinchPointMirror dom Mirror index).
  assert (Hdrag : dragTo pt s
                  = set_widgetState
                      (<[wid := mkWidgetState (el st) (baseCenter st)
                                  (mkPoint (x - px (baseCenter st))%float
                                           (y - py (baseCenter st))%float)]>
                         (widgetState s)) s).
  { unfold dragTo. rewrite Hpm, Hd, Hedit, Hmode. cbn [truthy andb Mode_eqb].
    destruct (String.eqb_spec wid ""); [contradiction|]. cbn [negb].
    unfold setWidgetPosition. now rewrite Hst, Hedit. }
  eexists. split.
  { unfold processPinch. rewrite H4, H8, H0, H9. cbv zeta.
    rewrite Hpinch, Hp, Hmode. cbn [negb]. fold pt. rewrite Hdrag.
    reflexivity. }
  split; [reflexivity|].
  unfold offsetOf. cbn [widgetState set_widgetState].
  rewrite lookup_insert_eq. cbn [offset].
  split; [reflexivity|]. intros w Hw. now rewrite lookup_insert_ne.
Qed.

Lemma drag_follows_pointer_witness :
  offsetOf draggingAB "a" = mkPoint 150 0
  /\ exists s',
       processPinch domAB 0 pinchInA draggingAB = Ok true s'
       /\ offsetOf s' "a" = mkPoint 180 20
       /\ draggingId s' = Some "a"
       /\ offsetOf s' "b" = offsetOf draggingAB "b".
Proof.
  split; [reflexivity|].
  destruct (drag_follows_pointer domAB 0 pinchInA draggingAB
              (mkPoint 0.71 0.12) (mkPoint 0.72 0.12)
              (mkPoint 0.5 0.9) (mkPoint 0.6 0.9) "a" stA)
    as (s' & Hrun & Hs' & _); try reflexivity; [discriminate|].
  exists s'. split; [exact Hrun|]. rewrite Hs'. repeat split.
Defined.

(** ** Mode switches *)

(** X13. Switching the mode cancels the capture flow: no countdown, no live
    timer (so a late tick of the cancelled timer does nothing), no photo and
    no swipe in progress are left.  Entering Try-On also switches edit mode
    off and drops the drag binding; entering Mirror keeps both.  Widgets,
    the pinch session flag and the button cooldown stay, and setting the
    current mode changes nothing. *)
Theorem setMode_cancels_capture (next : Mode) (s : State) :
  mode s <> next -> captureInv s ->
  mode (setMode next s) = next
  /\ isCountingDown (setMode next s) = false
  /\ photoReady (setMode next s) = false
  /\ captureDataUrl (setMode next s) = None
  /\ countdownTimer (setMode next s) = None
  /\ intervals (setMode next s) = []
  /\ countdownHidden (setMode next s) = true
  /\ (forall dom h, countdownTick dom h (setMode next s) = setMode next s)
  /\ lastSwipeX (setMode next s) = None
  /\ swipeStartX (setMode next s) = None
  /\ swipeStartTime (setMode next s) = 0
  /\ widgetState (setMode next s) = widgetState s
  /\ pinchActive (setMode next s) = pinchActive s
  /\ lastButtonPress (setMode next s) = lastButtonPress s
  /\ fired (setMode next s) = fired s
  /\ saved (setMode next s) = saved s
  /\ (next = TryOn ->
      editMode (setMode next s) = false /\ draggingId (setMode next s) = None)
  /\ (next = Mirror ->
      editMode (setMode next s) = editMode s
      /\ draggingId (setMode next s) = draggingId s)
  /\ setMode (mode s) s = s.
Proof.
  intros Hne Hinv.
  assert (Hself : setMode (mode s) s = s).
  { unfold setMode. now destruct (mode s). }
  assert (Hneq : Mode_eqb (mode s) next = false).
  { destruct (mode s), next; try reflexivity; contradiction. }
  assert (Hi : intervals (setMode next s) = []
               /\ isCountingDown (setMode next s) = false).
  { unfold setMode. rewrite Hneq. unfold setEditMode.
    destruct Hinv as [(Hc & Hi & _) | (_ & Hm & _ & _ & h & c & Ht & Hi & _)].
    - destruct next; cbn; destruct (countdownTimer s); cbn; rewrite ?Hi;
        auto.
    - destruct next; [|congruence]. cbn. rewrite Ht. cbn. rewrite Hi. cbn.
      destruct (decide (h ≠ h)) as [?|_]; [contradiction | auto]. }
  destruct Hi as [Hi Hc].
  assert (Htick : forall dom h,
             countdownTick dom h (setMode next s) = setMode next s).
  { intros dom h. unfold countdownTick. now rewrite Hi. }
  split; [apply mode_setMode|]. split; [exact Hc|].
  set (self := setMode (mode s) s) in *.
  revert Hi Htick. clear Hc. unfold setMode. rewrite Hneq. unfold setEditMode.
  destruct next; cbn; destruct (countdownTimer s) eqn:Ht; cbn;
    intros Hi Htick; repeat split; auto; try discriminate.
Qed.

Lemma setMode_cancels_capture_witness :
  mode (setMode Mirror countingState) = Mirror
  /\ isCountingDown (setMode Mirror countingState) = false
  /\ photoReady (setMode Mirror countingState) = false
  /\ captureDataUrl (setMode Mirror countingState) = None
  /\ countdownTimer (setMode Mirror countingState) = None
  /\ intervals (setMode Mirror countingState) = []
  /\ countdownHidden (setMode Mirror countingState) = true
  /\ (forall dom h, countdownTick dom h (setMode Mirror countingState)
                    = setMode Mirror countingState)
  /\ lastSwipeX (setMode Mirror countingState) = None
  /\ swipeStartX (setMode Mirror countingState) = None
  /\ swipeStartTime (setMode Mirror countingState) = 0
  /\ widgetState (setMode Mirror countingState) = widgetState countingState
  /\ pinchActive (setMode Mirror countingState) = pinchActive countingState
  /\ lastButtonPress (setMode Mirror countingState)
     = lastButtonPress countingState
  /\ fired (setMode Mirror countingState) = fired countingState
  /\ saved (setMode Mirror countingState) = saved countingState
  /\ (Mirror = TryOn ->
      editMode (setMode Mirror countingState) = false
      /\ draggingId (setMode Mirror countingState) = None)
  /\ (Mirror = Mirror ->
      editMode (setMode Mirror countingState) = editMode countingState
      /\ draggingId (setMode Mirror countingState) = draggingId countingState)
  /\ setMode (mode countingState) countingState = countingState.
Proof.
  apply (setMode_cancels_capture Mirror countingState).
  - discriminate.
  - apply captureInv_triggerShutter, captureInv_setMode, captureInv_initial.
Defined.

(** ** The nearest widget *)

Lemma nearestLoop_spec (dom : Dom) (s : State) (point : Point)
  (els : list Element) :
  Forall (fun e => is_Some (getWidgetCenter s (id e))) els ->
  forall nid nd, exists r,
    nearestLoop dom s point els nid nd = Some r
    /\ ((r = nid
         /\ forall e' c', In e' els -> getWidgetCenter s (id e') = Some c' ->
              (distance dom c' point <? nd)%float = false)
        \/ exists l1 e l2 c,
             els = l1 ++ e :: l2 /\ r = Some (id e)
             /\ getWidgetCenter s (id e) = Some c
             /\ (distance dom c point <? nd)%float = true
             /\ (forall e' c', In e' l1 ->
                   getWidgetCenter s (id e') = Some c' ->
                   (distance dom c' point <=? distance dom c point)%float
                   = false)
             /\ (forall e' c', In e' l2 ->
                   getWidgetCenter s (id e') = Some c' ->
                   (distance dom c' point <? distance dom c point)%float
                   = false)).
Proof.
  induction 1 as [|e rest [c Hc] _ IH]; intros nid nd; cbn [nearestLoop].
  - exists nid. split; [reflexivity|]. left. split; [reflexivity|].
    intros e' c' [].
  - rewrite Hc. cbv zeta. set (d := distance dom c point).
    destruct (d <? nd)%float eqn:Hn.
    + destruct (IH (Some (id e)) d) as (r & -> & Hr).
      exists r. split; [reflexivity|]. right.
      destruct Hr as [(-> & Hall)
                     | (l1 & e0 & l2 & c0 & -> & -> & Hc0 & Hlt & H1 & H2)].
      * exists [], e, rest, c. repeat split; auto. intros e' c' [].
      * exists (e :: l1), e0, l2, c0. repeat split; auto.
        -- now apply ltb_trans with d.
        -- intros e' c' [<- | Hin] Hc'.
           ++ rewrite Hc in Hc'. injection Hc' as <-. now apply ltb_not_leb.
           ++ now apply (H1 e' c').
    + destruct (IH nid nd) as (r & -> & Hr).
      exists r. split; [reflexivity|].
      destruct Hr as [(-> & Hall)
                     | (l1 & e0 & l2 & c0 & -> & -> & Hc0 & Hlt & H1 & H2)].
      * left. split; [reflexivity|]. intros e' c' [<- | Hin] Hc'.
        -- rewrite Hc in Hc'. now injection Hc' as <-.
        -- now apply (Hall e' c').
      * right. exists (e :: l1), e0, l2, c0. repeat split; auto.
        intros e' c' [<- | Hin] Hc'.
        -- rewrite Hc in Hc'. injection Hc' as <-. fold d.
           destruct (d <=? distance dom c0 point)%float eqn:Hle;
             [|reflexivity].
           rewrite (leb_ltb_trans _ _ _ Hle Hlt) in Hn. discriminate.
        -- now apply (H1 e' c').
Qed.

Lemma nearestLoop_throws (dom : Dom) (s : State) (point : Point)
  (els : list Element) :
  forall nid nd,
    nearestLoop dom s point els nid nd = None
    <-> Exists (fun e => getWidgetCenter s (id e) = None) els.
Proof.
  induction els as [|e rest IH]; intros nid nd; cbn [nearestLoop].
  - split; [discriminate | inversion 1].
  - destruct (getWidgetCenter s (id e)) as [c|] eqn:Hc.
    + cbv zeta. destruct (_ <? nd)%float; rewrite IH;
        (split; [now constructor 2 | inversion 1; [congruence | assumption]]).
    + split; [now constructor 1 | reflexivity].
Qed.

(** X5. [findNearestWidget] throws exactly when an element's id has no entry
    in [widgetState] (the access in [getWidgetCenter] throws).  Otherwise
    it returns null exactly when no element is at a distance below
    [Infinity], in particular when there is no element, and else the id of
    the first element at the smallest distance: its distance is below
    [Infinity], no element before it is at that distance or nearer, and no
    element after it is nearer, the distances being the doubles that
    [Math.hypot] returns and the comparisons those of doubles.  It never
    changes the state. *)
Theorem findNearestWidget_nearest (dom : Dom) (s : State) (point : Point) :
  (findNearestWidget dom s point = Throw s
   <-> Exists (fun e => getWidgetCenter s (id e) = None)
              (widgetElements dom))
  /\ (findNearestWidget dom s point = Ok None s
      <-> Forall (fun e => exists c,
                    getWidgetCenter s (id e) = Some c
                    /\ (distance dom c point <? infinity)%float = false)
                 (widgetElements dom))
  /\ (forall r s', findNearestWidget dom s point = Ok (Some r) s' ->
        s' = s
        /\ exists l1 e l2 c,
             widgetElements dom = l1 ++ e :: l2 /\ id e = r
             /\ getWidgetCenter s r = Some c
             /\ (distance dom c point <? infinity)%float = true
             /\ (forall e' c', In e' l1 ->
                   getWidgetCenter s (id e') = Some c' ->
                   (distance dom c' point <=? distance dom c point)%float
                   = false)
             /\ (forall e' c', In e' l2 ->
                   getWidgetCenter s (id e') = Some c' ->
                   (distance dom c' point <? distance dom c point)%float
                   = false))
  /\ stateOf (findNearestWidget dom s point) = s.
Proof.
  unfold findNearestWidget.
  pose proof (nearestLoop_throws dom s point (widgetElements dom) None
                infinity) as Hthrow.
  destruct (nearestLoop dom s point (widgetElements dom) None infinity)
    as [r|] eqn:E.
  - assert (Hall : Forall (fun e => is_Some (getWidgetCenter s (id e)))
                          (widgetElements dom)).
    { apply Forall_forall. intros e He.
      destruct (getWidgetCenter s (id e)) eqn:Hc; [now eexists|].
      exfalso. assert (Hex : Exists (fun e => getWidgetCenter s (id e) = None)
                                    (widgetElements dom))
        by (apply Exists_exists; eauto).
      apply Hthrow in Hex. discriminate. }
    destruct (nearestLoop_spec dom s point _ Hall None infinity)
      as (r' & E' & Hr).
    rewrite E in E'. injection E' as <-.
    split; [|split; [|split]].
    + split; [discriminate|]. intros Hex. apply Hthrow in Hex. discriminate.
    + split.
      * intros [= ->].
        destruct Hr as [(_ & Hnone) | (l1 & e & l2 & c & _ & Hr & _)];
          [|discriminate].
        apply Forall_forall. intros e He.
        rewrite Forall_forall in Hall. destruct (Hall e He) as [c Hc].
        exists c. split; [exact Hc|].
        apply (Hnone e c); [now apply list_elem_of_In | exact Hc].
      * intros Hfar.
        destruct Hr as [(-> & _) | (l1 & e & l2 & c & Hl & _ & Hc & Hlt & _)];
          [reflexivity|].
        rewrite Forall_forall in Hfar.
        destruct (Hfar e) as (c' & Hc' & Hno).
        { rewrite Hl. apply list_elem_of_In, in_elt. }
        rewrite Hc in Hc'. injection Hc' as <-. congruence.
    + intros r0 s' [= -> <-]. split; [reflexivity|].
      destruct Hr as [(Hr & _) | (l1 & e & l2 & c & Hl & Hr & Hc & Hlt & H1 & H2)];
        [discriminate|].
      injection Hr as ->. exists l1, e, l2, c. repeat split; auto.
    + reflexivity.
  - split; [|split; [|split]].
    + split; [intros _; now apply Hthrow | reflexivity].
    + split; [discriminate|]. intros Hfar. exfalso.
      assert (Hex : Exists (fun e => getWidgetCenter s (id e) = None)
                           (widgetElements dom)) by now apply Hthrow.
      apply Exists_exists in Hex as (e & He & Hc).
      rewrite Forall_forall in Hfar. destruct (Hfar e He) as (c & Hc' & _).
      congruence.
    + discriminate.
    + reflexivity.
Qed.

(** The point (240, 120) is nearest to the centre of [a], which is at
    (250, 100); with an element that was never initialised the search
    throws; without elements, and with a point infinitely far, the result
    is null. *)
Example findNearestWidget_run :
  findNearestWidget domAB stateAB (mkPoint 240 120) = Ok (Some "a") stateAB
  /\ findNearestWidget domAB stateAB (mkPoint 300 300) = Ok (Some "b") stateAB
  /\ findNearestWidget domAB initial (mkPoint 240 120) = Throw initial
  /\ findNearestWidget dom0 initial (mkPoint 240 120) = Ok None initial
  /\ findNearestWidget domAB stateAB (mkPoint infinity 0) = Ok None stateAB.
Proof. split; [|split; [|split; [|split]]]; vm_compute; reflexivity. Qed.

(** ** The pinch session over all events *)

Lemma sessionInv_binding (s s' : State) :
  binding s' = binding s -> sessionInv s -> sessionInv s'.
Proof.
  unfold binding, sessionInv. intros [= -> -> -> -> ->]. auto.
Qed.

Lemma widgetsOnly_binding (f : State -> State) (s : State) :
  widgetsOnly f -> binding (f s) = binding s.
Proof. intros H. now destruct (H s) as [m ->]. Qed.

Lemma binding_triggerShutter (s : State) :
  binding (triggerShutter s) = binding s.
Proof.
  unfold triggerShutter. destruct (mode s) eqn:E; [reflexivity|].
  destruct (isCountingDown s); [reflexivity|].
  unfold binding. cbn. now rewrite E.
Qed.

Lemma sessionInv_setEditMode (on : bool) (s : State) :
  sessionInv s -> sessionInv (setEditMode on s).
Proof.
  intros [H1 H2]. unfold setEditMode, sessionInv. destruct on; cbn.
  - split; [exact H1|]. intros wid Hw.
    destruct (H2 wid Hw) as (? & ? & _ & ? & ?). auto.
  - split; [exact H1|]. discriminate.
Qed.

Lemma sessionInv_runAction (dom : Dom) (act : string) (s : State) :
  sessionInv s -> sessionInv (runAction dom act s).
Proof.
  intros H. unfold runAction.
  set (s1 := if String.eqb act "reset" then resetPanels dom s else s).
  assert (H1 : sessionInv s1).
  { subst s1. destruct (String.eqb act "reset"); [|exact H].
    apply (sessionInv_binding s); [|exact H].
    apply widgetsOnly_binding, widgetsOnly_resetPanels. }
  set (s2 := if String.eqb act "toggle-edit"
             then setEditMode (negb (editMode s1)) s1 else s1).
  assert (H2 : sessionInv s2).
  { subst s2. destruct (String.eqb act "toggle-edit"); [|exact H1].
    now apply sessionInv_setEditMode. }
  destruct (String.eqb act "shutter"); [|exact H2].
  apply (sessionInv_binding s2); [apply binding_triggerShutter | exact H2].
Qed.

Lemma sessionInv_setMode (next : Mode) (s : State) :
  sessionInv s -> sessionInv (setMode next s).
Proof.
  intros [H1 H2]. unfold setMode.
  destruct (Mode_eqb (mode s) next) eqn:E; [now split|].
  unfold sessionInv, setEditMode.
  destruct next; cbn; destruct (countdownTimer s); cbn;
    (split; [exact H1|]); try discriminate;
    intros wid Hw; destruct (H2 wid Hw) as (_ & _ & _ & Hm & _);
    rewrite Hm in E; discriminate.
Qed.

Lemma sessionInv_bindWidget (dom : Dom) (point : Point) (s : State) :
  pinchActive s = true -> pinchMode s = PinchIdle -> draggingId s = None ->
  sessionInv (bindWidget dom point s).
Proof.
  intros Hp Hm Hd. unfold bindWidget, sessionInv.
  destruct (editMode s) eqn:He; cbn [andb];
    [|rewrite Hp, Hm, Hd; split; [split; discriminate | discriminate]].
  destruct (mode s) eqn:Hmo; cbn [Mode_eqb];
    [|rewrite Hp, Hm, Hd; split; [split; discriminate | discriminate]].
  destruct (widgetUnderPoint dom point) as [wid|]; cbn [truthy].
  - destruct (String.eqb_spec wid ""); cbn [negb]; cbn.
    + rewrite Hp, Hd. split; [split; discriminate | discriminate].
    + rewrite Hp, He, Hmo. split; [split; discriminate|].
      intros w [= <-]. auto.
  - cbn. rewrite Hp, Hd. split; [split; discriminate | discriminate].
Qed.

Lemma sessionInv_processPinch (dom : Dom) (now : Z) (landmarks : list Point)
  (s : State) :
  sessionInv s -> sessionInv (stateOf (processPinch dom now landmarks s)).
Proof.
  intros H. unfold processPinch.
  destruct (landmarks !! 4%nat) as [thumb|]; [|exact H].
  destruct (landmarks !! 8%nat) as [index|]; [|exact H].
  destruct (landmarks !! 0%nat) as [palm|]; [|exact H].
  destruct (landmarks !! 9%nat) as [base|]; [|exact H].
  cbv zeta. destruct (isPinching dom thumb index palm base); cbn [negb]; [|exact H].
  destruct (pinchActive s) eqn:Hp; cbn [stateOf].
  - apply (sessionInv_binding s); [|exact H].
    apply widgetsOnly_binding, widgetsOnly_dragTo.
  - assert (Hd : draggingId s = None).
    { destruct (draggingId s) as [w|] eqn:Hd; [|reflexivity].
      destruct H as [_ H2]. destruct (H2 w Hd) as (Hp' & _). congruence. }
    set (s0 := set_pinchMode PinchIdle (set_pinchActive true s)).
    assert (H0 : sessionInv s0).
    { unfold sessionInv, s0. cbn. rewrite Hd.
      split; [split; discriminate | discriminate]. }
    destruct (pressed dom now _ s0) as [btn|]; cbn [stateOf].
    + pose proof (sessionInv_runAction dom (action btn) s0 H0) as [_ Hr].
      destruct (session_runAction dom (action btn) s0) as (d & e & Hs & Hdd).
      apply session_same in Hs as (Hd' & Hpa & _).
      unfold sessionInv. cbn. rewrite Hpa, Hd'. cbn.
      split; [split; discriminate|].
      destruct Hdd as [-> | ->]; cbn; rewrite ?Hd; discriminate.
    + apply (sessionInv_binding
               (bindWidget dom (pinchPointMirror dom (mode s) index) s0)).
      * apply widgetsOnly_binding, widgetsOnly_dragTo.
      * now apply sessionInv_bindWidget.
Qed.

Lemma sessionInv_pinchLoop (dom : Dom) (now : Z) (hands : list (list Point))
  (anyPinch : bool) (s : State) :
  sessionInv s ->
  sessionInv (stateOf (pinchLoop dom now hands anyPinch s)).
Proof.
  revert anyPinch s.
  induction hands as [|lm hands IH]; intros anyPinch s H; cbn [pinchLoop].
  - exact H.
  - pose proof (sessionInv_processPinch dom now lm s H) as H'.
    destruct (processPinch dom now lm s) as [b s'|s']; cbn [andThen stateOf] in *.
    + now apply IH.
    + exact H'.
Qed.

Lemma sessionInv_release (dom : Dom) (anyPinch : bool) (s : State) :
  sessionInv s -> sessionInv (release dom anyPinch s).
Proof.
  intros H. unfold release.
  destruct (negb anyPinch && pinchActive s); [|exact H].
  unfold sessionInv. cbn. split; [split; reflexivity | discriminate].
Qed.

Lemma sessionInv_swipeHand (now : Z) (landmarks : list Point) (s : State) :
  sessionInv s -> sessionInv (stateOf (swipeHand now landmarks s)).
Proof.
  intros H. unfold swipeHand.
  destruct (landmarks !! 8%nat) as [tip|]; [|exact H].
  destruct (swipeStartX s) as [startX|]; [|exact H].
  cbv zeta. cbn [stateOf].
  set (s1 := swipeSwitch _ _ _ _ s).
  assert (H1 : sessionInv s1).
  { subst s1. unfold swipeSwitch. destruct (_ && _ && _); [|exact H].
    destruct (_ && _).
    - apply (sessionInv_binding (setMode TryOn s)); [reflexivity|].
      now apply sessionInv_setMode.
    - destruct (_ && _); [|exact H].
      apply (sessionInv_binding (setMode Mirror s)); [reflexivity|].
      now apply sessionInv_setMode. }
  unfold reanchor. destruct (_ || _); exact H1.
Qed.

Lemma sessionInv_detectSwipes (now : Z) (hands : list (list Point))
  (s : State) :
  sessionInv s -> sessionInv (stateOf (detectSwipes now hands s)).
Proof.
  unfold detectSwipes. revert s.
  induction hands as [|lm hands IH]; intros s H; cbn [forEach].
  - exact H.
  - pose proof (sessionInv_swipeHand now lm s H) as H'.
    destruct (swipeHand now lm s) as [[] s'|s']; cbn [andThen stateOf] in *.
    + now apply IH.
    + exact H'.
Qed.

Lemma binding_thumbLoop (now : Z) (hands : list (list Point)) (s : State) :
  binding (stateOf (thumbLoop now hands s)) = binding s.
Proof.
  induction hands as [|lm hands IH]; cbn [thumbLoop]; [reflexivity|].
  destruct (fingersFolded lm) as [[|]|]; auto.
  destruct (thumbsUp lm) as [[|]|]; auto.
  - cbn [stateOf]. unfold savePhoto. cbn.
    destruct (captureDataUrl s); [|reflexivity]. now destruct (_ || _).
  - destruct (thumbsDown lm) as [[|]|]; auto.
    cbn [stateOf]. unfold retakePhoto. now rewrite binding_triggerShutter.
Qed.

Lemma sessionInv_onResults (dom : Dom) (now : Z)
  (hands : option (list (list Point))) (s : State) :
  sessionInv s -> sessionInv (stateOf (onResults dom now hands s)).
Proof.
  intros H. apply onResults_cases.
  { unfold sessionInv. cbn. split; [split; reflexivity | discriminate]. }
  intros hs _.
  pose proof (sessionInv_pinchLoop dom now hs false s H) as Hloop.
  apply stateOf_andThen.
  - intros s1 E. now rewrite E in Hloop.
  - intros b s1 E. rewrite E in Hloop. cbn [stateOf] in Hloop. cbv zeta.
    pose proof (sessionInv_release dom b s1 Hloop) as H2.
    pose proof (sessionInv_detectSwipes now hs _ H2) as H3.
    apply stateOf_andThen.
    + intros s3 E3. now rewrite E3 in H3.
    + intros [] s3 E3. rewrite E3 in H3. cbn [stateOf] in H3.
      destruct (_ && _ && _); [|exact H3].
      unfold detectThumbGestures. destruct (_ <? _)%Z; [exact H3|].
      apply (sessionInv_binding s3); [apply binding_thumbLoop | exact H3].
Qed.

Lemma sessionInv_step (s : State) (e : Event) :
  sessionInv s -> sessionInv (step s e).
Proof.
  intros H. destruct e as [dom now hands|dom act|dom h|dom]; cbn [step].
  - now apply sessionInv_onResults.
  - now apply sessionInv_runAction.
  - apply (sessionInv_binding s); [|exact H].
    unfold countdownTick. destruct (List.find _ _); [|reflexivity].
    cbv zeta. destruct (_ <=? _)%Z; [|reflexivity].
    unfold clearInterval. cbn. now destruct (countdownTimer s).
  - apply (sessionInv_binding s); [|exact H].
    apply widgetsOnly_binding, widgetsOnly_initWidgetState.
Qed.

(** X12. In every state the script reaches, the pinch session is inactive
    exactly when its mode is none, and a widget is bound only while the
    session is active in drag mode, in edit mode and in Mirror mode: no drag
    binding survives a release, the end of edit mode or a mode switch. *)
Theorem session_invariant (evs : list Event) :
  sessionInv (run initial evs)
  /\ (pinchActive (run initial evs) = false ->
      draggingId (run initial evs) = None)
  /\ (editMode (run initial evs) = false ->
      draggingId (run initial evs) = None)
  /\ (mode (run initial evs) = TryOn -> draggingId (run initial evs) = None).
Proof.
  assert (H : sessionInv (run initial evs)).
  { assert (G : forall s, sessionInv s -> sessionInv (run s evs)).
    { induction evs as [|e evs IH]; intros s Hs; cbn [run fold_left].
      - exact Hs.
      - apply IH, sessionInv_step, Hs. }
    apply G. unfold sessionInv. cbn.
    split; [split; reflexivity | discriminate]. }
  split; [exact H|]. destruct H as [_ H2].
  repeat split; intros Hx;
    (destruct (draggingId (run initial evs)) as [w|] eqn:Hd; [|reflexivity]);
    destruct (H2 w eq_refl) as (? & ? & ? & ? & ?); congruence.
Qed.

(** ** Widgets outside edit mode *)

Lemma widgetState_triggerShutter (s : State) :
  widgetState (triggerShutter s) = widgetState s.
Proof.
  unfold triggerShutter. destruct (mode s); [reflexivity|].
  now destruct (isCountingDown s).
Qed.

Lemma widgetState_setEditMode (on : bool) (s : State) :
  widgetState (setEditMode on s) = widgetState s.
Proof. unfold setEditMode. now destruct on. Qed.

Lemma widgetState_setMode (next : Mode) (s : State) :
  widgetState (setMode next s) = widgetState s.
Proof.
  unfold setMode. destruct (Mode_eqb (mode s) next); [reflexivity|].
  unfold setEditMode. destruct next; cbn; now destruct (countdownTimer s).
Qed.

Lemma widgetState_swipeHand (now : Z) (landmarks : list Point) (s : State) :
  widgetState (stateOf (swipeHand now landmarks s)) = widgetState s.
Proof.
  unfold swipeHand.
  destruct (landmarks !! 8%nat) as [tip|]; [|reflexivity].
  destruct (swipeStartX s) as [startX|]; [|reflexivity].
  cbv zeta. cbn [stateOf].
  set (s1 := swipeSwitch _ _ _ _ s).
  assert (H1 : widgetState s1 = widgetState s).
  { subst s1. unfold swipeSwitch. destruct (_ && _ && _); [|reflexivity].
    destruct (_ && _); [cbn; apply widgetState_setMode|].
    destruct (_ && _); [cbn; apply widgetState_setMode | reflexivity]. }
  unfold reanchor. now destruct (_ || _).
Qed.

Lemma widgetState_detectSwipes (now : Z) (hands : list (list Point))
  (s : State) :
  widgetState (stateOf (detectSwipes now hands s)) = widgetState s.
Proof.
  unfold detectSwipes. revert s.
  induction hands as [|lm hands IH]; intros s; cbn [forEach].
  - reflexivity.
  - pose proof (widgetState_swipeHand now lm s) as H.
    destruct (swipeHand now lm s) as [[] s'|s']; cbn [andThen stateOf] in *.
    + now rewrite IH.
    + exact H.
Qed.

Lemma widgetState_thumbStage (now : Z) (hs : list (list Point)) (s3 : State) :
  widgetState
    (stateOf
       (if Mode_eqb (mode s3) TryOn && photoReady s3
           && negb (isCountingDown s3)
        then detectThumbGestures now hs s3 else Ok tt s3))
  = widgetState s3.
Proof.
  destruct (_ && _ && _); [|reflexivity].
  unfold detectThumbGestures. destruct (_ <? _)%Z; [reflexivity|].
  induction hs as [|lm hs IH]; cbn [thumbLoop]; [reflexivity|].
  destruct (fingersFolded lm) as [[|]|]; auto.
  destruct (thumbsUp lm) as [[|]|]; auto.
  - cbn [stateOf]. unfold savePhoto.
    destruct (captureDataUrl _); [|reflexivity]. now destruct (_ || _).
  - destruct (thumbsDown lm) as [[|]|]; auto.
    cbn [stateOf]. unfold retakePhoto. now rewrite widgetState_triggerShutter.
Qed.

Lemma dragTo_unbound (point : Point) (s : State) :
  draggingId s = None -> dragTo point s = s.
Proof. intros H. unfold dragTo. rewrite H. now destruct (pinchMode s). Qed.

(** What the pinch loop keeps when it starts outside edit mode with no
    widget bound: either the widgets are as they were, or a reset has just
    been fired. *)
Lemma pinchLoop_outside_edit (dom : Dom) (now : Z) (s : State)
  (hands : list (list Point)) :
  forall anyPinch s1,
    draggingId s1 = None ->
    (pinchActive s1 = true
     /\ (widgetState s1 = widgetState s
         \/ fired s1 = (now, "reset") :: fired s))
    \/ (pinchActive s1 = false /\ editMode s1 = false
        /\ widgetState s1 = widgetState s /\ fired s1 = fired s) ->
    draggingId (stateOf (pinchLoop dom now hands anyPinch s1)) = None
    /\ (widgetState (stateOf (pinchLoop dom now hands anyPinch s1))
        = widgetState s
        \/ fired (stateOf (pinchLoop dom now hands anyPinch s1))
           = (now, "reset") :: fired s).
Proof.
  induction hands as [|lm hands IH]; intros anyPinch s1 Hd HK;
    cbn [pinchLoop].
  - cbn [stateOf]. split; [exact Hd|].
    destruct HK as [(_ & HK) | (_ & _ & HW & _)]; auto.
  - assert (Hstep :
      draggingId (stateOf (processPinch dom now lm s1)) = None
      /\ ((pinchActive (stateOf (processPinch dom now lm s1)) = true
           /\ (widgetState (stateOf (processPinch dom now lm s1))
               = widgetState s
               \/ fired (stateOf (processPinch dom now lm s1))
                  = (now, "reset") :: fired s))
          \/ (pinchActive (stateOf (processPinch dom now lm s1)) = false
              /\ editMode (stateOf (processPinch dom now lm s1)) = false
              /\ widgetState (stateOf (processPinch dom now lm s1))
                 = widgetState s
              /\ fired (stateOf (processPinch dom now lm s1)) = fired s))).
    { unfold processPinch.
      destruct (lm !! 4%nat) as [thumb|]; [|now split].
      destruct (lm !! 8%nat) as [index|]; [|now split].
      destruct (lm !! 0%nat) as [palm|]; [|now split].
      destruct (lm !! 9%nat) as [base|]; [|now split].
      cbv zeta. destruct (isPinching dom thumb index palm base); cbn [negb];
        [|now split].
      destruct (pinchActive s1) eqn:Hp; cbn [stateOf].
      - rewrite dragTo_unbound by assumption. split; [exact Hd|].
        destruct HK as [(_ & HK) | (Hf & _)]; [left; auto | discriminate].
      - destruct HK as [(Hp' & _) | (_ & He & HW & HF)]; [congruence|].
        set (s0 := set_pinchMode PinchIdle (set_pinchActive true s1)).
        destruct (pressed dom now _ s0) as [btn|]; cbn [stateOf].
        + destruct (session_runAction dom (action btn) s0)
            as (d & e & Hs & Hdd).
          apply session_same in Hs as (Hd' & Hpa & _ & Hf & _).
          cbn. rewrite Hd', Hpa, Hf. cbn.
          split; [destruct Hdd as [-> | ->]; [exact Hd | reflexivity]|].
          left. split; [reflexivity|].
          destruct (String.eqb_spec (action btn) "reset") as [Hr | Hr].
          * right. now rewrite Hr, HF.
          * left. rewrite <- HW. unfold runAction.
            destruct (String.eqb_spec (action btn) "reset"); [contradiction|].
            destruct (String.eqb (action btn) "toggle-edit"),
                     (String.eqb (action btn) "shutter");
              rewrite ?widgetState_triggerShutter, ?widgetState_setEditMode;
              reflexivity.
        + assert (Hb : bindWidget dom (pinchPointMirror dom (mode s1) index) s0
                       = s0).
          { unfold bindWidget. change (editMode s0) with (editMode s1).
            now rewrite He. }
          rewrite Hb, dragTo_unbound by exact Hd.
          split; [exact Hd|]. left. split; [reflexivity|]. now left. }
    destruct Hstep as [Hd' HK'].
    destruct (processPinch dom now lm s1) as [b s'|s'];
      cbn [andThen stateOf] in *.
    + now apply IH.
    + split; [exact Hd'|].
      destruct HK' as [(_ & HK') | (_ & _ & HW & _)]; auto.
Qed.

(** X11. Outside edit mode, with no widget bound, a frame moves no widget: the
    only thing a frame can then do to the widgets is a pinch on the reset
    button, which the trace shows.  In particular a pinch on the edit
    toggle never drags in the frame that presses it. *)
Theorem no_drag_outside_edit_mode (dom : Dom) (now : Z)
  (hands : option (list (list Point))) (s : State) :
  editMode s = false -> draggingId s = None ->
  widgetState (stateOf (onResults dom now hands s)) = widgetState s
  \/ fired (stateOf (onResults dom now hands s)) = (now, "reset") :: fired s.
Proof.
  intros He Hd. apply onResults_cases; [now left|]. intros hs _.
  assert (HK : (pinchActive s = true
                /\ (widgetState s = widgetState s
                    \/ fired s = (now, "reset") :: fired s))
               \/ (pinchActive s = false /\ editMode s = false
                   /\ widgetState s = widgetState s /\ fired s = fired s)).
  { destruct (pinchActive s); [left | right]; auto. }
  destruct (pinchLoop_outside_edit dom now s hs false s Hd HK) as [Hd1 HW1].
  apply stateOf_andThen.
  - intros s1 E. now rewrite E in HW1.
  - intros b s1 E. rewrite E in Hd1, HW1. cbn [stateOf] in Hd1, HW1. cbv zeta.
    destruct (fired_after_pinchLoop dom now hs b s1 _ eq_refl) as [_ Hf].
    cbv zeta in Hf.
    assert (Hrel : widgetState (release dom b s1) = widgetState s1).
    { unfold release. destruct (_ && _); [|reflexivity]. now rewrite Hd1. }
    assert (Hw : widgetState
                   (stateOf
                      (let? (_u, s3) :=
                         detectSwipes now hs (release dom b s1) in
                       if Mode_eqb (mode s3) TryOn && photoReady s3
                          && negb (isCountingDown s3)
                       then detectThumbGestures now hs s3 else Ok tt s3))
                 = widgetState s1).
    { pose proof (widgetState_detectSwipes now hs (release dom b s1)) as Hsw.
      apply stateOf_andThen.
      - intros s3 E3. rewrite E3 in Hsw. cbn [stateOf] in Hsw. congruence.
      - intros [] s3 E3. rewrite E3 in Hsw. cbn [stateOf] in Hsw.
        rewrite widgetState_thumbStage. congruence. }
    rewrite Hw, Hf. exact HW1.
Qed.

Lemma no_drag_outside_edit_mode_witness :
  offsetOf viewAB "a" = mkPoint 150 0
  /\ pinchActive (stateOf (onResults domBtn 5000 (Some [pinchInA]) viewAB))
     = true
  /\ widgetState (stateOf (onResults domBtn 5000 (Some [pinchInA]) viewAB))
     = widgetState viewAB.
Proof.
  split; [reflexivity|]. split; [reflexivity|].
  destruct (no_drag_outside_edit_mode domBtn 5000 (Some [pinchInA]) viewAB)
    as [H | H]; [reflexivity | reflexivity | exact H | discriminate H].
Defined.

(** ** Runs *)

(** A pinch held over the reset button, released and repeated: the action
    fires at 5000, not while the pinch is held, not at 5300 (within the
    cooldown), and again at 5900. *)
Example button_cooldown_run :
  fired (run initial
           [Results domBtn 5000 (Some [pinchAtButton]);
            Results domBtn 5100 (Some [pinchAtButton]);
            Results domBtn 5200 (Some [handAt 0.95]);
            Results domBtn 5300 (Some [pinchAtButton]);
            Results domBtn 5400 (Some [handAt 0.95]);
            Results domBtn 5900 (Some [pinchAtButton])])
  = [(5900, "reset"); (5000, "reset")].
Proof. vm_compute. reflexivity. Qed.

(** A swipe of 0.25 to the right within 400 ms enters Try-On mode; a swipe
    back 400 ms later is ignored; one completed 950 ms after the switch
    returns to Mirror mode. *)
Example swipe_run :
  mode (run initial
          [Results dom0 10000 (Some [handAt 0.7]);
           Results dom0 10400 (Some [handAt 0.45])]) = TryOn
  /\ mode (run initial
             [Results dom0 10000 (Some [handAt 0.7]);
              Results dom0 10400 (Some [handAt 0.45]);
              Results dom0 10500 (Some [handAt 0.45]);
              Results dom0 10800 (Some [handAt 0.8])]) = TryOn
  /\ mode (run initial
             [Results dom0 10000 (Some [handAt 0.7]);
              Results dom0 10400 (Some [handAt 0.45]);
              Results dom0 10500 (Some [handAt 0.45]);
              Results dom0 10800 (Some [handAt 0.55]);
              Results dom0 11350 (Some [handAt 0.8])]) = Mirror.
Proof. split; [|split]; vm_compute; reflexivity. Qed.
